(** * mini-poker-solver: the strategy-dump parsers

    A shallow embedding of [parse_strategy_p0.py] and [parse_strategy_p1.py].
    Both scripts read a text dump of per-information-set probability vectors,
    keep the lines of one player's sections, index the vectors by card and by
    a "history|actions" key, and compose them into a table of compound
    probabilities.

    Conventions of the embedding:
    - a Python [str] is a [string] whose characters are the code points below
      256;
    - a Python [float] is an IEEE 754 binary64 value, a [spec_float] at
      precision 53 and maximal exponent 1024, rounded to nearest even;
    - a Python [dict] is an association list in insertion order (the order is
      observable through the stable [sorted] call);
    - a raised exception is a value [Err e] of the [result] type:
      ValueError and IndexError are the two a run can end with on a
      readable file; KeyError is what a subscript of a dict raises on an
      absent key, which no run does (lemma [run_no_KeyError]). *)

From Stdlib Require Import Bool Arith ZArith QArith Qabs Qpower Lia Lqa List Ascii String.
From Stdlib Require Import Permutation Sorted.
From Stdlib Require Import NArith DecimalString.
From Stdlib Require Import Floats.SpecFloat.
Import ListNotations.

Close Scope Q_scope.
Close Scope Z_scope.
Open Scope nat_scope.
Open Scope string_scope.

(** ** Exceptions *)

Inductive exn : Type :=
| ValueError
| IndexError
| KeyError.

Inductive result (A : Type) : Type :=
| Ok (a : A)
| Err (e : exn).

Arguments Ok {A} a.
Arguments Err {A} e.

Definition bind {A B : Type} (r : result A) (k : A -> result B) : result B :=
  match r with
  | Ok a => k a
  | Err e => Err e
  end.

Notation "x <- r ;; k" := (bind r (fun x => k))
  (at level 61, r at next level, right associativity).
Notation "' p <- r ;; k" := (bind r (fun p => k))
  (at level 61, p pattern, r at next level, right associativity).

Definition is_ok {A : Type} (r : result A) : bool :=
  match r with
  | Ok _ => true
  | Err _ => false
  end.

(** [l[i]] for a non-negative constant [i]. *)
Definition item {A : Type} (l : list A) (i : nat) : result A :=
  match nth_error l i with
  | Some a => Ok a
  | None => Err IndexError
  end.

(** [a, b = l]. *)
Definition unpack2 {A : Type} (l : list A) : result (A * A) :=
  match l with
  | [a; b] => Ok (a, b)
  | _ => Err ValueError
  end.

Fixpoint mapM {A B : Type} (f : A -> result B) (l : list A) : result (list B) :=
  match l with
  | [] => Ok []
  | a :: l' =>
      b <- f a ;;
      bs <- mapM f l' ;;
      Ok (b :: bs)
  end.

(** ** Python string methods *)

Module PyStr.

Definition tab : ascii := ascii_of_nat 9.
Definition newline : ascii := ascii_of_nat 10.
Definition carriage_return : ascii := ascii_of_nat 13.

(** [str.isspace] on one character below code point 256. *)
Definition isspace (c : ascii) : bool :=
  let n := nat_of_ascii c in
  (Nat.leb 9 n && Nat.leb n 13) || (Nat.leb 28 n && Nat.leb n 32)
  || Nat.eqb n 133 || Nat.eqb n 160.

Fixpoint lstrip (s : string) : string :=
  match s with
  | String c s' => if isspace c then lstrip s' else s
  | EmptyString => EmptyString
  end.

Fixpoint rstrip (s : string) : string :=
  match s with
  | String c s' =>
      match rstrip s' with
      | EmptyString => if isspace c then EmptyString else String c EmptyString
      | r => String c r
      end
  | EmptyString => EmptyString
  end.

Definition strip (s : string) : string := rstrip (lstrip s).

Definition startswith (s p : string) : bool := prefix p s.

(** [c in s] for a character [c]. *)
Fixpoint has_char (c : ascii) (s : string) : bool :=
  match s with
  | String c' s' => Ascii.eqb c c' || has_char c s'
  | EmptyString => false
  end.

(** [s.split(sep)] for a non-empty [sep]: [k] counts the characters of a
    separator just matched that are still to be skipped.  The head of the
    result is the piece being read. *)
Fixpoint split_from (sep : string) (k : nat) (s : string) : list string :=
  match s with
  | EmptyString => [EmptyString]
  | String c s' =>
      match k with
      | S k' => split_from sep k' s'
      | O =>
          if prefix sep s then EmptyString :: split_from sep (length sep - 1) s'
          else
            match split_from sep 0 s' with
            | h :: t => String c h :: t
            | [] => [String c EmptyString]
            end
      end
  end.

Definition split (s sep : string) : list string := split_from sep 0 s.

(** [s.split()]: the maximal runs of non-space characters. *)
Fixpoint split_ws (s : string) : list string :=
  match s with
  | EmptyString => []
  | String c s' =>
      if isspace c then split_ws s'
      else
        match s' with
        | EmptyString => [String c EmptyString]
        | String c' _ =>
            if isspace c' then String c EmptyString :: split_ws s'
            else
              match split_ws s' with
              | h :: t => String c h :: t
              | [] => [String c EmptyString]
              end
        end
  end.

(** [sep.join(l)]. *)
Definition join (sep : string) (l : list string) : string := concat sep l.

(** [s.index(x)]: the position of the first occurrence of [x] in [s]. *)
Definition index (s x : string) : result nat :=
  match String.index 0 x s with
  | Some n => Ok n
  | None => Err ValueError
  end.

(** [f.readlines()] in text mode: the lines end at "\n", "\r\n" or "\r",
    each read as "\n". *)
Fixpoint readlines (s : string) : list string :=
  match s with
  | EmptyString => []
  | String c s' =>
      if Ascii.eqb c newline then String newline EmptyString :: readlines s'
      else if Ascii.eqb c carriage_return then
        match s' with
        | String c' s'' =>
            if Ascii.eqb c' newline
            then String newline EmptyString :: readlines s''
            else String newline EmptyString :: readlines s'
        | EmptyString => [String newline EmptyString]
        end
      else
        match readlines s' with
        | h :: t => String c h :: t
        | [] => [String c EmptyString]
        end
  end.

End PyStr.

(** ** Python floats *)

Module PyFloat.

Definition prec : Z := 53.
Definition emax : Z := 1024.

Definition float : Type := spec_float.

Definition zero : float := S754_zero false.
Definition one : float := S754_finite false 4503599627370496 (-52).
Definition inf : float := S754_infinity false.
Definition nan : float := S754_nan.

(** [x * y]. *)
Definition mul (x y : float) : float := SFmul prec emax x y.

(** [x >= 0]; false at nan, true at both zeros. *)
Definition ge0 (x : float) : bool := SFleb zero x.

Definition is_finite (x : float) : bool :=
  match x with
  | S754_zero _ | S754_finite _ _ _ => true
  | _ => false
  end.

(** The rational a finite float stands for; 0 at the infinities and nan. *)
Definition SF2Q (x : float) : Q :=
  match x with
  | S754_finite s m e =>
      ((if s then Qopp else fun q => q) (inject_Z (Zpos m)) * Qpower 2 e)%Q
  | _ => 0%Q
  end.

(** The float nearest to [m * 10 ^ e10], ties to even, signed by [neg]:
    the quotient of [m * 10 ^ max e10 0] by [10 ^ max (- e10) 0] with its
    rounding location, then rounded. *)
Definition of_decimal (neg : bool) (m e10 : Z) : float :=
  match m with
  | Z0 => S754_zero neg
  | _ =>
      let num := (m * 10 ^ Z.max e10 0)%Z in
      let den := (10 ^ Z.max (- e10) 0)%Z in
      let '(q, e, l) := SFdiv_core_binary prec emax num 0 den 0 in
      binary_round_aux prec emax neg q e l
  end.

Definition digit_of (c : ascii) : option Z :=
  let n := nat_of_ascii c in
  if Nat.leb 48 n && Nat.leb n 57 then Some (Z.of_nat (n - 48)) else None.

(** The rest of a digitpart, [(["_"] digit)*]: [acc] is the number read so
    far and [cnt] the count of its digits. *)
Fixpoint digits_tail (acc cnt : Z) (s : string) : Z * Z * string :=
  match s with
  | String c s' =>
      match digit_of c with
      | Some d => digits_tail (10 * acc + d) (cnt + 1) s'
      | None =>
          if Ascii.eqb c "_" then
            match s' with
            | String c2 s'' =>
                match digit_of c2 with
                | Some d => digits_tail (10 * acc + d) (cnt + 1) s''
                | None => (acc, cnt, s)
                end
            | EmptyString => (acc, cnt, s)
            end
          else (acc, cnt, s)
      end
  | EmptyString => (acc, cnt, s)
  end.

(** [digitpart ::= digit (["_"] digit)*]. *)
Definition digitpart (acc cnt : Z) (s : string) : option (Z * Z * string) :=
  match s with
  | String c s' =>
      match digit_of c with
      | Some d => Some (digits_tail (10 * acc + d) (cnt + 1) s')
      | None => None
      end
  | EmptyString => None
  end.

Definition sign_of (s : string) : bool * string :=
  match s with
  | String "-" s' => (true, s')
  | String "+" s' => (false, s')
  | _ => (false, s)
  end.

(** [number ::= [digitpart] "." digitpart | digitpart ["."]]: the digits
    read as one integer, the count of those after the point, and the rest. *)
Definition number (s : string) : option (Z * Z * string) :=
  match s with
  | String "." s' => digitpart 0 0 s'
  | _ =>
      match digitpart 0 0 s with
      | Some (m, _, String "." s') =>
          match digitpart m 0 s' with
          | Some r => Some r
          | None => Some (m, 0%Z, s')
          end
      | Some (m, _, rest) => Some (m, 0%Z, rest)
      | None => None
      end
  end.

(** [[exponent]] up to the end of the string,
    [exponent ::= ("e" | "E") [sign] digitpart]. *)
Definition exponent (s : string) : option Z :=
  match s with
  | EmptyString => Some 0%Z
  | String c s' =>
      if Ascii.eqb c "e" || Ascii.eqb c "E" then
        let '(neg, s'') := sign_of s' in
        match digitpart 0 0 s'' with
        | Some (x, _, EmptyString) => Some (if neg then (- x)%Z else x)
        | _ => None
        end
      else None
  end.

Definition lower_char (c : ascii) : ascii :=
  let n := nat_of_ascii c in
  if Nat.leb 65 n && Nat.leb n 90 then ascii_of_nat (n + 32) else c.

Fixpoint lower (s : string) : string :=
  match s with
  | String c s' => String (lower_char c) (lower s')
  | EmptyString => EmptyString
  end.

(** [float(s)] on a string. *)
Definition float_of_string (s : string) : result float :=
  let '(neg, r) := sign_of (PyStr.strip s) in
  let l := lower r in
  if String.eqb l "inf" || String.eqb l "infinity" then Ok (S754_infinity neg)
  else if String.eqb l "nan" then Ok S754_nan
  else
    match number r with
    | Some (m, k, rest) =>
        match exponent rest with
        | Some x => Ok (of_decimal neg m (x - k))
        | None => Err ValueError
        end
    | None => Err ValueError
    end.

End PyFloat.

(** ** Dictionaries in insertion order *)

Section Dict.

Context {V : Type}.

Definition dict : Type := list (string * V).

(** [d.get(k)], [None] when the key is absent. *)
Fixpoint dict_get (d : dict) (k : string) : option V :=
  match d with
  | [] => None
  | (k', v) :: d' => if String.eqb k k' then Some v else dict_get d' k
  end.

(** [d.get(k, default)]. *)
Definition dict_get_default (d : dict) (k : string) (default : V) : V :=
  match dict_get d k with
  | Some v => v
  | None => default
  end.

(** [d[k]]. *)
Definition dict_item (d : dict) (k : string) : result V :=
  match dict_get d k with
  | Some v => Ok v
  | None => Err KeyError
  end.

(** [k in d]. *)
Definition dict_mem (d : dict) (k : string) : bool :=
  match dict_get d k with
  | Some _ => true
  | None => false
  end.

(** [d[k] = v]: an existing key keeps its place, a new one goes last. *)
Fixpoint dict_set (d : dict) (k : string) (v : V) : dict :=
  match d with
  | [] => [(k, v)]
  | (k', v') :: d' =>
      if String.eqb k k' then (k', v) :: d' else (k', v') :: dict_set d' k v
  end.

(** [d.keys()]. *)
Definition dict_keys (d : dict) : list string := map fst d.

End Dict.

Arguments dict V : clear implicits.

(** ** The code the two scripts share *)

Module Dump.

Import PyStr PyFloat.

(** [strategies[card]]: key "history|actions" to probability vector. *)
Definition card_strategy : Type := dict (list float).

(** [strategies]: card to [card_strategy]. *)
Definition strategy_index : Type := dict card_strategy.

(** One step of the first loop on the flag [in_player]. *)
Definition in_player_step (header : string) (in_player : bool) (line : string)
  : bool :=
  if String.eqb (strip line) header then true
  else if String.eqb (strip line) "END" then false
  else in_player.

(** The flag after the first loop has read [lines]. *)
Definition in_player_after (header : string) (in_player : bool)
  (lines : list string) : bool :=
  fold_left (in_player_step header) lines in_player.

(** The first loop: the stripped, non-blank lines between a line equal to
    [header] and a line "END". *)
Fixpoint player_lines (header : string) (in_player : bool)
  (lines : list string) : list string :=
  match lines with
  | [] => []
  | line :: rest =>
      if String.eqb (strip line) header then player_lines header true rest
      else if String.eqb (strip line) "END" then player_lines header false rest
      else if in_player && negb (String.eqb (strip line) "")
      then strip line :: player_lines header in_player rest
      else player_lines header in_player rest
  end.

(** "Extract card and betting history": card, history, actions. *)
Definition parse_info (info : string) : result (string * string * list string) :=
  after_card <- item (split info "Card: ") 1 ;;
  card <- item (split after_card ",") 0 ;;
  after_history <- item (split info "History: ") 1 ;;
  before_actions <- item (split after_history " Actions:") 0 ;;
  let history := strip before_actions in
  after_actions <- item (split info "Actions: ") 1 ;;
  inside <- item (split after_actions "]") 0 ;;
  let actions := split inside ", " in
  Ok (card, history, actions).

(** One parsed line: card, history, actions, probabilities. *)
Definition record : Type := string * string * list string * list float.

(** "Parse the line", then [parse_info]. *)
Definition parse_line (line : string) : result record :=
  '(info, probs) <- unpack2 (split line (String tab "")) ;;
  probs <- mapM float_of_string (split_ws probs) ;;
  '(card, history, actions) <- parse_info info ;;
  Ok (card, history, actions, probs).

(** "Store in dictionary", with the key computed by [make_key]. *)
Definition store (make_key : string -> list string -> result string)
  (strategies : strategy_index) (r : record) : result strategy_index :=
  let '(card, history, actions, probs) := r in
  let strategies :=
    if negb (dict_mem strategies card) then dict_set strategies card []
    else strategies in
  card_data <- dict_item strategies card ;;
  key <- make_key history actions ;;
  Ok (dict_set strategies card (dict_set card_data key probs)).

(** The body of the second loop. *)
Definition process_line (tag : string)
  (make_key : string -> list string -> result string)
  (strategies : strategy_index) (line : string) : result strategy_index :=
  if negb (startswith line tag) then Ok strategies
  else
    r <- parse_line line ;;
    store make_key strategies r.

(** The second loop, from [strategies]. *)
Fixpoint process_lines (tag : string)
  (make_key : string -> list string -> result string)
  (strategies : strategy_index) (lines : list string) : result strategy_index :=
  match lines with
  | [] => Ok strategies
  | line :: rest =>
      strategies' <- process_line tag make_key strategies line ;;
      process_lines tag make_key strategies' rest
  end.

Definition card_order : string := "AKQJT98765432".

(** Stable insertion by key: [x] goes before the first element whose key is
    not below its own. *)
Fixpoint insert_by_key (x : nat * string) (l : list (nat * string))
  : list (nat * string) :=
  match l with
  | [] => [x]
  | y :: l' =>
      if Nat.leb (fst x) (fst y) then x :: l else y :: insert_by_key x l'
  end.

Fixpoint sort_by_key (l : list (nat * string)) : list (nat * string) :=
  match l with
  | [] => []
  | x :: l' => insert_by_key x (sort_by_key l')
  end.

(** [lambda x: card_order.index(x)], paired with [x]. *)
Definition with_rank (x : string) : result (nat * string) :=
  k <- index card_order x ;;
  Ok (k, x).

(** [sorted(strategies.keys(), key=lambda x: card_order.index(x))]: the keys
    are computed first, in order, then the list is sorted stably. *)
Definition sorted_cards (strategies : strategy_index) : result (list string) :=
  keyed <- mapM with_rank (dict_keys strategies) ;;
  Ok (map snd (sort_by_key keyed)).

(** [pd.DataFrame(values, columns=..., index=...)]; [values] by rows. *)
Record DataFrame : Type := {
  values : list (list float);
  columns : list string;
  index_labels : list string
}.

(** The array filled column by column: row [r] collects cell [r] of each
    card's column; a cell never written stays 0.0. *)
Definition rows_of_columns (n : nat) (cols : list (list float))
  : list (list float) :=
  map (fun r => map (fun col => nth r col zero) cols) (seq 0 n).

(** The cell at row [r] and column [c]. *)
Definition cell (df : DataFrame) (r c : nat) : option float :=
  match nth_error (values df) r with
  | Some row => nth_error row c
  | None => None
  end.

(** The vector stored for [card] under [key]. *)
Definition lookup (strategies : strategy_index) (card key : string)
  : option (list float) :=
  match dict_get strategies card with
  | Some card_data => dict_get card_data key
  | None => None
  end.

End Dump.

(** ** parse_strategy_p0.py *)

Module P0.

Import PyStr PyFloat.
Export Dump.

Definition header : string := "PLAYER: 0".
Definition tag : string := "[Player: 0".

(** The f-string of the store: two actions when there are exactly two,
    the first three otherwise. *)
Definition make_key (history : string) (actions : list string) : result string :=
  if Nat.eqb (List.length actions) 2 then
    a0 <- item actions 0 ;;
    a1 <- item actions 1 ;;
    Ok (history ++ "|" ++ a0 ++ "," ++ a1)
  else
    a0 <- item actions 0 ;;
    a1 <- item actions 1 ;;
    a2 <- item actions 2 ;;
    Ok (history ++ "|" ++ a0 ++ "," ++ a1 ++ "," ++ a2).

Definition player_0_lines (lines : list string) : list string :=
  player_lines header false lines.

(** [strategies] after the second loop. *)
Definition strategies_of (lines : list string) : result strategy_index :=
  process_lines tag make_key [] (player_0_lines lines).

(** The lookups of the third loop.  The integer defaults 0 and 1 are the
    floats 0.0 and 1.0 they become in the float64 array; an integer times a
    float is the product of the floats. *)
Definition check_prob (card_data : card_strategy) : result float :=
  item (dict_get_default card_data "|BET,CHECK" [zero; one]) 1.

Definition bet_prob (card_data : card_strategy) : result float :=
  item (dict_get_default card_data "|BET,CHECK" [one; zero]) 0.

Definition check_actions (card_data : card_strategy) : list float :=
  dict_get_default card_data "CHECK, BET|CALLBET,FOLD,RAISE" [zero; zero; zero].

Definition bet_actions (card_data : card_strategy) : list float :=
  dict_get_default card_data "BET, RAISE|CALLRAISE,FOLD" [zero; zero].

(** The body of the third loop: the five cells of one card's column. *)
Definition compound (card_data : card_strategy) : result (list float) :=
  check_prob <- check_prob card_data ;;
  bet_prob <- bet_prob card_data ;;
  let check_actions := check_actions card_data in
  let bet_actions := bet_actions card_data in
  check_fold <- item check_actions 1 ;;
  check_callbet <- item check_actions 0 ;;
  check_raise <- item check_actions 2 ;;
  bet_fold <- item bet_actions 1 ;;
  bet_callraise <- item bet_actions 0 ;;
  Ok [mul check_prob check_fold;
      mul check_prob check_callbet;
      mul check_prob check_raise;
      mul bet_prob bet_fold;
      mul bet_prob bet_callraise].

Definition strategy_names : list string :=
  ["CHECK+FOLD"; "CHECK+CALLBET"; "CHECK+RAISE"; "BET+FOLD"; "BET+CALLRAISE"].

(** The column of [card]. *)
Definition column_of (strategies : strategy_index) (card : string)
  : result (list float) :=
  card_data <- dict_item strategies card ;;
  compound card_data.

(** "Create the result table" to the end. *)
Definition build_table (strategies : strategy_index) : result DataFrame :=
  cards <- sorted_cards strategies ;;
  result <- mapM (column_of strategies) cards ;;
  Ok {| values := rows_of_columns 5 result;
        columns := cards;
        index_labels := strategy_names |}.

Definition parse_lines (lines : list string) : result DataFrame :=
  strategies <- strategies_of lines ;;
  build_table strategies.

(** [parse_strategy_file(filename)] on the text of the file. *)
Definition parse_strategy_file (text : string) : result DataFrame :=
  parse_lines (readlines text).

End P0.

(** ** parse_strategy_p1.py *)

Module P1.

Import PyStr PyFloat.
Export Dump.

Definition header : string := "PLAYER: 1".
Definition tag : string := "[Player: 1".

Definition make_key (history : string) (actions : list string) : result string :=
  Ok (history ++ "|" ++ join "," actions).

Definition player_1_lines (lines : list string) : list string :=
  player_lines header false lines.

Definition strategies_of (lines : list string) : result strategy_index :=
  process_lines tag make_key [] (player_1_lines lines).

Definition checked_to_probs (card_data : card_strategy) : list float :=
  dict_get_default card_data "CHECK|BET,CHECK" [zero; one].

Definition raise_response_probs (card_data : card_strategy) : list float :=
  dict_get_default card_data "CHECK, BET, RAISE|CALLRAISE,FOLD" [zero; one].

Definition bet_into_probs (card_data : card_strategy) : list float :=
  dict_get_default card_data "BET|CALLBET,FOLD,RAISE" [zero; zero; zero].

(** [callraise_prob] and [fold_to_raise_prob]: from the vector unless it is
    empty. *)
Definition raise_response (raise_response_probs : list float)
  : result (float * float) :=
  match raise_response_probs with
  | _ :: _ =>
      callraise_prob <- item raise_response_probs 0 ;;
      fold_to_raise_prob <- item raise_response_probs 1 ;;
      Ok (callraise_prob, fold_to_raise_prob)
  | [] => Ok (zero, one)
  end.

(** The body of the third loop: the three cells of the card's column in
    the checked-to table, then the three of the bet-into table. *)
Definition compound (card_data : card_strategy)
  : result (list float * list float) :=
  let checked_to_probs := checked_to_probs card_data in
  bet_prob <- item checked_to_probs 0 ;;
  check_prob <- item checked_to_probs 1 ;;
  '(callraise_prob, fold_to_raise_prob) <-
    raise_response (raise_response_probs card_data) ;;
  let bet_into_probs := bet_into_probs card_data in
  callbet <- item bet_into_probs 0 ;;
  fold <- item bet_into_probs 1 ;;
  raise <- item bet_into_probs 2 ;;
  Ok ([mul bet_prob callraise_prob; mul bet_prob fold_to_raise_prob; check_prob],
      [callbet; fold; raise]).

Definition checked_to_names : list string := ["BET+CALLRAISE"; "BET+FOLD"; "CHECK"].
Definition bet_into_names : list string := ["CALLBET"; "FOLD"; "RAISE"].

Definition column_of (strategies : strategy_index) (card : string)
  : result (list float * list float) :=
  card_data <- dict_item strategies card ;;
  compound card_data.

Definition build_tables (strategies : strategy_index)
  : result (DataFrame * DataFrame) :=
  cards <- sorted_cards strategies ;;
  result <- mapM (column_of strategies) cards ;;
  Ok ({| values := rows_of_columns 3 (map fst result);
         columns := cards;
         index_labels := checked_to_names |},
      {| values := rows_of_columns 3 (map snd result);
         columns := cards;
         index_labels := bet_into_names |}).

Definition parse_lines (lines : list string) : result (DataFrame * DataFrame) :=
  strategies <- strategies_of lines ;;
  build_tables strategies.

Definition parse_strategy_file (text : string) : result (DataFrame * DataFrame) :=
  parse_lines (readlines text).

End P1.

(** ** The two scripts side by side *)

Module Scripts.

Import PyStr PyFloat.
Export Dump.

Inductive script : Type :=
| p0
| p1.

Definition header (s : script) : string :=
  match s with
  | p0 => P0.header
  | p1 => P1.header
  end.

Definition tag (s : script) : string :=
  match s with
  | p0 => P0.tag
  | p1 => P1.tag
  end.

Definition make_key (s : script) : string -> list string -> result string :=
  match s with
  | p0 => P0.make_key
  | p1 => P1.make_key
  end.

Definition strategies_of (s : script) (lines : list string)
  : result strategy_index :=
  match s with
  | p0 => P0.strategies_of lines
  | p1 => P1.strategies_of lines
  end.

(** The tables a script returns, as a list. *)
Definition run_lines (s : script) (lines : list string) : result (list DataFrame) :=
  match s with
  | p0 => df <- P0.parse_lines lines ;; Ok [df]
  | p1 => '(checked_to, bet_into) <- P1.parse_lines lines ;; Ok [checked_to; bet_into]
  end.

Definition run (s : script) (text : string) : result (list DataFrame) :=
  run_lines s (readlines text).

(** The row labels of the tables of [run], in order. *)
Definition row_names (s : script) : list (list string) :=
  match s with
  | p0 => [["CHECK+FOLD"; "CHECK+CALLBET"; "CHECK+RAISE"; "BET+FOLD"; "BET+CALLRAISE"]]
  | p1 => [["BET+CALLRAISE"; "BET+FOLD"; "CHECK"]; ["CALLBET"; "FOLD"; "RAISE"]]
  end.

(** What the second loop does with one line: nothing, or one write of a
    vector under a card and a key. *)
Definition line_record (s : script) (line : string)
  : result (option (string * string * list float)) :=
  if negb (startswith line (tag s)) then Ok None
  else
    '(card, history, actions, probs) <- parse_line line ;;
    key <- make_key s history actions ;;
    Ok (Some (card, key, probs)).

(** The write [strategies[card][key] = probs], the card created if new. *)
Definition put (card key : string) (probs : list float)
  (strategies : strategy_index) : strategy_index :=
  dict_set strategies card (dict_set (dict_get_default strategies card []) key probs).

Definition apply_record (strategies : strategy_index)
  (r : option (string * string * list float)) : strategy_index :=
  match r with
  | Some (card, key, probs) => put card key probs strategies
  | None => strategies
  end.

(** The vector found so far for [card] and [key], after [line]. *)
Definition write_of (s : script) (card key : string)
  (found : option (list float)) (line : string) : option (list float) :=
  match line_record s line with
  | Ok (Some (card', key', probs)) =>
      if String.eqb card card' && String.eqb key key' then Some probs else found
  | _ => found
  end.

(** The vector of the last line of [lines] that writes under [card] and
    [key]. *)
Definition last_write (s : script) (card key : string) (lines : list string)
  : option (list float) :=
  fold_left (write_of s card key) lines None.

(** Each card of the index has each key once. *)
Definition inner_keys_NoDup (strategies : strategy_index) : Prop :=
  Forall (fun entry => NoDup (dict_keys (snd entry))) strategies.

Definition key_le (a b : nat * string) : Prop := fst a <= fst b.


(** The vector of a write satisfies [P] componentwise. *)
Definition record_satisfies (P : float -> Prop)
  (r : option (string * string * list float)) : Prop :=
  match r with
  | Some (_, _, probs) => Forall P probs
  | None => True
  end.

(** Every probability token of the lines the second loop stores, read as a
    float, satisfies [P]. *)
Definition tokens_satisfy (P : float -> Prop) (s : script) (lines : list string)
  : Prop :=
  Forall (fun line => forall r, line_record s line = Ok r -> record_satisfies P r)
    (player_lines (header s) false lines).

(** Every vector of the index satisfies [P] componentwise. *)
Definition all_probabilities (P : float -> Prop) (strategies : strategy_index)
  : Prop :=
  Forall (fun entry => Forall (fun kv => Forall P (snd kv)) (snd entry)) strategies.

End Scripts.

(** ** Numbers of the statements *)

Module Numbers.

Import PyFloat.

(** The float a decimal literal denotes. *)
Definition dec (s : string) : float :=
  match float_of_string s with
  | Ok x => x
  | Err _ => nan
  end.

(** [x] is finite and within [eps] of the rational [q]. *)
Definition near (eps : Q) (x : float) (q : Q) : Prop :=
  is_finite x = true /\ (Qabs (SF2Q x - q) <= eps)%Q.

(** A finite float in the interval from 0 to 1. *)
Definition probability (x : float) : Prop :=
  is_finite x = true /\ (0 <= SF2Q x)%Q /\ (SF2Q x <= 1)%Q.

(** A finite float that is not below 0. *)
Definition finite_nonneg (x : float) : Prop :=
  is_finite x = true /\ ge0 x = true.

(** The sum of the rationals of a list of floats. *)
Definition Qsum (l : list float) : Q :=
  fold_right (fun x acc => (SF2Q x + acc)%Q) 0%Q l.

Definition pow2 (e : Z) : Q := Qpower 2 e.

(** The rounding error allowed to one product of probabilities. *)
Definition mul_error : Q := Qpower 2 (-51).

(** The record of a right shift stands for the rational [w]: [shr_m] is its
    integer part, [shr_r] tells whether the rest reaches one half and
    [shr_s] whether something remains beyond that. *)
Definition encodes (mrs : shr_record) (w : Q) : Prop :=
  (0 <= shr_m mrs)%Z /\
  match shr_r mrs, shr_s mrs with
  | false, false => (w == inject_Z (shr_m mrs))%Q
  | false, true =>
      (inject_Z (shr_m mrs) < w /\ w < inject_Z (shr_m mrs) + (1 # 2))%Q
  | true, false => (w == inject_Z (shr_m mrs) + (1 # 2))%Q
  | true, true =>
      (inject_Z (shr_m mrs) + (1 # 2) < w /\ w < inject_Z (shr_m mrs) + 1)%Q
  end.

End Numbers.

(** ** The end-to-end scenario *)

Module Scenario.

Import PyStr PyFloat Numbers.

Definition nl : string := String newline "".
Definition tb : string := String tab "".

Definition after_check : string :=
  "[Player: 0 Card: A, History: CHECK, BET Actions: CALLBET, FOLD, RAISE]"
    ++ tb ++ "0.2 0.6 0.2" ++ nl.

Definition after_bet : string :=
  "[Player: 0 Card: A, History: BET, RAISE Actions: CALLRAISE, FOLD]"
    ++ tb ++ "0.9 0.1" ++ nl.

(** The three records as the scenario writes them: the root record has a
    comma between "History: " and "Actions:". *)
Definition spec_scenario : string :=
  "PLAYER: 0" ++ nl
    ++ "[Player: 0 Card: A, History: , Actions: BET, CHECK]" ++ tb ++ "0.7 0.3" ++ nl
    ++ after_check ++ after_bet ++ "END" ++ nl.

(** The same with the root record in the format of the dump: the empty
    history text, then " Actions:". *)
Definition dump_scenario : string :=
  "PLAYER: 0" ++ nl
    ++ "[Player: 0 Card: A, History:  Actions: BET, CHECK]" ++ tb ++ "0.7 0.3" ++ nl
    ++ after_check ++ after_bet ++ "END" ++ nl.

(** A record with a space where the tab should be. *)
Definition spaced_record : string :=
  "[Player: 0 Card: A, History:  Actions: BET, CHECK] 0.7 0.3" ++ nl.

Definition root_record (card probs : string) : string :=
  "[Player: 0 Card: " ++ card ++ ", History:  Actions: BET, CHECK]"
    ++ tb ++ probs ++ nl.

(** A dump of player 0 with these lines. *)
Definition dump_p0 (records : list string) : string :=
  "PLAYER: 0" ++ nl ++ concat "" records ++ "END" ++ nl.

(** Card A with its root record only. *)
Definition root_only : string := dump_p0 [root_record "A" "0.7 0.3"].

(** Card A with its root record and its record after CHECK, BET, and none
    after BET, RAISE. *)
Definition check_branch_only : string :=
  dump_p0 [root_record "A" "0.7 0.3"; after_check].

(** Card A with three probabilities for the two actions of the root. *)
Definition mismatched : string := dump_p0 [root_record "A" "0.7 0.2 0.1"].

(** The check probability of card A is the token inf. *)
Definition infinite_check : string := dump_p0 [root_record "A" "0.5 inf"].

(** A dump of player 1 with the three records of card K. *)
Definition dump_p1_K : string :=
  "PLAYER: 1" ++ nl
    ++ "[Player: 1 Card: K, History: CHECK Actions: BET, CHECK]"
    ++ tb ++ "0.4 0.6" ++ nl
    ++ "[Player: 1 Card: K, History: CHECK, BET, RAISE Actions: CALLRAISE, FOLD]"
    ++ tb ++ "0.25 0.75" ++ nl
    ++ "[Player: 1 Card: K, History: BET Actions: CALLBET, FOLD, RAISE]"
    ++ tb ++ "0.5 0.3 0.2" ++ nl
    ++ "END" ++ nl.

(** The root records of the cards 2, A and T, in this order. *)
Definition three_cards : string :=
  dump_p0 [root_record "2" "0.1 0.9"; root_record "A" "0.7 0.3";
           root_record "T" "0.5 0.5"].

(** Card A written twice, with card K in between. *)
Definition written_twice (first : string) : string :=
  dump_p0 [root_record "A" first; root_record "K" "0.5 0.5";
           root_record "A" "0.6 0.4"].

(** The column the scenario announces for card A, each cell within [eps]. *)
Definition announced (eps : Q) (df : Dump.DataFrame) : Prop :=
  Dump.columns df = ["A"]
  /\ Dump.index_labels df = P0.strategy_names
  /\ exists check_fold check_callbet check_raise bet_fold bet_callraise,
      Dump.values df =
        [[check_fold]; [check_callbet]; [check_raise]; [bet_fold]; [bet_callraise]]
      /\ near eps check_fold (18 # 100)
      /\ near eps check_callbet (6 # 100)
      /\ near eps check_raise (6 # 100)
      /\ near eps bet_fold (7 # 100)
      /\ near eps bet_callraise (63 # 100).

End Scenario.

(** ** Further inputs *)

Module Samples.

Import PyStr Scenario.

(** Card A and card K with their root records. *)
Definition two_cards : string :=
  dump_p0 [root_record "A" "0.7 0.3"; root_record "K" "0.5 0.5"].

(** The same records in the other order. *)
Definition two_cards_swapped : string :=
  dump_p0 [root_record "K" "0.5 0.5"; root_record "A" "0.7 0.3"].

(** The lines of [root_only] with blanks around them. *)
Definition padded_lines : list string :=
  ["  PLAYER: 0  " ++ nl; "   " ++ root_record "A" "0.7 0.3"; tb ++ "END"].

(** A card that is no rank. *)
Definition unknown_card : string := dump_p0 [root_record "X" "0.7 0.3"].

(** A root record with one probability. *)
Definition short_vector : string := dump_p0 [root_record "A" "0.7"].

(** The records of card A in two sections of player 0. *)
Definition two_sections : list string :=
  ["PLAYER: 0" ++ nl; root_record "A" "0.7 0.3"; "END" ++ nl;
   "PLAYER: 0" ++ nl; after_check; "END" ++ nl].

(** Card A written twice, with card AK in between: A and AK are both
    found at the start of [card_order]. *)
Definition overwritten_A : string :=
  dump_p0 [root_record "A" "0.1 0.9"; root_record "AK" "0.5 0.5";
           root_record "A" "0.6 0.4"].

(** The same without the first line of card A. *)
Definition overwritten_A_removed : string :=
  dump_p0 [root_record "AK" "0.5 0.5"; root_record "A" "0.6 0.4"].

(** [Scenario.written_twice] without the first line of card A. *)
Definition written_once : string :=
  dump_p0 [root_record "K" "0.5 0.5"; root_record "A" "0.6 0.4"].

End Samples.

(** ** Outcomes of the third loop *)

Module Outcome.
Import PyStr PyFloat Scripts.

(** [card_order.index(card)] finds the card. *)
Definition known (card : string) : bool :=
  match String.index 0 card card_order with
  | Some _ => true
  | None => false
  end.

(** The vectors the third loop reads for a card have the items it reads:
    two at the root or the checked-to decision, three at the three-way
    decisions, two, or none at all for player 1, at the answer to a raise. *)
Definition long_enough (s : script) (card_data : card_strategy) : bool :=
  match s with
  | p0 =>
      Nat.leb 2 (List.length (dict_get_default card_data "|BET,CHECK" [zero; one]))
      && Nat.leb 3 (List.length (P0.check_actions card_data))
      && Nat.leb 2 (List.length (P0.bet_actions card_data))
  | p1 =>
      Nat.leb 2 (List.length (P1.checked_to_probs card_data))
      && negb (Nat.eqb (List.length (P1.raise_response_probs card_data)) 1)
      && Nat.leb 3 (List.length (P1.bet_into_probs card_data))
  end.

(** The thirteen ranks, best first. *)
Definition ranks : list string :=
  ["A"; "K"; "Q"; "J"; "T"; "9"; "8"; "7"; "6"; "5"; "4"; "3"; "2"].

(** The tables of an index with no card. *)
Definition empty_tables (s : script) : list DataFrame :=
  map (fun names => {| values := map (fun _ => []) names;
                       columns := [];
                       index_labels := names |}) (row_names s).

(** Whether the body of the third loop computes the column of [card]. *)
Definition column_result (s : script) (strategies : strategy_index) (card : string)
  : result unit :=
  match s with
  | p0 => col <- P0.column_of strategies card ;; Ok tt
  | p1 => cols <- P1.column_of strategies card ;; Ok tt
  end.

End Outcome.

(** ** The order of the cards *)

Module Order.
Import PyStr Scripts.

(** [a] is not after [b] in [card_order]. *)
Definition rank_le (a b : string) : Prop :=
  exists i j, index card_order a = Ok i /\ index card_order b = Ok j /\ i <= j.

End Order.

(** ** The writes of the second loop *)

Module Writes.
Import PyStr PyFloat Scripts.

(** The card and key a record writes. *)
Definition written (r : option (string * string * list float))
  : list (string * string) :=
  match r with
  | Some (card, key, _) => [(card, key)]
  | None => []
  end.

(** The cards and keys the records write, in order. *)
Definition writes (recs : list (option (string * string * list float)))
  : list (string * string) :=
  flat_map written recs.

End Writes.

(** ** The format of a record line *)

Module Format.

Import PyStr.

(** The information part of a record line: tag, card, history, actions. *)
Definition info_text (tag card history : string) (actions : list string)
  : string :=
  tag ++ " Card: " ++ card ++ ", History: " ++ history ++ " Actions: "
      ++ join ", " actions ++ "]".

(** A whole record line: the information part, a tab, the probabilities. *)
Definition line_text (tag card history : string) (actions : list string)
  (probs_text : string) : string :=
  info_text tag card history actions ++ String tab probs_text.

(** [sep] starts at no position of [w] in [w ++ t]. *)
Fixpoint clear_of (sep w t : string) : Prop :=
  match w with
  | EmptyString => True
  | String _ w' => prefix sep (w ++ t) = false /\ clear_of sep w' t
  end.

(** A field that stays in its column and on its line: no tab and no end
    of line. *)
Definition inline (s : string) : Prop :=
  has_char tab s = false /\ has_char newline s = false
  /\ has_char carriage_return s = false.

(** A token has no blank. *)
Fixpoint solid (s : string) : bool :=
  match s with
  | EmptyString => true
  | String c s' => negb (isspace c) && solid s'
  end.

End Format.

(** ** Printing the tables *)

Module Print.

Import PyStr PyFloat Scripts.

(** The end of a line, as [print] writes it. *)
Definition eol : string := String newline "".

Definition spaces (n : nat) : string := string_of_list_ascii (repeat " "%char n).

(** [f"{s:<w}"], and [f"{s:w}"] for a string [s]: the text, then blanks up
    to the width [w]. *)
Definition ljust (s : string) (w : nat) : string :=
  s ++ spaces (w - String.length s).

(** The text after blanks up to the width [w], as a number is aligned. *)
Definition rjust (s : string) (w : nat) : string :=
  spaces (w - String.length s) ++ s.

(** The integer nearest to [n / d], the even one of two. *)
Definition round_half_even (n d : N) : N :=
  let q := (n / d)%N in
  match (2 * (n mod d) ?= d)%N with
  | Lt => q
  | Eq => if N.even q then q else (q + 1)%N
  | Gt => (q + 1)%N
  end.

(** [m * 2 ^ e] in hundredths, rounded to the nearest integer, the even one
    of two. *)
Definition hundredths (m : positive) (e : Z) : N :=
  match e with
  | Zneg p => round_half_even (100 * Npos m) (2 ^ Npos p)
  | _ => (100 * Npos m * 2 ^ Z.to_N e)%N
  end.

Definition decimal (n : N) : string := NilZero.string_of_uint (N.to_uint n).

(** [n] hundredths with two digits after the point. *)
Definition fixed2 (n : N) : string :=
  decimal (n / 100) ++ "." ++ decimal (n mod 100 / 10) ++ decimal (n mod 10).

(** [f"{x:.2f}"]. *)
Definition format_2f (x : float) : string :=
  match x with
  | S754_nan => "nan"
  | S754_infinity s => if s then "-inf" else "inf"
  | S754_zero s => if s then "-0.00" else "0.00"
  | S754_finite s m e => (if s then "-" else "") ++ fixed2 (hundredths m e)
  end.

(** [f"{x:5.2f}"]. *)
Definition format_5_2f (x : float) : string := rjust (format_2f x) 5.

(** What a run has written to the standard output, and how it ended. *)
Definition printed : Type := string * result unit.

(** [print(s, end="")]. *)
Definition print (s : string) : printed := (s, Ok tt).

Definition raise (e : exn) : printed := (EmptyString, Err e).

(** One statement after the other, up to the first exception. *)
Fixpoint sequence (l : list printed) : printed :=
  match l with
  | [] => print ""
  | a :: l' =>
      match snd a with
      | Ok _ => (fst a ++ fst (sequence l'), snd (sequence l'))
      | Err _ => a
      end
  end.

(** [for x in l: body]. *)
Definition for_each {A : Type} (body : A -> printed) (l : list A) : printed :=
  sequence (map body l).

Fixpoint position (label : string) (labels : list string) : option nat :=
  match labels with
  | [] => None
  | l :: labels' =>
      if String.eqb label l then Some 0
      else option_map S (position label labels')
  end.

(** [df.loc[label]] for a label that the index has once: the row of the
    label; KeyError for a label that the index does not have. *)
Definition loc (df : DataFrame) (label : string) : result (list float) :=
  match position label (index_labels df) with
  | Some r => item (values df) r
  | None => Err KeyError
  end.

(** "Print header". *)
Definition print_header (df : DataFrame) : printed :=
  sequence [print "            ";
            for_each (fun card => print ("   " ++ ljust card 3)) (columns df);
            print eol].

(** The body of the loop over the row labels. *)
Definition print_row (df : DataFrame) (strategy : string) : printed :=
  sequence [print (ljust strategy 13);
            match loc df strategy with
            | Ok row => for_each (fun val => print (" " ++ format_5_2f val)) row
            | Err e => raise e
            end;
            print eol].

(** [print_table(df, title)] of parse_strategy_p1.py. *)
Definition print_table (df : DataFrame) (title : string) : printed :=
  sequence [print (eol ++ title ++ eol);
            print (string_of_list_ascii (repeat "-"%char 80) ++ eol);
            print_header df;
            for_each (print_row df) (index_labels df)].

(** The script of player 0 run on the text of the file. *)
Definition main_p0 (text : string) : printed :=
  match P0.parse_strategy_file text with
  | Ok strategy_table =>
      sequence [print_header strategy_table;
                for_each (print_row strategy_table)
                  ["CHECK+FOLD"; "CHECK+CALLBET"; "CHECK+RAISE"; "BET+FOLD";
                   "BET+CALLRAISE"]]
  | Err e => raise e
  end.

(** The script of player 1 run on the text of the file. *)
Definition main_p1 (text : string) : printed :=
  match P1.parse_strategy_file text with
  | Ok (df_checked_to, df_bet_into) =>
      sequence [print_table df_checked_to "Player 1's Strategy When Checked To";
                print_table df_bet_into "Player 1's Strategy When Bet Into"]
  | Err e => raise e
  end.

Definition main (s : script) : string -> printed :=
  match s with
  | p0 => main_p0
  | p1 => main_p1
  end.

End Print.

(** ** The printed text *)

Module Layout.

Import PyStr PyFloat Scripts Print.

(** The header line without its end. *)
Definition header_text (df : DataFrame) : string :=
  "            " ++ concat "" (map (fun card => "   " ++ ljust card 3) (columns df)).

(** The line of a row without its end. *)
Definition row_text (label : string) (row : list float) : string :=
  ljust label 13 ++ concat "" (map (fun val => " " ++ format_5_2f val) row).

(** The lines of the rows, each label with the row at its position. *)
Definition row_texts (df : DataFrame) : list string :=
  map (fun lr => row_text (fst lr) (snd lr)) (combine (index_labels df) (values df)).

(** The header and the rows, each line with its end. *)
Definition table_text (df : DataFrame) : string :=
  concat "" (map (fun line => line ++ eol) (header_text df :: row_texts df)).

(** The title, the rule and the table. *)
Definition titled_text (df : DataFrame) (title : string) : string :=
  eol ++ title ++ eol ++ string_of_list_ascii (repeat "-"%char 80) ++ eol
     ++ table_text df.

(** The output for the tables of [run]. *)
Definition stdout_of (s : script) (dfs : list DataFrame) : string :=
  match s, dfs with
  | p0, [strategy_table] => table_text strategy_table
  | p1, [df_checked_to; df_bet_into] =>
      titled_text df_checked_to "Player 1's Strategy When Checked To"
        ++ titled_text df_bet_into "Player 1's Strategy When Bet Into"
  | _, _ => ""
  end.

(** A finite float that [f"{x:5.2f}"] writes in five characters. *)
Definition fits (x : float) : Prop :=
  is_finite x = true /\ (- (9995 # 1000) < SF2Q x)%Q /\ (SF2Q x < 99995 # 1000)%Q.

End Layout.

(** ** Cards at the same position *)

Module Stable.

Import PyStr Scripts.

(** [card_order.index(card)] is [k]. *)
Definition at_position (k : nat) (card : string) : bool :=
  match String.index 0 card card_order with
  | Some i => Nat.eqb i k
  | None => false
  end.

(** The cards K, AK and A, in this order: AK and A are both found at the
    start of [card_order]. *)
Definition same_position : string :=
  Scenario.dump_p0
    [Scenario.root_record "K" "0.5 0.5"; Scenario.root_record "AK" "0.5 0.5";
     Scenario.root_record "A" "0.7 0.3"].

End Stable.

(** ** Line ends *)

Module LineEnds.

Import PyStr.

(** The text with "\r\n" for every "\n". *)
Fixpoint crlf (s : string) : string :=
  match s with
  | EmptyString => EmptyString
  | String c s' =>
      if Ascii.eqb c newline
      then String carriage_return (String newline (crlf s'))
      else String c (crlf s')
  end.

End LineEnds.

(** * Properties *)

(** ** The model on small inputs *)

Module Examples.

Import PyStr PyFloat Numbers Scenario Dump.

Example split_on_a_marker :
  split "[Player: 0 Card: A, History: , Actions: BET, CHECK]" "History: "
  = ["[Player: 0 Card: A, "; ", Actions: BET, CHECK]"].
Proof. reflexivity. Qed.

Example split_keeps_empty_pieces :
  split "a||b|" "|" = ["a"; ""; "b"; ""] /\ split "" "|" = [""]
  /\ split "aaa" "aa" = [""; "a"].
Proof. repeat split. Qed.

Example split_on_whitespace :
  split_ws ("  0.7" ++ tb ++ " 0.3 " ++ nl) = ["0.7"; "0.3"].
Proof. reflexivity. Qed.

Example strip_both_ends : strip (tb ++ " PLAYER: 0 " ++ nl) = "PLAYER: 0".
Proof. reflexivity. Qed.

Example readlines_universal_newlines :
  readlines ("a" ++ String carriage_return nl ++ "b"
               ++ String carriage_return "c" ++ nl ++ nl ++ "d")
  = ["a" ++ nl; "b" ++ nl; "c" ++ nl; nl; "d"].
Proof. reflexivity. Qed.

Example index_is_a_substring_search :
  index card_order "T" = Ok 4 /\ index card_order "" = Ok 0
  /\ index card_order "KQ" = Ok 1 /\ index card_order "X" = Err ValueError.
Proof. repeat split. Qed.

(** 0.7 is 0x1.6666666666666p-1, 0.3 is 0x1.3333333333333p-2 and 0.07 is
    0x1.1eb851eb851ecp-4. *)
Example float_of_decimal_tokens :
  map float_of_string ["0.7"; "0.3"; "0.07"; "1"; "-0.0"]
  = [Ok (S754_finite false 6305039478318694 (-53));
     Ok (S754_finite false 5404319552844595 (-54));
     Ok (S754_finite false 5044031582654956 (-56));
     Ok one;
     Ok (S754_zero true)].
Proof. vm_compute. reflexivity. Qed.

(** Ties go to the even float, large numbers overflow to inf and small ones
    underflow to 0. *)
Example float_of_extreme_tokens :
  map float_of_string ["9007199254740993"; "1e400"; "1e-400"; "-Infinity"; "NaN"]
  = [Ok (S754_finite false 4503599627370496 1);
     Ok inf;
     Ok zero;
     Ok (S754_infinity true);
     Ok nan].
Proof. vm_compute. reflexivity. Qed.

Example float_of_other_forms :
  map float_of_string ["1_0.5e-1"; ".5"; "5."; "+1E2"]
  = map float_of_string ["1.05"; "0.5"; "5"; "100"].
Proof. vm_compute. reflexivity. Qed.

Example float_rejects :
  map float_of_string ["1__0"; "1e"; "."; ""; "0x10"; "1._5"; "_1"; "1_"; "1,5"]
  = map (fun _ => Err ValueError) (seq 0 9).
Proof. vm_compute. reflexivity. Qed.

Example parse_line_of_a_record :
  parse_line ("[Player: 0 Card: A, History: CHECK, BET Actions: CALLBET, FOLD, RAISE]"
                ++ tb ++ "0.2 0.6 0.2")
  = Ok ("A", "CHECK, BET", ["CALLBET"; "FOLD"; "RAISE"],
        [dec "0.2"; dec "0.6"; dec "0.2"]).
Proof. vm_compute. reflexivity. Qed.

Example parse_line_failures :
  parse_line ("[Player: 0 Card: A, History:  Actions: BET, CHECK]"
                ++ tb ++ "0.7" ++ tb ++ "0.3") = Err ValueError
  /\ parse_line ("[Player: 0 History:  Actions: BET, CHECK]" ++ tb ++ "0.7 0.3")
     = Err IndexError
  /\ parse_line ("[Player: 0 Card: A, History:  Actions: BET, CHECK]"
                   ++ tb ++ "0.7 x") = Err ValueError.
Proof. repeat split; vm_compute; reflexivity. Qed.

Example keys_of_the_two_scripts :
  P0.make_key "" ["BET"] = Err IndexError
  /\ P0.make_key "" ["a"; "b"; "c"; "d"] = Ok "|a,b,c"
  /\ P1.make_key "" ["a"; "b"; "c"; "d"] = Ok "|a,b,c,d".
Proof. repeat split. Qed.

(** Cards with the same position keep the order of their insertion. *)
Example sorted_cards_is_stable :
  sorted_cards [("2", []); ("A", []); ("", []); ("T", []); ("AK", []); ("K", [])]
  = Ok ["A"; ""; "AK"; "K"; "T"; "2"]
  /\ sorted_cards [("2", []); ("X", [])] = Err ValueError.
Proof. repeat split. Qed.

Example tables_of_player_1 :
  P1.parse_strategy_file dump_p1_K
  = Ok ({| values := [[PyFloat.mul (dec "0.4") (dec "0.25")];
                      [PyFloat.mul (dec "0.4") (dec "0.75")];
                      [dec "0.6"]];
           columns := ["K"];
           index_labels := ["BET+CALLRAISE"; "BET+FOLD"; "CHECK"] |},
        {| values := [[dec "0.5"]; [dec "0.3"]; [dec "0.2"]];
           columns := ["K"];
           index_labels := ["CALLBET"; "FOLD"; "RAISE"] |}).
Proof. vm_compute. reflexivity. Qed.

End Examples.

(** ** The result monad *)

Lemma bind_ok {A B : Type} (r : result A) (k : A -> result B) (b : B) :
  bind r k = Ok b -> exists a, r = Ok a /\ k a = Ok b.
Proof.
  destruct r as [a|e]; simpl; intro H; [eauto | discriminate].
Qed.

Lemma bind_err {A B : Type} (r : result A) (k : A -> result B) (e : exn) :
  r = Err e -> bind r k = Err e.
Proof. intros ->; reflexivity. Qed.

Section Results.

Context {A B : Type}.

Lemma mapM_ok (f : A -> result B) (l : list A) (bs : list B) :
  mapM f l = Ok bs -> Forall2 (fun a b => f a = Ok b) l bs.
Proof.
  revert bs; induction l as [|a l IH]; simpl; intros bs H.
  - injection H as <-; constructor.
  - apply bind_ok in H as (b & Hb & H).
    apply bind_ok in H as (bs' & Hbs & H).
    injection H as <-. constructor; auto.
Qed.

Lemma mapM_length (f : A -> result B) (l : list A) (bs : list B) :
  mapM f l = Ok bs -> List.length bs = List.length l.
Proof.
  intro H; apply mapM_ok in H.
  symmetry; eapply Forall2_length; eassumption.
Qed.

Lemma mapM_nth (f : A -> result B) (l : list A) (bs : list B) (i : nat) (a : A) :
  mapM f l = Ok bs -> nth_error l i = Some a ->
  exists b, nth_error bs i = Some b /\ f a = Ok b.
Proof.
  intro H; apply mapM_ok in H.
  revert i; induction H as [|x y l' bs' Hxy _ IH]; intros [|i] Hi; simpl in *;
    try discriminate.
  - injection Hi as <-; eauto.
  - auto.
Qed.

Lemma mapM_nth_inv (f : A -> result B) (l : list A) (bs : list B) (i : nat) (b : B) :
  mapM f l = Ok bs -> nth_error bs i = Some b ->
  exists a, nth_error l i = Some a /\ f a = Ok b.
Proof.
  intro H; apply mapM_ok in H.
  revert i; induction H as [|x y l' bs' Hxy _ IH]; intros [|i] Hi; simpl in *;
    try discriminate.
  - injection Hi as <-; eauto.
  - auto.
Qed.

End Results.

Ltac bind_inv H :=
  let x := fresh "x" in
  let Hx := fresh "Hx" in
  apply bind_ok in H as (x & Hx & H).

Ltac by_computation := vm_compute; first [reflexivity | congruence].

(** ** Strings *)

Module PyStrFacts.

Import PyStr.

Lemma lstrip_has_char (c : ascii) (s : string) :
  has_char c s = false -> has_char c (lstrip s) = false.
Proof.
  induction s as [|a s IH]; simpl; auto.
  intro H; apply orb_false_elim in H as [Ha Hs].
  destruct (isspace a); simpl; auto.
  rewrite Ha, Hs; reflexivity.
Qed.

Lemma rstrip_has_char (c : ascii) (s : string) :
  has_char c s = false -> has_char c (rstrip s) = false.
Proof.
  induction s as [|a s IH]; simpl; auto.
  intro H; apply orb_false_elim in H as [Ha Hs].
  specialize (IH Hs).
  destruct (rstrip s) as [|b r].
  - destruct (isspace a); simpl; auto. rewrite Ha; reflexivity.
  - change (has_char c (String a (String b r)))
      with (Ascii.eqb c a || has_char c (String b r)).
    rewrite Ha, IH; reflexivity.
Qed.

Lemma strip_has_char (c : ascii) (s : string) :
  has_char c s = false -> has_char c (strip s) = false.
Proof.
  intro H; unfold strip; apply rstrip_has_char, lstrip_has_char, H.
Qed.

Lemma prefix_cons (a b : ascii) (p s : string) :
  prefix (String a p) (String b s) = if ascii_dec a b then prefix p s else false.
Proof. reflexivity. Qed.

(** Without the separator character there is nothing to split. *)
Lemma split_without_sep (c : ascii) (s : string) :
  has_char c s = false -> split s (String c "") = [s].
Proof.
  unfold split; induction s as [|a s IH]; simpl; auto.
  intro H; apply orb_false_elim in H as [Ha Hs].
  destruct (ascii_dec c a) as [->|_].
  - rewrite Ascii.eqb_refl in Ha; discriminate.
  - rewrite (IH Hs); reflexivity.
Qed.

End PyStrFacts.

(** ** Dictionaries *)

Section DictFacts.

Context {V : Type}.
Implicit Types (d : dict V) (k : string) (v : V).

Lemma dict_get_set_same d k v : dict_get (dict_set d k v) k = Some v.
Proof.
  induction d as [|[k' v'] d IH]; simpl.
  - rewrite String.eqb_refl; reflexivity.
  - destruct (String.eqb k k') eqn:E; simpl; rewrite E; auto.
Qed.

Lemma dict_get_set_other d k k' v :
  k <> k' -> dict_get (dict_set d k v) k' = dict_get d k'.
Proof.
  intro Hne; induction d as [|[k0 v0] d IH]; simpl.
  - destruct (String.eqb_spec k' k); [congruence | reflexivity].
  - destruct (String.eqb_spec k k0) as [->|Hk]; simpl.
    + destruct (String.eqb_spec k' k0); [congruence | reflexivity].
    + rewrite IH; reflexivity.
Qed.

Lemma dict_set_set d k v v' : dict_set (dict_set d k v) k v' = dict_set d k v'.
Proof.
  induction d as [|[k0 v0] d IH]; simpl.
  - rewrite String.eqb_refl; reflexivity.
  - destruct (String.eqb k k0) eqn:E; simpl; rewrite E; congruence.
Qed.

Lemma dict_set_same d k v : dict_get d k = Some v -> dict_set d k v = d.
Proof.
  induction d as [|[k0 v0] d IH]; simpl; [discriminate|].
  destruct (String.eqb_spec k k0) as [->|Hk]; intro H.
  - congruence.
  - rewrite IH; auto.
Qed.

(** A write to a key already present keeps every position, so it commutes
    with a write to another key. *)
Lemma dict_set_comm d k k' v v' :
  k <> k' -> dict_mem d k = true ->
  dict_set (dict_set d k v) k' v' = dict_set (dict_set d k' v') k v.
Proof.
  intros Hne; unfold dict_mem.
  induction d as [|[k0 v0] d IH]; simpl; [discriminate|].
  destruct (String.eqb_spec k k0) as [->|Hk]; intro H.
  - destruct (String.eqb_spec k' k0) as [->|Hk']; [congruence|].
    simpl. rewrite String.eqb_refl.
    destruct (String.eqb_spec k' k0); [congruence | reflexivity].
  - destruct (String.eqb_spec k' k0) as [->|Hk']; simpl.
    + destruct (String.eqb_spec k k0); [congruence|].
      rewrite String.eqb_refl; reflexivity.
    + destruct (String.eqb_spec k k0); [congruence|].
      destruct (String.eqb_spec k' k0); [congruence|].
      rewrite IH; auto.
Qed.

Lemma dict_mem_set d k k' v :
  dict_mem (dict_set d k v) k' = String.eqb k k' || dict_mem d k'.
Proof.
  unfold dict_mem.
  destruct (String.eqb_spec k k') as [->|Hne].
  - rewrite dict_get_set_same; reflexivity.
  - rewrite dict_get_set_other by assumption; reflexivity.
Qed.

Lemma dict_get_In d k v : dict_get d k = Some v -> In (k, v) d.
Proof.
  induction d as [|[k0 v0] d IH]; simpl; [discriminate|].
  destruct (String.eqb_spec k k0) as [->|Hk]; intro H.
  - injection H as ->; auto.
  - auto.
Qed.

Lemma dict_get_keys d k : In k (dict_keys d) -> dict_get d k <> None.
Proof.
  induction d as [|[k0 v0] d IH]; simpl; [tauto|].
  destruct (String.eqb_spec k k0) as [->|Hk]; [discriminate|].
  intros [H|H]; [congruence | auto].
Qed.

Lemma dict_keys_get d k v : dict_get d k = Some v -> In k (dict_keys d).
Proof.
  intro H; apply dict_get_In in H.
  apply (in_map fst) in H; exact H.
Qed.

Lemma dict_keys_set d k v :
  dict_keys (dict_set d k v) =
    if dict_mem d k then dict_keys d else (dict_keys d ++ [k])%list.
Proof.
  unfold dict_mem; induction d as [|[k0 v0] d IH]; simpl; auto.
  destruct (String.eqb_spec k k0) as [->|Hk]; simpl; auto.
  rewrite IH. destruct (dict_get d k); reflexivity.
Qed.

Lemma dict_keys_set_NoDup d k v :
  NoDup (dict_keys d) -> NoDup (dict_keys (dict_set d k v)).
Proof.
  intro H; rewrite dict_keys_set.
  destruct (dict_mem d k) eqn:E; auto.
  apply NoDup_app; auto.
  - constructor; [simpl; tauto | constructor].
  - intros x Hx [Hk|[]]; subst x.
    apply dict_get_keys in Hx. unfold dict_mem in E.
    destruct (dict_get d k); congruence.
Qed.

Lemma dict_set_In d k v k' v' :
  In (k', v') (dict_set d k v) -> (k' = k /\ v' = v) \/ In (k', v') d.
Proof.
  induction d as [|[k0 v0] d IH]; simpl.
  - intros [H|[]]; injection H as <- <-; auto.
  - destruct (String.eqb_spec k k0) as [->|Hk]; simpl.
    + intros [H|H]; [injection H as <- <-; auto | auto].
    + intros [H|H]; [auto | destruct (IH H); auto].
Qed.

End DictFacts.

(** ** The two loops over the lines *)

Module LoopFacts.

Import PyStr PyFloat Scripts PyStrFacts.

Lemma mapM_app {A B : Type} (f : A -> result B) (l1 l2 : list A) :
  mapM f (l1 ++ l2)%list =
    (xs <- mapM f l1 ;; ys <- mapM f l2 ;; Ok (xs ++ ys)%list).
Proof.
  induction l1 as [|a l1 IH]; simpl.
  - destruct (mapM f l2); reflexivity.
  - destruct (f a) as [b|e]; simpl; auto.
    rewrite IH. destruct (mapM f l1); simpl; auto.
    destruct (mapM f l2); reflexivity.
Qed.

(** *** The first loop *)

Lemma player_lines_app (h : string) (st : bool) (l1 l2 : list string) :
  player_lines h st (l1 ++ l2)%list =
    (player_lines h st l1 ++ player_lines h (in_player_after h st l1) l2)%list.
Proof.
  unfold in_player_after.
  revert st; induction l1 as [|x l1 IH]; intro st; simpl; auto.
  unfold in_player_step at 2.
  destruct (String.eqb (strip x) h); [apply IH|].
  destruct (String.eqb (strip x) "END"); [apply IH|].
  destruct (st && negb (String.eqb (strip x) "")); simpl; rewrite IH; reflexivity.
Qed.

(** A line that starts with the tag is none of the three lines the first
    loop treats apart. *)
Lemma tagged_line (s : script) (x : string) :
  startswith x (tag s) = true ->
  String.eqb x (header s) = false /\ String.eqb x "END" = false
  /\ String.eqb x "" = false.
Proof.
  destruct x as [|c x]; [destruct s; discriminate|].
  intro H.
  assert (c = "["%char) as ->.
  { unfold startswith in H.
    destruct s; unfold tag, P0.tag, P1.tag in H; rewrite prefix_cons in H;
      destruct (ascii_dec "[" c); congruence. }
  destruct s; auto.
Qed.

Lemma player_lines_tagged (s : script) (st : bool) (x : string) (l : list string) :
  startswith (strip x) (tag s) = true ->
  player_lines (header s) st (x :: l) =
    ((if st then [strip x] else []) ++ player_lines (header s) st l)%list
  /\ in_player_after (header s) st (x :: l) = in_player_after (header s) st l.
Proof.
  intro H; apply tagged_line in H as (H1 & H2 & H3).
  unfold in_player_after; simpl; unfold in_player_step.
  rewrite H1, H2, H3. destruct st; auto.
Qed.

(** *** The second loop *)

Lemma store_put (s : script) (strategies : strategy_index)
  (card history : string) (actions : list string) (probs : list float) :
  store (make_key s) strategies (card, history, actions, probs) =
    (key <- make_key s history actions ;; Ok (put card key probs strategies)).
Proof.
  unfold store, put, dict_item, dict_get_default, dict_mem.
  destruct (dict_get strategies card) as [cd|] eqn:E; simpl.
  - rewrite E; simpl. reflexivity.
  - rewrite dict_get_set_same; simpl.
    destruct (make_key s history actions); simpl; auto.
    rewrite dict_set_set; reflexivity.
Qed.

Lemma process_line_record (s : script) (strategies : strategy_index) (line : string) :
  process_line (tag s) (make_key s) strategies line =
    (r <- line_record s line ;; Ok (apply_record strategies r)).
Proof.
  unfold process_line, line_record.
  destruct (negb (startswith line (tag s))); [reflexivity|].
  destruct (parse_line line) as [[[[card history] actions] probs]|e];
    cbn [bind]; [|reflexivity].
  rewrite store_put. destruct (make_key s history actions); reflexivity.
Qed.

Lemma process_lines_records (s : script) (lines : list string)
  (strategies : strategy_index) :
  process_lines (tag s) (make_key s) strategies lines =
    (recs <- mapM (line_record s) lines ;;
     Ok (fold_left apply_record recs strategies)).
Proof.
  revert strategies; induction lines as [|x lines IH]; intro strategies; simpl; auto.
  rewrite process_line_record.
  destruct (line_record s x) as [r|e]; simpl; auto.
  rewrite IH. destruct (mapM (line_record s) lines); reflexivity.
Qed.

Lemma strategies_of_records (s : script) (lines : list string) :
  strategies_of s lines =
    (recs <- mapM (line_record s) (player_lines (header s) false lines) ;;
     Ok (fold_left apply_record recs [])).
Proof.
  destruct s.
  - exact (process_lines_records p0 (P0.player_0_lines lines) []).
  - exact (process_lines_records p1 (P1.player_1_lines lines) []).
Qed.

Lemma run_lines_tables (s : script) (lines : list string) :
  run_lines s lines =
    (strategies <- strategies_of s lines ;;
     match s with
     | p0 => df <- P0.build_table strategies ;; Ok [df]
     | p1 => '(a, b) <- P1.build_tables strategies ;; Ok [a; b]
     end).
Proof.
  destruct s; simpl; unfold P0.parse_lines, P1.parse_lines.
  - destruct (P0.strategies_of lines); reflexivity.
  - destruct (P1.strategies_of lines); reflexivity.
Qed.

End LoopFacts.

(** ** A record line without a tab *)

Module MissingTab.

Import PyStr PyFloat Scripts PyStrFacts LoopFacts.

Lemma parse_line_without_tab (line : string) :
  has_char tab line = false -> parse_line line = Err ValueError.
Proof.
  intro H; unfold parse_line.
  rewrite (split_without_sep tab line H); reflexivity.
Qed.

Lemma line_record_without_tab (s : script) (line : string) :
  startswith line (tag s) = true -> has_char tab line = false ->
  line_record s line = Err ValueError.
Proof.
  intros Ht Hc; unfold line_record.
  rewrite Ht, (parse_line_without_tab line Hc); reflexivity.
Qed.

Lemma mapM_failing_element {A B : Type} (f : A -> result B) (l1 l2 : list A)
  (a : A) (e : exn) :
  f a = Err e -> exists e', mapM f (l1 ++ a :: l2)%list = Err e'.
Proof.
  intro H; rewrite mapM_app; simpl; rewrite H.
  destruct (mapM f l1); simpl; eauto.
Qed.

(** C5: when a line read inside a section of the script's player starts,
    once stripped, with the player's tag and has no tab character, the run
    ends with an exception and returns no table. *)
Theorem missing_tab_aborts_run (s : script) (text : string)
  (before after : list string) (raw : string) :
  readlines text = (before ++ raw :: after)%list ->
  in_player_after (header s) false before = true ->
  startswith (strip raw) (tag s) = true ->
  has_char tab raw = false ->
  exists e, run s text = Err e.
Proof.
  intros Htext Hin Htag Htab.
  unfold run; rewrite Htext, run_lines_tables, strategies_of_records.
  rewrite player_lines_app, Hin.
  destruct (player_lines_tagged s true raw after Htag) as [-> _].
  simpl app at 2.
  destruct (mapM_failing_element (line_record s)
              (player_lines (header s) false before)
              (player_lines (header s) true after)
              (strip raw) ValueError) as [e He].
  - apply line_record_without_tab; auto using strip_has_char.
  - exists e. rewrite He; reflexivity.
Qed.

Lemma missing_tab_aborts_run_witness :
  exists e,
    run p0 ("PLAYER: 0" ++ Scenario.nl ++ Scenario.spaced_record
              ++ "END" ++ Scenario.nl)
      = Err e.
Proof.
  apply (missing_tab_aborts_run p0 _
           ["PLAYER: 0" ++ Scenario.nl] ["END" ++ Scenario.nl]
           Scenario.spaced_record);
    reflexivity.
Defined.

End MissingTab.

(** ** The defaults of the lookups *)

Module Defaults.

Import PyStr PyFloat Scripts.

Lemma dict_get_default_missing {V : Type} (d : dict V) (k : string) (v : V) :
  dict_get d k = None -> dict_get_default d k v = v.
Proof. unfold dict_get_default; intros ->; reflexivity. Qed.

(** Against C2: in the script of player 0 a card with no record after
    "BET, RAISE" gets the vector of zeros, so FOLD has probability 0 there,
    not 1; on the dump with the root record 0.7 0.3 alone every cell is 0. *)
Lemma p0_missing_fold_call_is_zero :
  dict_get ([] : card_strategy) "BET, RAISE|CALLRAISE,FOLD" = None
  /\ item (P0.bet_actions []) 1 = Ok zero
  /\ item (P0.bet_actions []) 1 <> Ok one
  /\ exists df,
      P0.parse_strategy_file Scenario.root_only = Ok df
      /\ values df = [[zero]; [zero]; [zero]; [zero]; [zero]].
Proof.
  split; [reflexivity|]. split; [reflexivity|]. split; [discriminate|].
  eexists; split; vm_compute; reflexivity.
Qed.

(** C2, amended: a lookup whose key is absent yields the default written at
    its call, and the items the loop reads from it exist.  For player 1 the
    checked-to decision defaults to (BET 0, CHECK 1), the answer to a raise
    to (CALLRAISE 0, FOLD 1) and the bet-into decision to three zeros; for
    player 0 the two second decisions default to zeros and the root gives
    check probability 1 and bet probability 1. *)
Theorem missing_key_defaults (card_data : card_strategy) :
  (dict_get card_data "CHECK|BET,CHECK" = None ->
     P1.checked_to_probs card_data = [zero; one])
  /\ (dict_get card_data "CHECK, BET, RAISE|CALLRAISE,FOLD" = None ->
        P1.raise_response_probs card_data = [zero; one]
        /\ P1.raise_response (P1.raise_response_probs card_data) = Ok (zero, one))
  /\ (dict_get card_data "BET|CALLBET,FOLD,RAISE" = None ->
        P1.bet_into_probs card_data = [zero; zero; zero])
  /\ (dict_get card_data "|BET,CHECK" = None ->
        P0.check_prob card_data = Ok one /\ P0.bet_prob card_data = Ok one)
  /\ (dict_get card_data "CHECK, BET|CALLBET,FOLD,RAISE" = None ->
        P0.check_actions card_data = [zero; zero; zero])
  /\ (dict_get card_data "BET, RAISE|CALLRAISE,FOLD" = None ->
        P0.bet_actions card_data = [zero; zero]).
Proof.
  unfold P1.checked_to_probs, P1.raise_response_probs, P1.bet_into_probs,
    P0.check_prob, P0.bet_prob, P0.check_actions, P0.bet_actions.
  repeat match goal with |- _ /\ _ => split end;
    intro H; rewrite !(dict_get_default_missing _ _ _ H); auto.
Qed.

Lemma missing_key_defaults_witness :
  P1.checked_to_probs [] = [zero; one]
  /\ P1.raise_response (P1.raise_response_probs []) = Ok (zero, one)
  /\ P1.bet_into_probs [] = [zero; zero; zero]
  /\ P0.check_prob [] = Ok one /\ P0.bet_prob [] = Ok one
  /\ P0.check_actions [] = [zero; zero; zero]
  /\ P0.bet_actions [] = [zero; zero]
  /\ P0.compound [] = Ok [zero; zero; zero; zero; zero]
  /\ P1.compound [] = Ok ([zero; zero; one], [zero; zero; zero]).
Proof.
  destruct (missing_key_defaults []) as (H1 & H2 & H3 & H4 & H5 & H6).
  split; [exact (H1 eq_refl)|].
  split; [exact (proj2 (H2 eq_refl))|].
  split; [exact (H3 eq_refl)|].
  split; [exact (proj1 (H4 eq_refl))|].
  split; [exact (proj2 (H4 eq_refl))|].
  split; [exact (H5 eq_refl)|].
  split; [exact (H6 eq_refl)|].
  split; reflexivity.
Defined.

End Defaults.

(** ** The count of probabilities is not compared with the count of actions *)

Module Counts.

Import PyStr PyFloat Scripts PyStrFacts LoopFacts.

Lemma split_at_char (c : ascii) (info probs : string) :
  has_char c info = false -> has_char c probs = false ->
  split (info ++ String c probs) (String c "") = [info; probs].
Proof.
  intros Hi Hp; unfold split.
  induction info as [|a info IH]; simpl.
  - destruct (ascii_dec c c) as [_|Hne]; [|congruence].
    assert (prefix "" probs = true) as -> by (destruct probs; reflexivity).
    fold (split probs (String c "")).
    rewrite (split_without_sep c probs Hp); reflexivity.
  - simpl in Hi; apply orb_false_elim in Hi as [Ha Hi].
    destruct (ascii_dec c a) as [->|_].
    + rewrite Ascii.eqb_refl in Ha; discriminate.
    + rewrite (IH Hi); reflexivity.
Qed.

Lemma parse_line_fields (info probs_text : string) :
  has_char tab info = false -> has_char tab probs_text = false ->
  parse_line (info ++ String tab probs_text) =
    (probs <- mapM float_of_string (split_ws probs_text) ;;
     '(card, history, actions) <- parse_info info ;;
     Ok (card, history, actions, probs)).
Proof.
  intros Hi Hp; unfold parse_line.
  rewrite (split_at_char tab info probs_text Hi Hp); reflexivity.
Qed.

(** Against C4: two actions with three probabilities are stored and the
    table is returned. *)
Lemma mismatched_counts_are_stored :
  exists strategies df,
    P0.strategies_of (readlines Scenario.mismatched) = Ok strategies
    /\ lookup strategies "A" "|BET,CHECK"
         = Some [Numbers.dec "0.7"; Numbers.dec "0.2"; Numbers.dec "0.1"]
    /\ P0.parse_strategy_file Scenario.mismatched = Ok df
    /\ ~ (exists e, P0.parse_strategy_file Scenario.mismatched = Err e).
Proof.
  do 2 eexists.
  split; [vm_compute; reflexivity|].
  split; [vm_compute; reflexivity|].
  split; [vm_compute; reflexivity|].
  intros [e He]; vm_compute in He; discriminate He.
Qed.

(** C4, amended: a tagged line "info<tab>probabilities" whose metadata
    parse and whose tokens are floats is stored under its card and key with
    the vector of its tokens, whatever the number of tokens and the number
    of actions. *)
Theorem counts_are_not_compared (s : script) (strategies : strategy_index)
  (info probs_text card history key : string) (actions : list string)
  (probs : list float) :
  has_char tab info = false ->
  has_char tab probs_text = false ->
  startswith (info ++ String tab probs_text) (tag s) = true ->
  mapM float_of_string (split_ws probs_text) = Ok probs ->
  parse_info info = Ok (card, history, actions) ->
  make_key s history actions = Ok key ->
  process_line (tag s) (make_key s) strategies (info ++ String tab probs_text)
    = Ok (put card key probs strategies)
  /\ lookup (put card key probs strategies) card key = Some probs.
Proof.
  intros Hi Hp Ht Hprobs Hinfo Hkey. split.
  - rewrite process_line_record; unfold line_record.
    rewrite Ht, (parse_line_fields info probs_text Hi Hp), Hprobs; simpl.
    rewrite Hinfo; simpl. rewrite Hkey; reflexivity.
  - unfold lookup, put. rewrite !dict_get_set_same; reflexivity.
Qed.

Lemma counts_are_not_compared_witness :
  List.length ["BET"; "CHECK"] = 2
  /\ List.length [Numbers.dec "0.7"; Numbers.dec "0.2"; Numbers.dec "0.1"] = 3
  /\ process_line (tag p0) (make_key p0) []
       ("[Player: 0 Card: A, History:  Actions: BET, CHECK]"
          ++ String tab "0.7 0.2 0.1")
     = Ok (put "A" "|BET,CHECK"
             [Numbers.dec "0.7"; Numbers.dec "0.2"; Numbers.dec "0.1"] [])
  /\ lookup (put "A" "|BET,CHECK"
               [Numbers.dec "0.7"; Numbers.dec "0.2"; Numbers.dec "0.1"] [])
       "A" "|BET,CHECK"
     = Some [Numbers.dec "0.7"; Numbers.dec "0.2"; Numbers.dec "0.1"].
Proof.
  split; [reflexivity|]. split; [reflexivity|].
  apply (counts_are_not_compared p0 []
           "[Player: 0 Card: A, History:  Actions: BET, CHECK]" "0.7 0.2 0.1"
           "A" "" "|BET,CHECK" ["BET"; "CHECK"]);
    vm_compute; reflexivity.
Defined.

End Counts.

(** ** The cells of the tables *)

Module TableFacts.

Import PyStr PyFloat Scripts.

Lemma nth_error_rows_of_columns (n r : nat) (cols : list (list float)) :
  nth_error (rows_of_columns n cols) r =
    if Nat.ltb r n then Some (map (fun col => nth r col zero) cols) else None.
Proof.
  unfold rows_of_columns.
  rewrite nth_error_map, nth_error_seq.
  destruct (Nat.ltb r n); reflexivity.
Qed.

Lemma rows_of_columns_shape (n : nat) (cols : list (list float)) :
  List.length (rows_of_columns n cols) = n
  /\ Forall (fun row => List.length row = List.length cols) (rows_of_columns n cols).
Proof.
  unfold rows_of_columns; split.
  - rewrite length_map, length_seq; reflexivity.
  - apply Forall_forall; intros row Hrow.
    apply in_map_iff in Hrow as (r & <- & _).
    apply length_map.
Qed.

(** A cell of the array is the cell of its card's column. *)
Lemma rows_of_columns_cell (n r c : nat) (cols : list (list float)) (x : float) :
  Forall (fun col => List.length col = n) cols ->
  (match nth_error (rows_of_columns n cols) r with
   | Some row => nth_error row c
   | None => None
   end = Some x) <->
  (exists col, nth_error cols c = Some col /\ nth_error col r = Some x).
Proof.
  intro Hlen. rewrite nth_error_rows_of_columns.
  destruct (Nat.ltb_spec r n) as [Hr|Hr].
  - rewrite nth_error_map.
    destruct (nth_error cols c) as [col|] eqn:E; simpl.
    + assert (List.length col = n) as Hcol.
      { eapply Forall_forall in Hlen; [eassumption|].
        eapply nth_error_In; eassumption. }
      rewrite <- (nth_error_nth' col zero) by lia.
      split.
      * intro H; exists col; auto.
      * intros (col' & Heq & H); injection Heq as <-; exact H.
    + split; [discriminate | intros (col & Heq & _); discriminate].
  - split; [discriminate|].
    intros (col & Hc & Hx).
    assert (List.length col = n) as Hcol.
    { eapply Forall_forall in Hlen; [eassumption|].
      eapply nth_error_In; eassumption. }
    assert (nth_error col r <> None) as Hn by congruence.
    apply nth_error_Some in Hn; lia.
Qed.

(** *** Player 0 *)

Lemma p0_compound_inv (card_data : card_strategy) (col : list float) :
  P0.compound card_data = Ok col ->
  exists check_prob bet_prob check_fold check_callbet check_raise bet_fold bet_callraise,
    P0.check_prob card_data = Ok check_prob
    /\ P0.bet_prob card_data = Ok bet_prob
    /\ item (P0.check_actions card_data) 1 = Ok check_fold
    /\ item (P0.check_actions card_data) 0 = Ok check_callbet
    /\ item (P0.check_actions card_data) 2 = Ok check_raise
    /\ item (P0.bet_actions card_data) 1 = Ok bet_fold
    /\ item (P0.bet_actions card_data) 0 = Ok bet_callraise
    /\ col = [mul check_prob check_fold; mul check_prob check_callbet;
              mul check_prob check_raise; mul bet_prob bet_fold;
              mul bet_prob bet_callraise].
Proof.
  unfold P0.compound; intro H.
  repeat bind_inv H. injection H as <-.
  do 7 eexists; repeat split; eassumption.
Qed.

Lemma p0_build_table_inv (strategies : strategy_index) (df : DataFrame) :
  P0.build_table strategies = Ok df ->
  exists cards cols,
    sorted_cards strategies = Ok cards
    /\ mapM (P0.column_of strategies) cards = Ok cols
    /\ df = {| values := rows_of_columns 5 cols;
               columns := cards;
               index_labels := P0.strategy_names |}.
Proof.
  unfold P0.build_table; intro H.
  repeat bind_inv H. injection H as <-. eauto.
Qed.

Lemma p0_columns_length (strategies : strategy_index) (cards : list string)
  (cols : list (list float)) :
  mapM (P0.column_of strategies) cards = Ok cols ->
  Forall (fun col => List.length col = 5) cols.
Proof.
  intro H; apply mapM_ok in H.
  induction H as [|card col cards' cols' Hcol _ IH]; constructor; auto.
  unfold P0.column_of in Hcol. bind_inv Hcol.
  apply p0_compound_inv in Hcol
    as (? & ? & ? & ? & ? & ? & ? & _ & _ & _ & _ & _ & _ & _ & ->).
  reflexivity.
Qed.

(** The cell at row [r] of the column of [card] is item [r] of what the
    third loop computes from the card's vectors. *)
Lemma p0_cell (strategies : strategy_index) (df : DataFrame) (r c : nat)
  (x : float) :
  P0.build_table strategies = Ok df ->
  (cell df r c = Some x <->
   exists card card_data col,
     nth_error (columns df) c = Some card
     /\ dict_get strategies card = Some card_data
     /\ P0.compound card_data = Ok col
     /\ nth_error col r = Some x).
Proof.
  intro H; apply p0_build_table_inv in H as (cards & cols & _ & Hcols & ->).
  unfold cell; simpl.
  rewrite (rows_of_columns_cell 5 r c cols x (p0_columns_length _ _ _ Hcols)).
  split.
  - intros (col & Hc & Hx).
    destruct (mapM_nth_inv _ _ _ _ _ Hcols Hc) as (card & Hcard & Hcol).
    unfold P0.column_of, dict_item in Hcol.
    destruct (dict_get strategies card) as [cd|] eqn:E; [|discriminate].
    exists card, cd, col; auto.
  - intros (card & cd & col & Hcard & Hcd & Hcol & Hx).
    destruct (mapM_nth _ _ _ _ _ Hcols Hcard) as (col' & Hc & Hcol').
    unfold P0.column_of, dict_item in Hcol'. rewrite Hcd in Hcol'; simpl in Hcol'.
    exists col'; split; congruence.
Qed.

(** *** Player 1 *)

Lemma p1_compound_inv (card_data : card_strategy) (cols : list float * list float) :
  P1.compound card_data = Ok cols ->
  exists bet_prob check_prob callraise_prob fold_to_raise_prob callbet fold raise,
    item (P1.checked_to_probs card_data) 0 = Ok bet_prob
    /\ item (P1.checked_to_probs card_data) 1 = Ok check_prob
    /\ P1.raise_response (P1.raise_response_probs card_data)
         = Ok (callraise_prob, fold_to_raise_prob)
    /\ item (P1.bet_into_probs card_data) 0 = Ok callbet
    /\ item (P1.bet_into_probs card_data) 1 = Ok fold
    /\ item (P1.bet_into_probs card_data) 2 = Ok raise
    /\ cols = ([mul bet_prob callraise_prob; mul bet_prob fold_to_raise_prob;
                check_prob],
               [callbet; fold; raise]).
Proof.
  unfold P1.compound; intro H.
  repeat bind_inv H. destruct x1 as [callraise_prob fold_to_raise_prob].
  repeat bind_inv H. injection H as <-.
  do 7 eexists; repeat split; eassumption.
Qed.

Lemma p1_build_tables_inv (strategies : strategy_index) (dfs : DataFrame * DataFrame) :
  P1.build_tables strategies = Ok dfs ->
  exists cards cols,
    sorted_cards strategies = Ok cards
    /\ mapM (P1.column_of strategies) cards = Ok cols
    /\ dfs = ({| values := rows_of_columns 3 (map fst cols);
                 columns := cards;
                 index_labels := P1.checked_to_names |},
              {| values := rows_of_columns 3 (map snd cols);
                 columns := cards;
                 index_labels := P1.bet_into_names |}).
Proof.
  unfold P1.build_tables; intro H.
  repeat bind_inv H. injection H as <-. eauto.
Qed.

Lemma p1_columns_length (strategies : strategy_index) (cards : list string)
  (cols : list (list float * list float)) :
  mapM (P1.column_of strategies) cards = Ok cols ->
  Forall (fun col => List.length col = 3) (map fst cols)
  /\ Forall (fun col => List.length col = 3) (map snd cols).
Proof.
  intro H; apply mapM_ok in H.
  induction H as [|card col cards' cols' Hcol _ [IH1 IH2]]; simpl;
    [split; constructor|].
  unfold P1.column_of in Hcol. bind_inv Hcol.
  apply p1_compound_inv in Hcol
    as (? & ? & ? & ? & ? & ? & ? & _ & _ & _ & _ & _ & _ & ->).
  split; constructor; auto.
Qed.

(** The cells of the two tables at row [r] of the column of [card]. *)
Lemma p1_cell (strategies : strategy_index) (checked_to bet_into : DataFrame)
  (r c : nat) (x : float) :
  P1.build_tables strategies = Ok (checked_to, bet_into) ->
  (cell checked_to r c = Some x <->
   exists card card_data cols,
     nth_error (columns checked_to) c = Some card
     /\ dict_get strategies card = Some card_data
     /\ P1.compound card_data = Ok cols
     /\ nth_error (fst cols) r = Some x)
  /\ (cell bet_into r c = Some x <->
      exists card card_data cols,
        nth_error (columns bet_into) c = Some card
        /\ dict_get strategies card = Some card_data
        /\ P1.compound card_data = Ok cols
        /\ nth_error (snd cols) r = Some x).
Proof.
  intro H; apply p1_build_tables_inv in H as (cards & cols & _ & Hcols & H).
  injection H as -> ->.
  destruct (p1_columns_length _ _ _ Hcols) as [L1 L2].
  unfold cell; simpl.
  rewrite (rows_of_columns_cell 3 r c (map fst cols) x L1).
  rewrite (rows_of_columns_cell 3 r c (map snd cols) x L2).
  split; split.
  - intros (col & Hc & Hx). rewrite nth_error_map in Hc.
    destruct (nth_error cols c) as [pair|] eqn:E; [|discriminate].
    injection Hc as <-.
    destruct (mapM_nth_inv _ _ _ _ _ Hcols E) as (card & Hcard & Hcol).
    unfold P1.column_of, dict_item in Hcol.
    destruct (dict_get strategies card) as [cd|] eqn:E'; [|discriminate].
    exists card, cd, pair; auto.
  - intros (card & cd & pair & Hcard & Hcd & Hcol & Hx).
    destruct (mapM_nth _ _ _ _ _ Hcols Hcard) as (pair' & Hc & Hcol').
    unfold P1.column_of, dict_item in Hcol'. rewrite Hcd in Hcol'; simpl in Hcol'.
    exists (fst pair'); rewrite nth_error_map, Hc; split; [reflexivity | congruence].
  - intros (col & Hc & Hx). rewrite nth_error_map in Hc.
    destruct (nth_error cols c) as [pair|] eqn:E; [|discriminate].
    injection Hc as <-.
    destruct (mapM_nth_inv _ _ _ _ _ Hcols E) as (card & Hcard & Hcol).
    unfold P1.column_of, dict_item in Hcol.
    destruct (dict_get strategies card) as [cd|] eqn:E'; [|discriminate].
    exists card, cd, pair; auto.
  - intros (card & cd & pair & Hcard & Hcd & Hcol & Hx).
    destruct (mapM_nth _ _ _ _ _ Hcols Hcard) as (pair' & Hc & Hcol').
    unfold P1.column_of, dict_item in Hcol'. rewrite Hcd in Hcol'; simpl in Hcol'.
    exists (snd pair'); rewrite nth_error_map, Hc; split; [reflexivity | congruence].
Qed.

End TableFacts.

(** ** Rounding of binary64 products *)

Module Rounding.

Import PyFloat Numbers.

Local Open Scope Q_scope.

Lemma inject_xO (p : positive) : inject_Z (Zpos p~0) == 2 * inject_Z (Zpos p).
Proof. rewrite Pos2Z.inj_xO, inject_Z_mult. reflexivity. Qed.

Lemma inject_xI (p : positive) : inject_Z (Zpos p~1) == 2 * inject_Z (Zpos p) + 1.
Proof. rewrite Pos2Z.inj_xI, inject_Z_plus, inject_Z_mult. reflexivity. Qed.

Ltac qnorm :=
  change (inject_Z 0) with 0 in *; change (inject_Z 1) with 1 in *.

Lemma encodes_shr_1 (mrs : shr_record) (w : Q) :
  encodes mrs w -> encodes (shr_1 mrs) (w * (1 # 2)).
Proof.
  destruct mrs as [m r s]; unfold encodes; simpl.
  intros [Hm H].
  destruct m as [|[p|p|]|p]; try lia; simpl.
  - destruct r, s; simpl in *; (split; [lia|]); qnorm; lra.
  - pose proof (inject_xI p) as E.
    destruct r, s; simpl in *; (split; [lia|]); qnorm; lra.
  - pose proof (inject_xO p) as E.
    destruct r, s; simpl in *; (split; [lia|]); qnorm; lra.
  - destruct r, s; simpl in *; (split; [lia|]); qnorm; lra.
Qed.

Lemma encodes_ext (mrs : shr_record) (w w' : Q) :
  w == w' -> encodes mrs w -> encodes mrs w'.
Proof.
  intros E [Hm H]; split; auto.
  destruct (shr_r mrs), (shr_s mrs); lra.
Qed.

Lemma pow2_pos (e : Z) : 0 < pow2 e.
Proof. apply Qpower_0_lt; reflexivity. Qed.

Lemma pow2_add (a b : Z) : pow2 (a + b) == pow2 a * pow2 b.
Proof. apply Qpower_plus; discriminate. Qed.

Lemma pow2_le (a b : Z) : (a <= b)%Z -> pow2 a <= pow2 b.
Proof. intro H; apply Qpower_le_compat_l; [exact H | discriminate]. Qed.

Lemma pow2_lt (a b : Z) : (a < b)%Z -> pow2 a < pow2 b.
Proof. intro H; apply Qpower_lt_compat_l; [exact H | reflexivity]. Qed.

Lemma pow2_le_inv (a b : Z) : pow2 a <= pow2 b -> (a <= b)%Z.
Proof. intro H; eapply Qpower_le_compat_l_inv; [exact H | reflexivity]. Qed.

Lemma pow2_lt_inv (a b : Z) : pow2 a < pow2 b -> (a < b)%Z.
Proof. intro H; eapply Qpower_lt_compat_l_inv; [exact H | reflexivity]. Qed.

Lemma pow2_neg_xI (p : positive) :
  pow2 (Zneg p~1) == pow2 (Zneg p) * pow2 (Zneg p) * (1 # 2).
Proof.
  replace (Zneg p~1) with (Zneg p + Zneg p + (-1))%Z by lia.
  rewrite !pow2_add. reflexivity.
Qed.

Lemma pow2_neg_xO (p : positive) :
  pow2 (Zneg p~0) == pow2 (Zneg p) * pow2 (Zneg p).
Proof.
  replace (Zneg p~0) with (Zneg p + Zneg p)%Z by lia.
  rewrite !pow2_add. reflexivity.
Qed.

Lemma encodes_iter (p : positive) (mrs : shr_record) (w : Q) :
  encodes mrs w -> encodes (iter_pos shr_1 p mrs) (w * pow2 (Zneg p)).
Proof.
  revert mrs w; induction p as [p IH|p IH|]; intros mrs w H; cbn [iter_pos].
  - apply encodes_shr_1, IH, IH in H.
    eapply encodes_ext; [|exact H].
    rewrite pow2_neg_xI. ring.
  - apply IH, IH in H.
    eapply encodes_ext; [|exact H].
    rewrite pow2_neg_xO. ring.
  - apply encodes_shr_1 in H. exact H.
Qed.

(** The number of binary digits. *)
Lemma digits2_size (m : positive) : digits2_pos m = Pos.size m.
Proof. induction m; simpl; congruence. Qed.

Lemma pow2_Z (n : Z) : (0 <= n)%Z -> inject_Z (2 ^ n) == pow2 n.
Proof. intro H; unfold pow2; rewrite Zpower_Qpower by exact H; reflexivity. Qed.

Lemma digits_lower (m : positive) :
  pow2 (Zpos (digits2_pos m) - 1) <= inject_Z (Zpos m).
Proof.
  rewrite digits2_size.
  assert (2 ^ (Zpos (Pos.size m) - 1) <= Zpos m)%Z as H.
  { pose proof (Pos.size_le m) as H.
    assert (2 ^ Zpos (Pos.size m) <= 2 * Zpos m)%Z as H'.
    { rewrite <- Pos2Z.inj_pow. lia. }
    replace (Zpos (Pos.size m)) with (Zpos (Pos.size m) - 1 + 1)%Z in H' by lia.
    rewrite Z.pow_add_r in H' by lia. lia. }
  rewrite <- pow2_Z by lia.
  rewrite <- Zle_Qle. exact H.
Qed.

Lemma fexp_eq (e : Z) : fexp prec emax e = Z.max (e - 53) (-1074).
Proof. reflexivity. Qed.

Lemma encodes_floor (mrs : shr_record) (w : Q) :
  encodes mrs w ->
  inject_Z (shr_m mrs) <= w /\ w < inject_Z (shr_m mrs) + 1.
Proof.
  intros [_ H]; destruct (shr_r mrs), (shr_s mrs); lra.
Qed.

Lemma encodes_round (mrs : shr_record) (w : Q) :
  encodes mrs w ->
  (0 <= round_nearest_even (shr_m mrs) (loc_of_shr_record mrs))%Z
  /\ inject_Z (round_nearest_even (shr_m mrs) (loc_of_shr_record mrs)) - (1 # 2) <= w
  /\ w <= inject_Z (round_nearest_even (shr_m mrs) (loc_of_shr_record mrs)) + (1 # 2).
Proof.
  destruct mrs as [m r s]; unfold encodes; simpl; intros [Hm H].
  assert (inject_Z (m + 1) == inject_Z m + 1) as E
      by (rewrite inject_Z_plus; reflexivity).
  destruct r, s; simpl; try destruct (Z.even m); (split; [lia|]); lra.
Qed.

Lemma shr_fexp_spec (m e : Z) :
  (0 <= m)%Z ->
  exists mrs e',
    shr_fexp prec emax m e loc_Exact = (mrs, e')
    /\ encodes mrs (inject_Z m * pow2 (e - e'))
    /\ ((e' = e /\ mrs = Build_shr_record m false false)
        \/ (e < e' /\ e' = fexp prec emax (Zdigits2 m + e)))%Z.
Proof.
  intro Hm. unfold shr_fexp, shr; simpl shr_record_of_loc.
  assert (encodes (Build_shr_record m false false) (inject_Z m * pow2 (e - e))) as H0.
  { split; [exact Hm|]. simpl. rewrite Z.sub_diag. change (pow2 0) with 1. ring. }
  destruct (fexp prec emax (Zdigits2 m + e) - e)%Z as [|p|p] eqn:En.
  - do 2 eexists; split; [reflexivity|]. split; [exact H0|]. left; auto.
  - do 2 eexists; split; [reflexivity|]. split.
    + replace (e - (e + Zpos p))%Z with (Zneg p) by lia.
      apply encodes_iter. split; [exact Hm|]. reflexivity.
    + right; lia.
  - do 2 eexists; split; [reflexivity|]. split; [exact H0|]. left; auto.
Qed.

Lemma fexp_small (d e : Z) (x : Q) :
  pow2 (d - 1 + e) <= x -> x < 2 -> (fexp prec emax (d + e) <= -52)%Z.
Proof.
  intros H1 H2.
  assert (pow2 (d - 1 + e) < pow2 1) as H by (change (pow2 1) with 2; lra).
  apply pow2_lt_inv in H. rewrite fexp_eq. lia.
Qed.

Lemma scale_le (x y c : Q) : 0 < c -> x <= y -> x * c <= y * c.
Proof. intros Hc H; apply Qmult_le_compat_r; lra. Qed.

Lemma scale_lt (x y c : Q) : 0 < c -> x < y -> x * c < y * c.
Proof. intros Hc H; apply Qmult_lt_compat_r; lra. Qed.

Lemma pow2_shift (a b : Z) : pow2 (a - b) * pow2 b == pow2 a.
Proof. rewrite <- pow2_add. replace (a - b + b)%Z with a by lia. reflexivity. Qed.

(** The two shifts and the rounding of [binary_round_aux] on a positive
    integer [m] at exponent [e]. *)
Lemma round_aux_stages (m : positive) (e : Z) :
  exists m2 m3 e1 e3 : Z,
    (0 <= m2)%Z /\ (0 <= m3)%Z
    /\ binary_round_aux prec emax false (Zpos m) e loc_Exact =
         match m3 with
         | Z0 => S754_zero false
         | Zpos q =>
             if (e3 <=? emax - prec)%Z then S754_finite false q e3
             else S754_infinity false
         | Zneg _ => S754_nan
         end
    /\ ((e1 = e /\ m2 = Zpos m)
        \/ ((e < e1)%Z /\ e1 = fexp prec emax (Zpos (digits2_pos m) + e)
            /\ inject_Z m2 - (1 # 2) <= inject_Z (Zpos m) * pow2 (e - e1)
            /\ inject_Z (Zpos m) * pow2 (e - e1) <= inject_Z m2 + (1 # 2)))
    /\ ((e3 = e1 /\ m3 = m2)
        \/ ((e1 < e3)%Z /\ e3 = fexp prec emax (Zdigits2 m2 + e1)
            /\ inject_Z m3 <= inject_Z m2 * pow2 (e1 - e3)
            /\ inject_Z m2 * pow2 (e1 - e3) < inject_Z m3 + 1)).
Proof.
  unfold binary_round_aux.
  destruct (shr_fexp_spec (Zpos m) e) as (mrs1 & e1 & E1 & Henc1 & Hc1); [lia|].
  rewrite E1.
  destruct (encodes_round _ _ Henc1) as (Hm2 & Hlo & Hhi).
  set (m2 := round_nearest_even (shr_m mrs1) (loc_of_shr_record mrs1)) in *.
  destruct (shr_fexp_spec m2 e1 Hm2) as (mrs3 & e3 & E3 & Henc3 & Hc3).
  rewrite E3.
  exists m2, (shr_m mrs3), e1, e3.
  split; [exact Hm2|]. split; [apply Henc3|]. split; [reflexivity|]. split.
  - destruct Hc1 as [[-> Hrec]|[Hlt He1]].
    + left; split; [reflexivity|]. subst m2; rewrite Hrec; reflexivity.
    + right; repeat split; auto.
  - destruct Hc3 as [[-> Hrec]|[Hlt He3]].
    + left; split; [reflexivity|]. rewrite Hrec; reflexivity.
    + right. destruct (encodes_floor _ _ Henc3). repeat split; auto.
Qed.

(** Rounding a positive value that is at most 1: the result is finite, not
    below 0, and within [mul_error] of the value. *)
Lemma round_aux_unit (m : positive) (e : Z) :
  inject_Z (Zpos m) * pow2 e <= 1 ->
  is_finite (binary_round_aux prec emax false (Zpos m) e loc_Exact) = true
  /\ 0 <= SF2Q (binary_round_aux prec emax false (Zpos m) e loc_Exact)
  /\ Qabs (SF2Q (binary_round_aux prec emax false (Zpos m) e loc_Exact)
           - inject_Z (Zpos m) * pow2 e) <= mul_error.
Proof.
  intro Hv.
  destruct (round_aux_stages m e)
    as (m2 & m3 & e1 & e3 & Hm2 & Hm3 & -> & Hs1 & Hs3).
  set (V := inject_Z (Zpos m) * pow2 e) in *.
  pose proof (pow2_pos e) as Hpe.
  pose proof (pow2_pos e1) as Hp1.
  pose proof (pow2_pos e3) as Hp3.
  assert (pow2 (-52) == 2 * pow2 (-53)) as E52 by (vm_compute; reflexivity).
  assert (mul_error == 4 * pow2 (-53)) as E51 by (vm_compute; reflexivity).
  assert (pow2 (-53) < 1) as E53 by reflexivity.
  assert (1 <= inject_Z (Zpos m)) as Hm1.
  { change 1 with (inject_Z 1). rewrite <- Zle_Qle. lia. }
  assert (e <= 0)%Z as He0.
  { apply pow2_le_inv. change (pow2 0) with 1.
    assert (pow2 e <= V) by (unfold V; nra). lra. }
  (* stage 1 *)
  assert ((e1 <= 0)%Z
          /\ V - pow2 (-53) <= inject_Z m2 * pow2 e1
          /\ inject_Z m2 * pow2 e1 <= V + pow2 (-53)) as (He1 & Hlo1 & Hhi1).
  { assert (0 < pow2 (-53)) by apply pow2_pos.
    destruct Hs1 as [[-> ->]|(Hlt & He1 & Hlo & Hhi)].
    - fold V. split; [exact He0|]. lra.
    - assert (e1 <= -52)%Z as Hb.
      { rewrite He1. apply (fexp_small _ _ V); [|lra].
        unfold V. rewrite pow2_add.
        apply scale_le; [exact Hpe | apply digits_lower]. }
      assert (pow2 e1 <= pow2 (-52)) as Hb' by (apply pow2_le; exact Hb).
      apply (scale_le _ _ (pow2 e1) Hp1) in Hlo, Hhi.
      rewrite <- Qmult_assoc, pow2_shift in Hlo, Hhi. fold V in Hlo, Hhi.
      split; [lia|]. split; nra. }
  set (X2 := inject_Z m2 * pow2 e1) in *.
  (* stage 3 *)
  assert ((e3 <= 0)%Z
          /\ inject_Z m3 * pow2 e3 <= X2
          /\ X2 < inject_Z m3 * pow2 e3 + pow2 (-52)) as (He3 & Hlo3 & Hhi3).
  { assert (0 < pow2 (-52)) by apply pow2_pos.
    destruct Hs3 as [[-> ->]|(Hlt & He3 & Hlo & Hhi)].
    - fold X2. split; [exact He1|]. lra.
    - assert (e3 <= -52)%Z as Hb.
      { rewrite He3. destruct m2 as [|q2|q2]; [|..|lia].
        - simpl Zdigits2. rewrite fexp_eq in *. lia.
        - simpl Zdigits2. apply (fexp_small _ _ X2).
          + unfold X2. rewrite pow2_add.
            apply scale_le; [exact Hp1 | apply digits_lower].
          + lra. }
      assert (pow2 e3 <= pow2 (-52)) as Hb' by (apply pow2_le; exact Hb).
      apply (scale_le _ _ (pow2 e3) Hp3) in Hlo.
      apply (scale_lt _ _ (pow2 e3) Hp3) in Hhi.
      rewrite <- Qmult_assoc, pow2_shift in Hlo, Hhi. fold X2 in Hlo, Hhi.
      split; [lia|]. split; nra. }
  set (X3 := inject_Z m3 * pow2 e3) in *.
  assert (Qabs (X3 - V) <= mul_error) as Hclose.
  { apply Qabs_Qle_condition. split; lra. }
  destruct m3 as [|q|q]; [| |lia].
  - simpl. split; [reflexivity|]. split; [lra|].
    assert (X3 == 0) as E by (unfold X3; change (inject_Z 0) with 0; ring).
    rewrite E in Hclose.
    assert (0 - V == 0 - V) by reflexivity. exact Hclose.
  - assert ((e3 <=? emax - prec)%Z = true) as ->.
    { apply Z.leb_le. unfold emax, prec. lia. }
    simpl. fold (pow2 e3). fold X3.
    split; [reflexivity|]. split; [|exact Hclose].
    unfold X3. assert (0 < inject_Z (Zpos q)) by (apply (Qlt_le_trans _ 1); [reflexivity|];
      change 1 with (inject_Z 1); rewrite <- Zle_Qle; lia).
    nra.
Qed.

Lemma round_aux_ge0 (m : positive) (e : Z) :
  ge0 (binary_round_aux prec emax false (Zpos m) e loc_Exact) = true.
Proof.
  destruct (round_aux_stages m e) as (m2 & m3 & e1 & e3 & _ & Hm3 & -> & _).
  destruct m3 as [|q|q]; [reflexivity| |lia].
  destruct (e3 <=? emax - prec)%Z; reflexivity.
Qed.

Lemma finite_nonneg_cases (x : float) :
  finite_nonneg x ->
  (exists s, x = S754_zero s) \/ (exists m e, x = S754_finite false m e).
Proof.
  intros [Hf Hg]; destruct x as [s|s| |s m e]; try discriminate; eauto.
  destruct s; [discriminate | eauto].
Qed.

(** The product of two finite floats that are not below 0 is not below 0;
    it may be the infinity. *)
Lemma mul_finite_nonneg (x y : float) :
  finite_nonneg x -> finite_nonneg y -> ge0 (mul x y) = true.
Proof.
  intros Hx Hy.
  destruct (finite_nonneg_cases x Hx) as [[sx ->]|(mx & ex & ->)];
    destruct (finite_nonneg_cases y Hy) as [[sy ->]|(my & ey & ->)];
    try reflexivity.
  apply round_aux_ge0.
Qed.

Lemma probability_cases (x : float) :
  probability x ->
  (exists s, x = S754_zero s)
  \/ (exists m e, x = S754_finite false m e /\ inject_Z (Zpos m) * pow2 e <= 1).
Proof.
  intros (Hf & H0 & H1); destruct x as [s|s| |s m e]; try discriminate; eauto.
  destruct s.
  - exfalso. simpl in H0. fold (pow2 e) in H0.
    pose proof (pow2_pos e).
    assert (0 < inject_Z (Zpos m)) by (rewrite <- (Zlt_Qlt 0); lia).
    nra.
  - right; exists m, e; split; [reflexivity | exact H1].
Qed.

(** The product of two probabilities is finite, not below 0 and within
    [mul_error] of the exact product. *)
Lemma mul_probability (x y : float) :
  probability x -> probability y ->
  is_finite (mul x y) = true
  /\ 0 <= SF2Q (mul x y)
  /\ Qabs (SF2Q (mul x y) - SF2Q x * SF2Q y) <= mul_error.
Proof.
  intros Hx Hy.
  assert (0 < mul_error) as Hz by reflexivity.
  destruct (probability_cases x Hx) as [[sx ->]|(mx & ex & -> & Hvx)];
    destruct (probability_cases y Hy) as [[sy ->]|(my & ey & -> & Hvy)].
  - cbn [mul SFmul SF2Q is_finite]. split; [reflexivity|]. split; [lra|].
    apply Qabs_Qle_condition; split; lra.
  - cbn [mul SFmul SF2Q is_finite]. split; [reflexivity|]. split; [lra|].
    apply Qabs_Qle_condition; split; lra.
  - cbn [mul SFmul SF2Q is_finite]. split; [reflexivity|]. split; [lra|].
    apply Qabs_Qle_condition; split; lra.
  - unfold mul; simpl SFmul.
    assert (inject_Z (Zpos (mx * my)) * pow2 (ex + ey)
            == inject_Z (Zpos mx) * pow2 ex * (inject_Z (Zpos my) * pow2 ey)) as E.
    { rewrite Pos2Z.inj_mul, inject_Z_mult, pow2_add. ring. }
    destruct (round_aux_unit (mx * my) (ex + ey)) as (Hf & H0 & Hc).
    + rewrite E.
      assert (0 < inject_Z (Zpos mx) * pow2 ex) as Hpx.
      { apply Qmult_lt_0_compat; [rewrite <- (Zlt_Qlt 0); lia | apply pow2_pos]. }
      assert (0 < inject_Z (Zpos my) * pow2 ey) as Hpy.
      { apply Qmult_lt_0_compat; [rewrite <- (Zlt_Qlt 0); lia | apply pow2_pos]. }
      revert Hvx Hvy Hpx Hpy.
      generalize (inject_Z (Zpos mx) * pow2 ex), (inject_Z (Zpos my) * pow2 ey).
      intros X Y; intros; nra.
    + split; [exact Hf|]. split; [exact H0|].
      cbn [SF2Q]. fold (pow2 ex) (pow2 ey). rewrite <- E. exact Hc.
Qed.

End Rounding.

(** ** Sums of the rows of one card *)

Module Sums.

Import PyStr PyFloat Numbers Scripts Rounding TableFacts.

Local Open Scope Q_scope.

Lemma sum3_bound (c a0 a1 a2 f0 f1 f2 delta eps : Q) :
  0 <= c -> c <= 1 ->
  Qabs (f0 - c * a0) <= eps -> Qabs (f1 - c * a1) <= eps ->
  Qabs (f2 - c * a2) <= eps ->
  Qabs (a0 + a1 + a2 - 1) <= delta ->
  Qabs (f0 + f1 + f2 - c) <= delta + 3 * eps.
Proof.
  intros Hc0 Hc1 H0 H1 H2 Hs.
  apply Qabs_Qle_condition in H0, H1, H2, Hs.
  apply Qabs_Qle_condition.
  destruct H0, H1, H2, Hs. split; nra.
Qed.

Lemma sum2_bound (c a0 a1 f0 f1 delta eps : Q) :
  0 <= c -> c <= 1 ->
  Qabs (f0 - c * a0) <= eps -> Qabs (f1 - c * a1) <= eps ->
  Qabs (a0 + a1 - 1) <= delta ->
  Qabs (f0 + f1 - c) <= delta + 2 * eps.
Proof.
  intros Hc0 Hc1 H0 H1 Hs.
  apply Qabs_Qle_condition in H0, H1, Hs.
  apply Qabs_Qle_condition.
  destruct H0, H1, Hs. split; nra.
Qed.

Local Close Scope Q_scope.

Lemma p0_parse_build (text : string) (strategies : strategy_index) (df : DataFrame) :
  P0.strategies_of (readlines text) = Ok strategies ->
  P0.parse_strategy_file text = Ok df ->
  P0.build_table strategies = Ok df.
Proof.
  unfold P0.parse_strategy_file, P0.parse_lines; intros -> H; exact H.
Qed.

Lemma p0_column_cells (strategies : strategy_index) (df : DataFrame) (c : nat)
  (card : string) (card_data : card_strategy) (col : list float) :
  P0.build_table strategies = Ok df ->
  nth_error (columns df) c = Some card ->
  dict_get strategies card = Some card_data ->
  P0.compound card_data = Ok col ->
  forall r x, nth_error col r = Some x -> cell df r c = Some x.
Proof.
  intros Hb Hc Hcd Hcol r x Hx.
  apply (p0_cell _ _ r c x Hb). exists card, card_data, col; auto.
Qed.

(** Against C3: with the root record 0.7 0.3 alone the three CHECK rows are
    0, so their sum is 0 while the stored check probability is 0.3. *)
Lemma check_rows_without_second_record :
  exists strategies df bet check,
    P0.strategies_of (readlines Scenario.root_only) = Ok strategies
    /\ P0.parse_strategy_file Scenario.root_only = Ok df
    /\ columns df = ["A"]
    /\ lookup strategies "A" "|BET,CHECK" = Some [bet; check]
    /\ check = dec "0.3"
    /\ cell df 0 0 = Some zero /\ cell df 1 0 = Some zero /\ cell df 2 0 = Some zero
    /\ ~ (Qabs (SF2Q zero + SF2Q zero + SF2Q zero - SF2Q check) <= 1 # 10)%Q.
Proof.
  do 4 eexists.
  split; [vm_compute; reflexivity|].
  split; [vm_compute; reflexivity|].
  split; [reflexivity|].
  split; [vm_compute; reflexivity|].
  split; [vm_compute; reflexivity|].
  split; [reflexivity|]. split; [reflexivity|]. split; [reflexivity|].
  vm_compute. intro H; apply H; reflexivity.
Qed.

Lemma p0_column_exists (strategies : strategy_index) (df : DataFrame) (c : nat)
  (card : string) (card_data : card_strategy) :
  P0.build_table strategies = Ok df ->
  nth_error (columns df) c = Some card ->
  dict_get strategies card = Some card_data ->
  exists col, P0.compound card_data = Ok col.
Proof.
  intros Hb Hc Hcd.
  apply p0_build_table_inv in Hb as (cards & cols & _ & Hcols & ->).
  simpl in Hc.
  destruct (mapM_nth _ _ _ _ _ Hcols Hc) as (col & _ & Hcol).
  unfold P0.column_of, dict_item in Hcol. rewrite Hcd in Hcol.
  exists col; exact Hcol.
Qed.

(** C3, amended: for a card of the table of player 0, each CHECK row is
    the check probability read at "|BET,CHECK" times the matching value
    read after "CHECK, BET", each BET row the bet probability read there
    times the matching value read after "BET, RAISE"; a value read is the
    stored one when its record is stored.  The two branches are apart: when
    the check probability and the three values read after "CHECK, BET" are
    probabilities and these three sum to 1 within [delta], the CHECK rows
    sum to the check probability within [delta + 3 * mul_error], whatever
    is stored after "BET, RAISE"; when the bet probability and the two
    values read after "BET, RAISE" are probabilities that sum to 1 within
    [delta], the BET rows sum to the bet probability within
    [delta + 2 * mul_error], whatever is stored after "CHECK, BET". *)
Theorem p0_branch_sums (text : string) (strategies : strategy_index)
  (df : DataFrame) (c : nat) (card : string) (card_data : card_strategy) :
  P0.strategies_of (readlines text) = Ok strategies ->
  P0.parse_strategy_file text = Ok df ->
  nth_error (columns df) c = Some card ->
  dict_get strategies card = Some card_data ->
  exists check bet fold callbet raise fold_to_raise callraise,
    P0.check_prob card_data = Ok check
    /\ P0.bet_prob card_data = Ok bet
    /\ item (P0.check_actions card_data) 1 = Ok fold
    /\ item (P0.check_actions card_data) 0 = Ok callbet
    /\ item (P0.check_actions card_data) 2 = Ok raise
    /\ item (P0.bet_actions card_data) 1 = Ok fold_to_raise
    /\ item (P0.bet_actions card_data) 0 = Ok callraise
    /\ (forall v, dict_get card_data "|BET,CHECK" = Some v ->
          item v 1 = Ok check /\ item v 0 = Ok bet)
    /\ (forall v, dict_get card_data "CHECK, BET|CALLBET,FOLD,RAISE" = Some v ->
          item v 1 = Ok fold /\ item v 0 = Ok callbet /\ item v 2 = Ok raise)
    /\ (forall v, dict_get card_data "BET, RAISE|CALLRAISE,FOLD" = Some v ->
          item v 1 = Ok fold_to_raise /\ item v 0 = Ok callraise)
    /\ cell df 0 c = Some (mul check fold)
    /\ cell df 1 c = Some (mul check callbet)
    /\ cell df 2 c = Some (mul check raise)
    /\ cell df 3 c = Some (mul bet fold_to_raise)
    /\ cell df 4 c = Some (mul bet callraise)
    /\ (forall delta : Q,
          probability check -> probability fold -> probability callbet ->
          probability raise ->
          (Qabs (SF2Q callbet + SF2Q fold + SF2Q raise - 1) <= delta)%Q ->
          (Qabs (SF2Q (mul check fold) + SF2Q (mul check callbet)
                 + SF2Q (mul check raise) - SF2Q check)
           <= delta + 3 * mul_error)%Q)
    /\ (forall delta : Q,
          probability bet -> probability fold_to_raise -> probability callraise ->
          (Qabs (SF2Q callraise + SF2Q fold_to_raise - 1) <= delta)%Q ->
          (Qabs (SF2Q (mul bet fold_to_raise) + SF2Q (mul bet callraise)
                 - SF2Q bet)
           <= delta + 2 * mul_error)%Q).
Proof.
  intros Hidx Hparse Hcard Hcd.
  pose proof (p0_parse_build _ _ _ Hidx Hparse) as Hbuild.
  destruct (p0_column_exists _ _ _ _ _ Hbuild Hcard Hcd) as (col & Hcol).
  pose proof (p0_column_cells _ _ _ _ _ _ Hbuild Hcard Hcd Hcol) as Hcell.
  apply p0_compound_inv in Hcol
    as (check & bet & fold & callbet & raise & fold_to_raise & callraise
        & Hc & Hb & H1 & H0 & H2 & H4 & H3 & ->).
  exists check, bet, fold, callbet, raise, fold_to_raise, callraise.
  repeat (split; [assumption|]).
  split.
  { intros v Hv. unfold P0.check_prob, P0.bet_prob, dict_get_default in Hc, Hb.
    rewrite Hv in Hc, Hb. auto. }
  split.
  { intros v Hv. unfold P0.check_actions, dict_get_default in H0, H1, H2.
    rewrite Hv in H0, H1, H2. auto. }
  split.
  { intros v Hv. unfold P0.bet_actions, dict_get_default in H3, H4.
    rewrite Hv in H3, H4. auto. }
  repeat (split; [apply Hcell; reflexivity|]).
  split.
  - intros delta Pc Pf Pcb Pr Hd.
    destruct (mul_probability check fold) as (_ & _ & E1); auto.
    destruct (mul_probability check callbet) as (_ & _ & E2); auto.
    destruct (mul_probability check raise) as (_ & _ & E3); auto.
    apply (sum3_bound (SF2Q check) (SF2Q fold) (SF2Q callbet) (SF2Q raise));
      try assumption; try apply Pc.
    eapply Qle_trans; [|exact Hd].
    apply Qle_lteq; right; apply Qabs_wd; ring.
  - intros delta Pb Pf Pc Hd.
    destruct (mul_probability bet fold_to_raise) as (_ & _ & E4); auto.
    destruct (mul_probability bet callraise) as (_ & _ & E5); auto.
    apply (sum2_bound (SF2Q bet) (SF2Q fold_to_raise) (SF2Q callraise));
      try assumption; try apply Pb.
    eapply Qle_trans; [|exact Hd].
    apply Qle_lteq; right; apply Qabs_wd; ring.
Qed.

Ltac probabilities :=
  repeat constructor; vm_compute; congruence.

Lemma p0_branch_sums_witness :
  exists df,
    P0.parse_strategy_file Scenario.check_branch_only = Ok df
    /\ cell df 0 0 = Some (mul (dec "0.3") (dec "0.6"))
    /\ cell df 1 0 = Some (mul (dec "0.3") (dec "0.2"))
    /\ cell df 2 0 = Some (mul (dec "0.3") (dec "0.2"))
    /\ cell df 3 0 = Some (mul (dec "0.7") zero)
    /\ cell df 4 0 = Some (mul (dec "0.7") zero)
    /\ (Qabs (SF2Q (mul (dec "0.3") (dec "0.6")) + SF2Q (mul (dec "0.3") (dec "0.2"))
              + SF2Q (mul (dec "0.3") (dec "0.2")) - SF2Q (dec "0.3"))
        <= (1 # 10 ^ 15) + 3 * mul_error)%Q.
Proof.
  eexists. split; [by_computation|].
  eassert (H : _);
    [eapply (p0_branch_sums Scenario.check_branch_only) with (c := 0) (card := "A");
     by_computation|].
  destruct H as (check & bet & fold & callbet & raise & fold_to_raise & callraise
                 & Hc & Hb & H1 & H0 & H2 & H4 & H3 & _ & _ & _
                 & C0 & C1 & C2 & C3 & C4 & Hsum & _).
  vm_compute in Hc, Hb, H0, H1, H2, H3, H4.
  injection Hc as <-; injection Hb as <-; injection H0 as <-;
    injection H1 as <-; injection H2 as <-; injection H3 as <-;
    injection H4 as <-.
  repeat (split; [assumption|]).
  apply (Hsum (1 # 10 ^ 15)%Q); try by_computation; repeat split; by_computation.
Defined.

Lemma probability_one : probability one.
Proof. repeat split; vm_compute; congruence. Qed.

(** C9: for a card of the table of player 0 with no record under
    "|BET,CHECK", the check probability and the bet probability are both 1:
    the CHECK rows are 1 times the probabilities after "CHECK, BET" and the
    BET rows 1 times those after "BET, RAISE"; when those two vectors are
    probabilities that sum to 1 within [delta], the five cells sum to 2
    within [2 * delta + 5 * mul_error]. *)
Theorem p0_missing_root_counts_twice (text : string) (strategies : strategy_index)
  (df : DataFrame) (c : nat) (card : string) (card_data : card_strategy) :
  P0.strategies_of (readlines text) = Ok strategies ->
  P0.parse_strategy_file text = Ok df ->
  nth_error (columns df) c = Some card ->
  dict_get strategies card = Some card_data ->
  dict_get card_data "|BET,CHECK" = None ->
  P0.check_prob card_data = Ok one
  /\ P0.bet_prob card_data = Ok one
  /\ exists callbet fold raise callraise fold_to_raise,
      item (P0.check_actions card_data) 0 = Ok callbet
      /\ item (P0.check_actions card_data) 1 = Ok fold
      /\ item (P0.check_actions card_data) 2 = Ok raise
      /\ item (P0.bet_actions card_data) 0 = Ok callraise
      /\ item (P0.bet_actions card_data) 1 = Ok fold_to_raise
      /\ cell df 0 c = Some (mul one fold)
      /\ cell df 1 c = Some (mul one callbet)
      /\ cell df 2 c = Some (mul one raise)
      /\ cell df 3 c = Some (mul one fold_to_raise)
      /\ cell df 4 c = Some (mul one callraise)
      /\ forall delta : Q,
          Forall probability [callbet; fold; raise; callraise; fold_to_raise] ->
          (Qabs (SF2Q callbet + SF2Q fold + SF2Q raise - 1) <= delta)%Q ->
          (Qabs (SF2Q callraise + SF2Q fold_to_raise - 1) <= delta)%Q ->
          (Qabs (SF2Q (mul one fold) + SF2Q (mul one callbet) + SF2Q (mul one raise)
                 + SF2Q (mul one fold_to_raise) + SF2Q (mul one callraise) - 2)
           <= 2 * delta + 5 * mul_error)%Q.
Proof.
  intros Hidx Hparse Hcard Hcd Hroot.
  pose proof (p0_parse_build _ _ _ Hidx Hparse) as Hbuild.
  assert (P0.check_prob card_data = Ok one) as Hcp.
  { unfold P0.check_prob, dict_get_default; rewrite Hroot; reflexivity. }
  assert (P0.bet_prob card_data = Ok one) as Hbp.
  { unfold P0.bet_prob, dict_get_default; rewrite Hroot; reflexivity. }
  split; [exact Hcp|]. split; [exact Hbp|].
  destruct (p0_column_exists _ _ _ _ _ Hbuild Hcard Hcd) as (col & Hcol).
  pose proof (p0_column_cells _ _ _ _ _ _ Hbuild Hcard Hcd Hcol) as Hcell.
  apply p0_compound_inv in Hcol
    as (cp & bp & fold & callbet & raise & fold_to_raise & callraise
        & Hcp' & Hbp' & H1 & H0 & H2 & H4 & H3 & ->).
  rewrite Hcp in Hcp'; injection Hcp' as <-.
  rewrite Hbp in Hbp'; injection Hbp' as <-.
  exists callbet, fold, raise, callraise, fold_to_raise.
  repeat (split; [first [assumption | apply Hcell; reflexivity]|]).
  intros delta Hprob Hda Hdb.
  repeat (apply Forall_cons_iff in Hprob as [? Hprob]).
  pose proof probability_one as Hone.
  destruct (mul_probability one fold) as (_ & _ & E1); auto.
  destruct (mul_probability one callbet) as (_ & _ & E2); auto.
  destruct (mul_probability one raise) as (_ & _ & E3); auto.
  destruct (mul_probability one fold_to_raise) as (_ & _ & E4); auto.
  destruct (mul_probability one callraise) as (_ & _ & E5); auto.
  assert (SF2Q one == 1)%Q as E by (vm_compute; reflexivity).
  assert (Qabs (SF2Q (mul one fold) + SF2Q (mul one callbet) + SF2Q (mul one raise)
                - SF2Q one) <= delta + 3 * mul_error)%Q as HA.
  { apply (sum3_bound (SF2Q one) (SF2Q fold) (SF2Q callbet) (SF2Q raise));
      try assumption; try apply Hone.
    eapply Qle_trans; [|exact Hda].
    apply Qle_lteq; right; apply Qabs_wd; ring. }
  assert (Qabs (SF2Q (mul one fold_to_raise) + SF2Q (mul one callraise)
                - SF2Q one) <= delta + 2 * mul_error)%Q as HB.
  { apply (sum2_bound (SF2Q one) (SF2Q fold_to_raise) (SF2Q callraise));
      try assumption; try apply Hone.
    eapply Qle_trans; [|exact Hdb].
    apply Qle_lteq; right; apply Qabs_wd; ring. }
  apply Qabs_Qle_condition in HA, HB. apply Qabs_Qle_condition.
  destruct HA, HB. split; lra.
Qed.

Lemma p0_missing_root_counts_twice_witness :
  exists df,
    P0.parse_strategy_file Scenario.spec_scenario = Ok df
    /\ cell df 0 0 = Some (mul one (dec "0.6"))
    /\ cell df 1 0 = Some (mul one (dec "0.2"))
    /\ cell df 2 0 = Some (mul one (dec "0.2"))
    /\ cell df 3 0 = Some (mul one (dec "0.1"))
    /\ cell df 4 0 = Some (mul one (dec "0.9"))
    /\ (Qabs (SF2Q (mul one (dec "0.6")) + SF2Q (mul one (dec "0.2"))
              + SF2Q (mul one (dec "0.2")) + SF2Q (mul one (dec "0.1"))
              + SF2Q (mul one (dec "0.9")) - 2)
        <= 2 * (1 # 10 ^ 15) + 5 * mul_error)%Q.
Proof.
  eexists. split; [by_computation|].
  eassert (H : _);
    [eapply (p0_missing_root_counts_twice Scenario.spec_scenario)
       with (c := 0) (card := "A"); by_computation|].
  destruct H as (_ & _ & callbet & fold & raise & callraise & fold_to_raise
                 & H0 & H1 & H2 & H3 & H4 & C0 & C1 & C2 & C3 & C4 & Hsum).
  vm_compute in H0, H1, H2, H3, H4.
  injection H0 as <-; injection H1 as <-; injection H2 as <-;
    injection H3 as <-; injection H4 as <-.
  repeat (split; [assumption|]).
  apply (Hsum (1 # 10 ^ 15)%Q); [probabilities | by_computation | by_computation].
Defined.

Lemma p1_parse_build (text : string) (strategies : strategy_index)
  (dfs : DataFrame * DataFrame) :
  P1.strategies_of (readlines text) = Ok strategies ->
  P1.parse_strategy_file text = Ok dfs ->
  P1.build_tables strategies = Ok dfs.
Proof.
  unfold P1.parse_strategy_file, P1.parse_lines; intros -> H; exact H.
Qed.

Lemma p1_column_exists (strategies : strategy_index) (dfs : DataFrame * DataFrame)
  (c : nat) (card : string) (card_data : card_strategy) :
  P1.build_tables strategies = Ok dfs ->
  nth_error (columns (fst dfs)) c = Some card ->
  dict_get strategies card = Some card_data ->
  exists cols, P1.compound card_data = Ok cols.
Proof.
  intros Hb Hc Hcd.
  apply p1_build_tables_inv in Hb as (cards & cols & _ & Hcols & ->).
  simpl in Hc.
  destruct (mapM_nth _ _ _ _ _ Hcols Hc) as (col & _ & Hcol).
  unfold P1.column_of, dict_item in Hcol. rewrite Hcd in Hcol.
  exists col; exact Hcol.
Qed.

(** C6: in the checked-to table of player 1 the cells of a card are the
    bet probability at "CHECK" times the call-raise probability at
    "CHECK, BET, RAISE", the bet probability times the fold probability
    there, and the check probability at "CHECK" itself, each the stored
    value when the record is stored; when the three factors are
    probabilities and the answer to the raise sums to 1 within [delta], the
    two BET cells sum to the bet probability within
    [delta + 2 * mul_error]. *)
Theorem p1_checked_to_cells (text : string) (strategies : strategy_index)
  (checked_to bet_into : DataFrame) (c : nat) (card : string)
  (card_data : card_strategy) :
  P1.strategies_of (readlines text) = Ok strategies ->
  P1.parse_strategy_file text = Ok (checked_to, bet_into) ->
  nth_error (columns checked_to) c = Some card ->
  dict_get strategies card = Some card_data ->
  exists bet check callraise fold,
    item (P1.checked_to_probs card_data) 0 = Ok bet
    /\ item (P1.checked_to_probs card_data) 1 = Ok check
    /\ P1.raise_response (P1.raise_response_probs card_data) = Ok (callraise, fold)
    /\ (forall v, dict_get card_data "CHECK|BET,CHECK" = Some v ->
          item v 0 = Ok bet /\ item v 1 = Ok check)
    /\ (forall v, dict_get card_data "CHECK, BET, RAISE|CALLRAISE,FOLD" = Some v ->
          v <> [] -> item v 0 = Ok callraise /\ item v 1 = Ok fold)
    /\ cell checked_to 0 c = Some (mul bet callraise)
    /\ cell checked_to 1 c = Some (mul bet fold)
    /\ cell checked_to 2 c = Some check
    /\ forall delta : Q,
        probability bet -> probability callraise -> probability fold ->
        (Qabs (SF2Q callraise + SF2Q fold - 1) <= delta)%Q ->
        (Qabs (SF2Q (mul bet callraise) + SF2Q (mul bet fold) - SF2Q bet)
         <= delta + 2 * mul_error)%Q.
Proof.
  intros Hidx Hparse Hcard Hcd.
  pose proof (p1_parse_build _ _ _ Hidx Hparse) as Hbuild.
  destruct (p1_column_exists _ _ _ _ _ Hbuild Hcard Hcd) as (cols & Hcols).
  assert (forall r x, nth_error (fst cols) r = Some x ->
                      cell checked_to r c = Some x) as Hcell.
  { intros r x Hx.
    apply (proj1 (p1_cell _ _ _ r c x Hbuild)).
    exists card, card_data, cols; auto. }
  apply p1_compound_inv in Hcols
    as (bet & check & callraise & fold & callbet & fold' & raise
        & Hb & Hc & Hr & _ & _ & _ & ->).
  exists bet, check, callraise, fold.
  split; [exact Hb|]. split; [exact Hc|]. split; [exact Hr|].
  split.
  { intros v Hv. unfold P1.checked_to_probs, dict_get_default in Hb, Hc.
    rewrite Hv in Hb, Hc. auto. }
  split.
  { intros v Hv Hne. unfold P1.raise_response_probs, dict_get_default in Hr.
    rewrite Hv in Hr. destruct v as [|v0 v]; [congruence|].
    unfold P1.raise_response in Hr.
    bind_inv Hr. bind_inv Hr. injection Hr as <- <-. auto. }
  repeat (split; [apply Hcell; reflexivity|]).
  intros delta Pb Pc Pf Hd.
  destruct (mul_probability bet callraise) as (_ & _ & E1); auto.
  destruct (mul_probability bet fold) as (_ & _ & E2); auto.
  apply (sum2_bound (SF2Q bet) (SF2Q callraise) (SF2Q fold));
    try assumption; apply Pb.
Qed.

Lemma p1_checked_to_cells_witness :
  exists checked_to bet_into,
    P1.parse_strategy_file Scenario.dump_p1_K = Ok (checked_to, bet_into)
    /\ cell checked_to 0 0 = Some (mul (dec "0.4") (dec "0.25"))
    /\ cell checked_to 1 0 = Some (mul (dec "0.4") (dec "0.75"))
    /\ cell checked_to 2 0 = Some (dec "0.6")
    /\ (Qabs (SF2Q (mul (dec "0.4") (dec "0.25")) + SF2Q (mul (dec "0.4") (dec "0.75"))
              - SF2Q (dec "0.4"))
        <= 0 + 2 * mul_error)%Q.
Proof.
  do 2 eexists. split; [by_computation|].
  eassert (H : _);
    [eapply (p1_checked_to_cells Scenario.dump_p1_K) with (c := 0) (card := "K");
     by_computation|].
  destruct H as (bet & check & callraise & fold & Hb & Hc & Hr & _ & _
                 & C0 & C1 & C2 & Hsum).
  vm_compute in Hb, Hc, Hr.
  injection Hb as <-; injection Hc as <-; injection Hr as <- <-.
  repeat (split; [assumption|]).
  apply (Hsum 0%Q); try by_computation; repeat split; by_computation.
Defined.

End Sums.

(** ** Signs of the cells *)

Module Signs.

Import PyStr PyFloat Numbers Scripts Rounding TableFacts LoopFacts.
Import Sums.

Section AllProbabilities.

Variable P : float -> Prop.

Lemma all_probabilities_get (strategies : strategy_index) (card key : string)
  (card_data : card_strategy) (v : list float) :
  all_probabilities P strategies ->
  dict_get strategies card = Some card_data ->
  dict_get card_data key = Some v ->
  Forall P v.
Proof.
  intros Hall Hcd Hv.
  apply dict_get_In in Hcd, Hv.
  unfold all_probabilities in Hall.
  rewrite Forall_forall in Hall. specialize (Hall _ Hcd); simpl in Hall.
  rewrite Forall_forall in Hall. exact (Hall _ Hv).
Qed.

Lemma all_probabilities_put (strategies : strategy_index) (card key : string)
  (probs : list float) :
  all_probabilities P strategies -> Forall P probs ->
  all_probabilities P (put card key probs strategies).
Proof.
  intros Hall Hp. unfold all_probabilities, put.
  apply Forall_forall; intros [card' cd'] Hin; simpl.
  apply dict_set_In in Hin as [[-> ->]|Hin].
  - apply Forall_forall; intros [key' v'] Hin'; simpl.
    apply dict_set_In in Hin' as [[-> ->]|Hin']; [exact Hp|].
    unfold dict_get_default in Hin'.
    destruct (dict_get strategies card) as [cd|] eqn:E; [|destruct Hin'].
    apply dict_get_In in E.
    unfold all_probabilities in Hall. rewrite Forall_forall in Hall.
    specialize (Hall _ E); simpl in Hall.
    rewrite Forall_forall in Hall. exact (Hall _ Hin').
  - unfold all_probabilities in Hall. rewrite Forall_forall in Hall.
    exact (Hall _ Hin).
Qed.

Lemma all_probabilities_fold (recs : list (option (string * string * list float)))
  (strategies : strategy_index) :
  all_probabilities P strategies ->
  Forall (record_satisfies P) recs ->
  all_probabilities P (fold_left apply_record recs strategies).
Proof.
  revert strategies; induction recs as [|r recs IH]; intros strategies Hall Hrecs;
    simpl; auto.
  apply Forall_cons_iff in Hrecs as [Hr Hrecs].
  apply IH; auto.
  destruct r as [[[card key] probs]|]; simpl; auto.
  apply all_probabilities_put; auto.
Qed.

Lemma tokens_in_index (s : script) (lines : list string)
  (strategies : strategy_index) :
  strategies_of s lines = Ok strategies ->
  tokens_satisfy P s lines ->
  all_probabilities P strategies.
Proof.
  rewrite strategies_of_records; intros H Htok.
  bind_inv H. injection H as <-.
  apply all_probabilities_fold; [constructor|].
  apply mapM_ok in Hx. unfold tokens_satisfy in Htok.
  induction Hx as [|line r lines' recs Hr _ IH]; constructor.
  - apply Forall_cons_iff in Htok as [Hl _]; auto.
  - apply Forall_cons_iff in Htok as [_ Ht]; auto.
Qed.

End AllProbabilities.

Lemma finite_nonneg_zero : finite_nonneg zero.
Proof. split; reflexivity. Qed.

Lemma finite_nonneg_one : finite_nonneg one.
Proof. split; reflexivity. Qed.

Lemma finite_nonneg_ge0 (x : float) : finite_nonneg x -> ge0 x = true.
Proof. intros [_ H]; exact H. Qed.

Lemma item_In {A : Type} (l : list A) (i : nat) (x : A) :
  item l i = Ok x -> In x l.
Proof.
  unfold item; destruct (nth_error l i) eqn:E; intro H; [|discriminate].
  injection H as <-. eapply nth_error_In; eassumption.
Qed.

(** An item of a lookup is finite and not below 0 when the stored vectors
    and the default are. *)
Lemma lookup_item_nonneg (strategies : strategy_index) (card key : string)
  (card_data : card_strategy) (default : list float) (i : nat) (x : float) :
  all_probabilities finite_nonneg strategies ->
  dict_get strategies card = Some card_data ->
  Forall finite_nonneg default ->
  item (dict_get_default card_data key default) i = Ok x ->
  finite_nonneg x.
Proof.
  intros Hall Hcd Hdef Hx. apply item_In in Hx.
  unfold dict_get_default in Hx.
  destruct (dict_get card_data key) as [v|] eqn:E.
  - pose proof (all_probabilities_get _ _ _ _ _ _ Hall Hcd E) as Hv.
    rewrite Forall_forall in Hv; auto.
  - rewrite Forall_forall in Hdef; auto.
Qed.

Ltac nonneg_defaults :=
  repeat constructor; first [apply finite_nonneg_zero | apply finite_nonneg_one].

Lemma p0_column_nonneg (strategies : strategy_index) (card : string)
  (card_data : card_strategy) (col : list float) :
  all_probabilities finite_nonneg strategies ->
  dict_get strategies card = Some card_data ->
  P0.compound card_data = Ok col ->
  Forall (fun x => ge0 x = true) col.
Proof.
  intros Hall Hcd Hcol.
  apply p0_compound_inv in Hcol
    as (cp & bp & a1 & a0 & a2 & b1 & b0 & Hcp & Hbp & H1 & H0 & H2 & H4 & H3 & ->).
  unfold P0.check_prob in Hcp. unfold P0.bet_prob in Hbp.
  unfold P0.check_actions in H0, H1, H2. unfold P0.bet_actions in H3, H4.
  assert (finite_nonneg cp)
    by (eapply lookup_item_nonneg; [exact Hall|exact Hcd| |exact Hcp]; nonneg_defaults).
  assert (finite_nonneg bp)
    by (eapply lookup_item_nonneg; [exact Hall|exact Hcd| |exact Hbp]; nonneg_defaults).
  assert (finite_nonneg a0)
    by (eapply lookup_item_nonneg; [exact Hall|exact Hcd| |exact H0]; nonneg_defaults).
  assert (finite_nonneg a1)
    by (eapply lookup_item_nonneg; [exact Hall|exact Hcd| |exact H1]; nonneg_defaults).
  assert (finite_nonneg a2)
    by (eapply lookup_item_nonneg; [exact Hall|exact Hcd| |exact H2]; nonneg_defaults).
  assert (finite_nonneg b0)
    by (eapply lookup_item_nonneg; [exact Hall|exact Hcd| |exact H3]; nonneg_defaults).
  assert (finite_nonneg b1)
    by (eapply lookup_item_nonneg; [exact Hall|exact Hcd| |exact H4]; nonneg_defaults).
  repeat constructor; apply mul_finite_nonneg; assumption.
Qed.

Lemma p1_columns_nonneg (strategies : strategy_index) (card : string)
  (card_data : card_strategy) (cols : list float * list float) :
  all_probabilities finite_nonneg strategies ->
  dict_get strategies card = Some card_data ->
  P1.compound card_data = Ok cols ->
  Forall (fun x => ge0 x = true) (fst cols)
  /\ Forall (fun x => ge0 x = true) (snd cols).
Proof.
  intros Hall Hcd Hcol.
  apply p1_compound_inv in Hcol
    as (bet & check & callraise & fold & x0 & x1 & x2
        & Hb & Hc & Hr & H0 & H1 & H2 & ->).
  unfold P1.checked_to_probs in Hb, Hc. unfold P1.bet_into_probs in H0, H1, H2.
  assert (finite_nonneg bet)
    by (eapply lookup_item_nonneg; [exact Hall|exact Hcd| |exact Hb]; nonneg_defaults).
  assert (finite_nonneg check)
    by (eapply lookup_item_nonneg; [exact Hall|exact Hcd| |exact Hc]; nonneg_defaults).
  assert (finite_nonneg x0)
    by (eapply lookup_item_nonneg; [exact Hall|exact Hcd| |exact H0]; nonneg_defaults).
  assert (finite_nonneg x1)
    by (eapply lookup_item_nonneg; [exact Hall|exact Hcd| |exact H1]; nonneg_defaults).
  assert (finite_nonneg x2)
    by (eapply lookup_item_nonneg; [exact Hall|exact Hcd| |exact H2]; nonneg_defaults).
  assert (finite_nonneg callraise /\ finite_nonneg fold) as [? ?].
  { unfold P1.raise_response in Hr.
    destruct (P1.raise_response_probs card_data) as [|v0 v] eqn:E.
    - injection Hr as <- <-. split; [apply finite_nonneg_zero | apply finite_nonneg_one].
    - rewrite <- E in Hr. unfold P1.raise_response_probs in Hr.
      bind_inv Hr. bind_inv Hr. injection Hr as <- <-.
      split; (eapply lookup_item_nonneg; [exact Hall|exact Hcd| |eassumption];
              nonneg_defaults). }
  simpl; split; repeat constructor;
    auto using mul_finite_nonneg, finite_nonneg_ge0.
Qed.

Ltac tokens_by_computation :=
  unfold tokens_satisfy;
  match goal with
  | |- Forall _ ?l => let pl := fresh "pl" in
      set (pl := l); vm_compute in pl; subst pl
  end;
  repeat constructor;
  let r := fresh "r" in
  let Hr := fresh "Hr" in
  intros r Hr; vm_compute in Hr; injection Hr as <-;
  repeat constructor; reflexivity.

(** Against C10: the tokens 0.5 and inf are not below 0, the run succeeds,
    and the CHECK rows hold inf * 0, which is nan and not at least 0. *)
Lemma infinite_token_gives_nan :
  exists df,
    tokens_satisfy (fun x => ge0 x = true) p0 (readlines Scenario.infinite_check)
    /\ run p0 Scenario.infinite_check = Ok [df]
    /\ cell df 0 0 = Some nan
    /\ ge0 nan = false.
Proof.
  eexists. split; [tokens_by_computation|].
  split; [by_computation|]. split; reflexivity.
Qed.

(** C10, amended: when every probability token of the lines the script
    stores is a finite float that is not below 0 and the run returns its
    tables, every cell of every table is not below 0. *)
Theorem finite_nonneg_tokens_give_nonneg_cells (s : script) (text : string)
  (dfs : list DataFrame) :
  tokens_satisfy finite_nonneg s (readlines text) ->
  run s text = Ok dfs ->
  forall (df : DataFrame) (r c : nat) (x : float),
    In df dfs -> cell df r c = Some x -> ge0 x = true.
Proof.
  intros Htok Hrun df r c x Hdf Hx.
  unfold run in Hrun. rewrite run_lines_tables in Hrun.
  apply bind_ok in Hrun as (strategies & Hidx & Hrun).
  pose proof (tokens_in_index _ _ _ _ Hidx Htok) as Hall.
  destruct s.
  - apply bind_ok in Hrun as (df0 & Hb & Hrun). injection Hrun as <-.
    destruct Hdf as [<-|[]].
    apply (p0_cell _ _ r c x Hb) in Hx as (card & cd & col & _ & Hcd & Hcol & Hx).
    pose proof (p0_column_nonneg _ _ _ _ Hall Hcd Hcol) as Hcolumn.
    rewrite Forall_forall in Hcolumn. apply Hcolumn.
    eapply nth_error_In; eassumption.
  - apply bind_ok in Hrun as ([t1 t2] & Hb & Hrun). injection Hrun as <-.
    destruct (p1_cell _ _ _ r c x Hb) as [H1 H2].
    destruct Hdf as [<-|[<-|[]]].
    + apply H1 in Hx as (card & cd & cols & _ & Hcd & Hcol & Hx).
      destruct (p1_columns_nonneg _ _ _ _ Hall Hcd Hcol) as [Hcolumn _].
      rewrite Forall_forall in Hcolumn. apply Hcolumn.
      eapply nth_error_In; eassumption.
    + apply H2 in Hx as (card & cd & cols & _ & Hcd & Hcol & Hx).
      destruct (p1_columns_nonneg _ _ _ _ Hall Hcd Hcol) as [_ Hcolumn].
      rewrite Forall_forall in Hcolumn. apply Hcolumn.
      eapply nth_error_In; eassumption.
Qed.

Lemma finite_nonneg_tokens_give_nonneg_cells_witness :
  exists checked_to bet_into,
    run p1 Scenario.dump_p1_K = Ok [checked_to; bet_into]
    /\ cell bet_into 1 0 = Some (dec "0.3")
    /\ ge0 (dec "0.3") = true.
Proof.
  do 2 eexists. split; [by_computation|]. split; [by_computation|].
  eapply (finite_nonneg_tokens_give_nonneg_cells p1 Scenario.dump_p1_K _)
    with (r := 1) (c := 0).
  - tokens_by_computation.
  - by_computation.
  - right; left; reflexivity.
  - by_computation.
Defined.

End Signs.

(** ** Rows and columns of the tables *)

Module Columns.

Import PyStr PyFloat Scripts LoopFacts TableFacts.


Lemma insert_by_key_perm (x : nat * string) (l : list (nat * string)) :
  Permutation (insert_by_key x l) (x :: l).
Proof.
  induction l as [|y l IH]; simpl; auto.
  destruct (Nat.leb (fst x) (fst y)); auto.
  rewrite IH. apply perm_swap.
Qed.

Lemma sort_by_key_perm (l : list (nat * string)) : Permutation (sort_by_key l) l.
Proof.
  induction l as [|x l IH]; simpl; auto.
  rewrite insert_by_key_perm. auto.
Qed.

Lemma insert_by_key_sorted (x : nat * string) (l : list (nat * string)) :
  StronglySorted key_le l -> StronglySorted key_le (insert_by_key x l).
Proof.
  induction l as [|y l IH]; simpl; intro H.
  - repeat constructor.
  - apply StronglySorted_inv in H as [Hl Hy].
    destruct (Nat.leb_spec (fst x) (fst y)) as [Hxy|Hxy].
    + constructor; [constructor; auto|].
      constructor; [exact Hxy|].
      eapply Forall_impl; [|exact Hy].
      intros z Hz; unfold key_le in *; lia.
    + constructor; [auto|].
      eapply Permutation_Forall; [symmetry; apply insert_by_key_perm|].
      constructor; [unfold key_le; lia | exact Hy].
Qed.

Lemma sort_by_key_sorted (l : list (nat * string)) :
  StronglySorted key_le (sort_by_key l).
Proof.
  induction l as [|x l IH]; simpl; [constructor|].
  apply insert_by_key_sorted, IH.
Qed.

Lemma sorted_ranks (l : list (nat * string)) :
  StronglySorted key_le l -> StronglySorted le (map fst l).
Proof.
  induction 1 as [|x l Hl IH Hx]; simpl; constructor; auto.
  apply Forall_map. exact Hx.
Qed.

Lemma with_rank_keys (keys : list string) (keyed : list (nat * string)) :
  mapM with_rank keys = Ok keyed ->
  map snd keyed = keys
  /\ Forall (fun kx => index card_order (snd kx) = Ok (fst kx)) keyed.
Proof.
  intro H; apply mapM_ok in H.
  induction H as [|x kx keys' keyed' Hx _ [IH1 IH2]]; simpl; [split; constructor|].
  unfold with_rank in Hx. bind_inv Hx. injection Hx as <-.
  split; [simpl; congruence|]. constructor; auto.
Qed.

(** The columns are the cards of the index, each once, in the order of
    their positions in [card_order]. *)
Lemma sorted_cards_spec (strategies : strategy_index) (cards : list string) :
  sorted_cards strategies = Ok cards ->
  Permutation cards (dict_keys strategies)
  /\ exists ranks,
      Forall2 (fun card r => index card_order card = Ok r) cards ranks
      /\ StronglySorted le ranks.
Proof.
  unfold sorted_cards; intro H. bind_inv H. injection H as <-.
  apply with_rank_keys in Hx as [Hkeys Hranks].
  split.
  - rewrite <- Hkeys. apply Permutation_map, sort_by_key_perm.
  - exists (map fst (sort_by_key x)). split.
    + apply (Permutation_Forall (Permutation_sym (sort_by_key_perm x))) in Hranks.
      induction Hranks as [|kx l Hkx _ IH]; simpl; constructor; auto.
    + apply sorted_ranks, sort_by_key_sorted.
Qed.

Lemma put_keys_NoDup (card key : string) (probs : list float)
  (strategies : strategy_index) :
  NoDup (dict_keys strategies) -> NoDup (dict_keys (put card key probs strategies)).
Proof. apply dict_keys_set_NoDup. Qed.

Lemma fold_keys_NoDup (recs : list (option (string * string * list float)))
  (strategies : strategy_index) :
  NoDup (dict_keys strategies) ->
  NoDup (dict_keys (fold_left apply_record recs strategies)).
Proof.
  revert strategies; induction recs as [|r recs IH]; intros strategies H; simpl; auto.
  apply IH. destruct r as [[[card key] probs]|]; simpl; auto using put_keys_NoDup.
Qed.

Lemma strategies_keys_NoDup (s : script) (lines : list string)
  (strategies : strategy_index) :
  strategies_of s lines = Ok strategies -> NoDup (dict_keys strategies).
Proof.
  rewrite strategies_of_records; intro H. bind_inv H. injection H as <-.
  apply fold_keys_NoDup; constructor.
Qed.



End Columns.

(** ** No KeyError *)

Module Exceptions.

Import PyStr PyFloat Scripts LoopFacts TableFacts Columns.

Lemma bind_no_KeyError {A B : Type} (r : result A) (k : A -> result B) :
  r <> Err KeyError ->
  (forall a, r = Ok a -> k a <> Err KeyError) ->
  bind r k <> Err KeyError.
Proof.
  destruct r as [a|e]; simpl; intros Hr Hk; [apply Hk; reflexivity|].
  congruence.
Qed.

Lemma item_no_KeyError {A : Type} (l : list A) (i : nat) :
  item l i <> Err KeyError.
Proof. unfold item; destruct (nth_error l i); discriminate. Qed.

Lemma mapM_no_KeyError {A B : Type} (f : A -> result B) (l : list A) :
  Forall (fun a => f a <> Err KeyError) l -> mapM f l <> Err KeyError.
Proof.
  induction 1 as [|a l Ha _ IH]; simpl; [discriminate|].
  apply bind_no_KeyError; [exact Ha|]. intros b _.
  apply bind_no_KeyError; [exact IH|]. discriminate.
Qed.

Ltac no_KeyError :=
  repeat first
    [ apply item_no_KeyError
    | discriminate
    | apply bind_no_KeyError; [|intros ? _] ].

Lemma float_of_string_no_KeyError (t : string) :
  float_of_string t <> Err KeyError.
Proof.
  unfold float_of_string.
  destruct (sign_of (strip t)) as [neg r].
  destruct (String.eqb (lower r) "inf" || String.eqb (lower r) "infinity");
    [discriminate|].
  destruct (String.eqb (lower r) "nan"); [discriminate|].
  destruct (number r) as [[[m k] rest]|]; [|discriminate].
  destruct (exponent rest); discriminate.
Qed.

Lemma parse_line_no_KeyError (line : string) : parse_line line <> Err KeyError.
Proof.
  unfold parse_line.
  apply bind_no_KeyError.
  - unfold unpack2. destruct (split line (String tab "")) as [|a [|b [|c l]]];
      discriminate.
  - intros [info probs] _.
    apply bind_no_KeyError.
    + apply mapM_no_KeyError, Forall_forall.
      intros t _; apply float_of_string_no_KeyError.
    + intros ps _. apply bind_no_KeyError.
      * unfold parse_info. no_KeyError.
      * intros [[card history] actions] _. discriminate.
Qed.

Lemma make_key_no_KeyError (s : script) (history : string) (actions : list string) :
  make_key s history actions <> Err KeyError.
Proof.
  destruct s; simpl; [|discriminate].
  unfold P0.make_key. destruct (Nat.eqb (List.length actions) 2); no_KeyError.
Qed.

Lemma line_record_no_KeyError (s : script) (line : string) :
  line_record s line <> Err KeyError.
Proof.
  unfold line_record.
  destruct (negb (startswith line (tag s))); [discriminate|].
  apply bind_no_KeyError; [apply parse_line_no_KeyError|].
  intros [[[card history] actions] probs] _.
  apply bind_no_KeyError; [apply make_key_no_KeyError | discriminate].
Qed.

Lemma sorted_cards_no_KeyError (strategies : strategy_index) :
  sorted_cards strategies <> Err KeyError.
Proof.
  unfold sorted_cards. apply bind_no_KeyError; [|discriminate].
  apply mapM_no_KeyError, Forall_forall. intros x _.
  unfold with_rank, index. destruct (String.index 0 x card_order); discriminate.
Qed.

Lemma dict_item_of_key {V : Type} (d : dict V) (k : string) :
  In k (dict_keys d) -> exists v, dict_item d k = Ok v.
Proof.
  intro H; apply dict_get_keys in H. unfold dict_item.
  destruct (dict_get d k) as [v|]; [eauto | congruence].
Qed.

(** The subscript [strategies[card]] of the third loop finds its card: a
    run never ends with a KeyError. *)
Lemma run_no_KeyError (s : script) (text : string) : run s text <> Err KeyError.
Proof.
  unfold run. rewrite run_lines_tables.
  apply bind_no_KeyError.
  - rewrite strategies_of_records. apply bind_no_KeyError; [|discriminate].
    apply mapM_no_KeyError, Forall_forall.
    intros line _; apply line_record_no_KeyError.
  - intros strategies _. destruct s.
    + apply bind_no_KeyError; [|discriminate].
      unfold P0.build_table.
      apply bind_no_KeyError; [apply sorted_cards_no_KeyError|].
      intros cards Hcards. apply bind_no_KeyError; [|discriminate].
      apply mapM_no_KeyError, Forall_forall. intros card Hcard.
      destruct (sorted_cards_spec _ _ Hcards) as [Hperm _].
      destruct (dict_item_of_key strategies card) as [cd Hcd].
      { eapply Permutation_in; eassumption. }
      unfold P0.column_of. rewrite Hcd; simpl.
      unfold P0.compound, P0.check_prob, P0.bet_prob. no_KeyError.
    + apply bind_no_KeyError; [|intros [a b] _; discriminate].
      unfold P1.build_tables.
      apply bind_no_KeyError; [apply sorted_cards_no_KeyError|].
      intros cards Hcards. apply bind_no_KeyError; [|discriminate].
      apply mapM_no_KeyError, Forall_forall. intros card Hcard.
      destruct (sorted_cards_spec _ _ Hcards) as [Hperm _].
      destruct (dict_item_of_key strategies card) as [cd Hcd].
      { eapply Permutation_in; eassumption. }
      unfold P1.column_of. rewrite Hcd; simpl.
      unfold P1.compound.
      apply bind_no_KeyError; [apply item_no_KeyError|]. intros bet _.
      apply bind_no_KeyError; [apply item_no_KeyError|]. intros check _.
      apply bind_no_KeyError.
      * unfold P1.raise_response.
        destruct (P1.raise_response_probs cd); no_KeyError.
      * intros [c f] _. no_KeyError.
Qed.

End Exceptions.

(** ** The last write wins *)

Module LastWrite.

Import PyStr PyFloat Scripts LoopFacts TableFacts Columns.


Lemma dict_get_default_set_same {V : Type} (d : dict V) (k : string) (v default : V) :
  dict_get_default (dict_set d k v) k default = v.
Proof. unfold dict_get_default; rewrite dict_get_set_same; reflexivity. Qed.

Lemma dict_get_default_set_other {V : Type} (d : dict V) (k k' : string)
  (v default : V) :
  k <> k' ->
  dict_get_default (dict_set d k v) k' default = dict_get_default d k' default.
Proof.
  intro H; unfold dict_get_default; rewrite dict_get_set_other by exact H.
  reflexivity.
Qed.

Section Put.

Implicit Types (strategies : strategy_index) (card key : string)
  (probs : list float).

Lemma lookup_put_same strategies card key probs :
  lookup (put card key probs strategies) card key = Some probs.
Proof. unfold lookup, put; rewrite !dict_get_set_same; reflexivity. Qed.

Lemma lookup_put_other strategies card key probs card' key' :
  card <> card' \/ key <> key' ->
  lookup (put card key probs strategies) card' key' = lookup strategies card' key'.
Proof.
  intro Hne; unfold lookup, put.
  destruct (String.eqb_spec card card') as [<-|Hc].
  - destruct Hne as [Hne|Hk]; [congruence|].
    rewrite dict_get_set_same, dict_get_set_other by exact Hk.
    unfold dict_get_default.
    destruct (dict_get strategies card); reflexivity.
  - rewrite dict_get_set_other by exact Hc. reflexivity.
Qed.

(** A second write under the same card and key replaces the first. *)
Lemma put_put_same strategies card key probs probs' :
  put card key probs (put card key probs' strategies) = put card key probs strategies.
Proof.
  unfold put. rewrite dict_get_default_set_same, !dict_set_set. reflexivity.
Qed.

Lemma put_same strategies card key probs :
  lookup strategies card key = Some probs ->
  put card key probs strategies = strategies.
Proof.
  unfold lookup, put, dict_get_default.
  destruct (dict_get strategies card) as [cd|] eqn:E; [|discriminate].
  intro H. rewrite (dict_set_same cd key probs H).
  apply dict_set_same; exact E.
Qed.

(** A write under a card and key already stored commutes with a write
    elsewhere. *)
Lemma put_put_comm strategies card key probs card' key' probs' :
  card <> card' \/ key <> key' ->
  lookup strategies card key <> None ->
  put card' key' probs' (put card key probs strategies)
    = put card key probs (put card' key' probs' strategies).
Proof.
  intros Hne Hpresent. unfold lookup in Hpresent.
  destruct (dict_get strategies card) as [cd|] eqn:E; [|congruence].
  assert (dict_mem strategies card = true) as Hmem
      by (unfold dict_mem; rewrite E; reflexivity).
  assert (dict_mem cd key = true) as Hmem'.
  { unfold dict_mem; destruct (dict_get cd key); congruence. }
  unfold put.
  destruct (String.eqb_spec card card') as [<-|Hc].
  - destruct Hne as [Hne|Hk]; [congruence|].
    rewrite !dict_get_default_set_same, !dict_set_set.
    unfold dict_get_default; rewrite E.
    rewrite (dict_set_comm cd key key' probs probs' Hk Hmem'). reflexivity.
  - rewrite !dict_get_default_set_other by congruence.
    apply dict_set_comm; assumption.
Qed.

Lemma apply_record_overwritten strategies card key probs
  (r : option (string * string * list float)) :
  lookup strategies card key <> None ->
  exists probs',
    apply_record (put card key probs strategies) r
      = put card key probs' (apply_record strategies r)
    /\ lookup (apply_record strategies r) card key <> None.
Proof.
  intro Hpresent.
  destruct r as [[[card' key'] probs']|]; simpl; [|eauto].
  destruct (String.eqb_spec card card') as [<-|Hc].
  - destruct (String.eqb_spec key key') as [<-|Hk].
    + exists probs'. rewrite !put_put_same, lookup_put_same.
      split; [reflexivity | discriminate].
    + exists probs. split; [apply put_put_comm; auto|].
      rewrite lookup_put_other by auto. exact Hpresent.
  - exists probs. split; [apply put_put_comm; auto|].
    rewrite lookup_put_other by auto. exact Hpresent.
Qed.

Lemma fold_overwritten (recs : list (option (string * string * list float)))
  strategies card key probs :
  lookup strategies card key <> None ->
  exists probs',
    fold_left apply_record recs (put card key probs strategies)
      = put card key probs' (fold_left apply_record recs strategies).
Proof.
  revert strategies probs; induction recs as [|r recs IH];
    intros strategies probs Hpresent; simpl; [eauto|].
  destruct (apply_record_overwritten strategies card key probs r Hpresent)
    as (probs' & -> & Hpresent').
  apply IH; exact Hpresent'.
Qed.

(** The write of the earlier of two lines with the same card and key is
    lost once the later one is stored. *)
Lemma earlier_write_lost (before mid rest : list (option (string * string * list float)))
  card key probs probs' last_probs :
  fold_left apply_record
    (before ++ Some (card, key, probs) :: mid ++ Some (card, key, last_probs) :: rest) []
  = fold_left apply_record
      (before ++ Some (card, key, probs') :: mid ++ Some (card, key, last_probs) :: rest) [].
Proof.
  rewrite !fold_left_app; simpl. rewrite !fold_left_app; simpl.
  set (base := fold_left apply_record before []).
  rewrite <- (put_put_same base card key probs' probs).
  destruct (fold_overwritten mid (put card key probs base) card key probs')
    as (q & ->).
  { rewrite lookup_put_same; discriminate. }
  rewrite put_put_same. reflexivity.
Qed.

(** What is stored is what the last write under the card and key left. *)
Lemma lookup_fold (recs : list (option (string * string * list float)))
  strategies card key :
  lookup (fold_left apply_record recs strategies) card key =
    fold_left (fun found r =>
                 match r with
                 | Some (card', key', probs) =>
                     if String.eqb card card' && String.eqb key key'
                     then Some probs else found
                 | None => found
                 end) recs (lookup strategies card key).
Proof.
  revert strategies; induction recs as [|r recs IH]; intro strategies; simpl; auto.
  rewrite IH. f_equal.
  destruct r as [[[card' key'] probs]|]; simpl; auto.
  destruct (String.eqb_spec card card') as [<-|Hc];
    destruct (String.eqb_spec key key') as [<-|Hk]; simpl.
  - apply lookup_put_same.
  - apply lookup_put_other; auto.
  - apply lookup_put_other; auto.
  - apply lookup_put_other; auto.
Qed.

End Put.

Lemma inner_keys_put (card key : string) (probs : list float)
  (strategies : strategy_index) :
  inner_keys_NoDup strategies -> inner_keys_NoDup (put card key probs strategies).
Proof.
  unfold inner_keys_NoDup, put; intro H.
  apply Forall_forall; intros [card' cd'] Hin; simpl.
  apply dict_set_In in Hin as [[-> ->]|Hin].
  - apply dict_keys_set_NoDup. unfold dict_get_default.
    destruct (dict_get strategies card) as [cd|] eqn:E; [|constructor].
    apply dict_get_In in E. rewrite Forall_forall in H. exact (H _ E).
  - rewrite Forall_forall in H. exact (H _ Hin).
Qed.

Lemma inner_keys_fold (recs : list (option (string * string * list float)))
  (strategies : strategy_index) :
  inner_keys_NoDup strategies ->
  inner_keys_NoDup (fold_left apply_record recs strategies).
Proof.
  revert strategies; induction recs as [|r recs IH]; intros strategies H; simpl; auto.
  apply IH. destruct r as [[[card key] probs]|]; simpl; auto using inner_keys_put.
Qed.

Lemma line_record_tagged (s : script) (line : string)
  (r : string * string * list float) :
  line_record s line = Ok (Some r) -> startswith line (tag s) = true.
Proof.
  unfold line_record.
  destruct (startswith line (tag s)); [reflexivity | discriminate].
Qed.

Lemma in_player_after_app (h : string) (st : bool) (l1 l2 : list string) :
  in_player_after h st (l1 ++ l2)%list
    = in_player_after h (in_player_after h st l1) l2.
Proof. apply fold_left_app. Qed.

(** The lines of the player in a dump with a tagged line, then another one
    inside a section. *)
Lemma player_lines_two (s : script) (before mid rest : list string)
  (earlier later : string) :
  startswith (strip earlier) (tag s) = true ->
  startswith (strip later) (tag s) = true ->
  in_player_after (header s) false (before ++ earlier :: mid)%list = true ->
  player_lines (header s) false (before ++ earlier :: mid ++ later :: rest)%list
    = (player_lines (header s) false before
         ++ (if in_player_after (header s) false before then [strip earlier] else [])
         ++ player_lines (header s) (in_player_after (header s) false before) mid
         ++ strip later :: player_lines (header s) true rest)%list.
Proof.
  intros He Hl Hin.
  rewrite in_player_after_app in Hin.
  destruct (player_lines_tagged s (in_player_after (header s) false before)
              earlier mid He) as [_ Hst].
  rewrite Hst in Hin.
  rewrite player_lines_app.
  destruct (player_lines_tagged s (in_player_after (header s) false before)
              earlier (mid ++ later :: rest)%list He) as [-> _].
  rewrite player_lines_app, Hin.
  destruct (player_lines_tagged s true later rest Hl) as [-> _].
  reflexivity.
Qed.

Lemma mapM_two {A B : Type} (f : A -> result B) (l1 l2 l3 : list A) (x y : A) :
  mapM f (l1 ++ x :: l2 ++ y :: l3)%list =
    (r1 <- mapM f l1 ;;
     rx <- f x ;;
     r2 <- mapM f l2 ;;
     ry <- f y ;;
     r3 <- mapM f l3 ;;
     Ok (r1 ++ rx :: r2 ++ ry :: r3)%list).
Proof.
  rewrite mapM_app; simpl. rewrite mapM_app; simpl.
  destruct (mapM f l1); simpl; auto.
  destruct (f x); simpl; auto.
  destruct (mapM f l2); simpl; auto.
  destruct (f y); simpl; auto.
  destruct (mapM f l3); simpl; auto.
Qed.

Lemma write_of_records (s : script) (card key : string) (lines : list string)
  (recs : list (option (string * string * list float)))
  (found : option (list float)) :
  mapM (line_record s) lines = Ok recs ->
  fold_left (write_of s card key) lines found =
    fold_left (fun found r =>
                 match r with
                 | Some (card', key', probs) =>
                     if String.eqb card card' && String.eqb key key'
                     then Some probs else found
                 | None => found
                 end) recs found.
Proof.
  intro H; apply mapM_ok in H. revert found.
  induction H as [|line r lines' recs' Hr _ IH]; intro found; simpl; auto.
  rewrite IH. f_equal. unfold write_of. rewrite Hr.
  destruct r as [[[card' key'] probs]|]; reflexivity.
Qed.

Lemma write_of_init (s : script) (card key : string) (lines : list string)
  (found : option (list float)) :
  fold_left (write_of s card key) lines found =
    match fold_left (write_of s card key) lines None with
    | Some probs => Some probs
    | None => found
    end.
Proof.
  revert found; induction lines as [|line lines IH]; intro found; simpl; auto.
  rewrite (IH (write_of s card key found line)).
  rewrite (IH (write_of s card key None line)).
  destruct (fold_left (write_of s card key) lines None); auto.
  unfold write_of.
  destruct (line_record s line) as [[[[card' key'] probs]|]|]; auto.
  destruct (String.eqb card card' && String.eqb key key'); auto.
Qed.

(** The index holds one vector for each card and key, the one of the last
    line of the player's sections that writes it.  When two lines of a
    dump write the same card and key and the later one is inside a
    section, replacing the vector of the earlier one changes neither the
    index nor the tables, and the vector stored is the one of the later
    line unless a line after it writes the key again. *)
Lemma replaced_write_is_lost (s : script) (text text' : string)
  (before mid rest : list string) (earlier earlier' later : string)
  (card key : string) (probs probs' last_probs : list float) :
  readlines text = (before ++ earlier :: mid ++ later :: rest)%list ->
  readlines text' = (before ++ earlier' :: mid ++ later :: rest)%list ->
  line_record s (strip earlier) = Ok (Some (card, key, probs)) ->
  line_record s (strip earlier') = Ok (Some (card, key, probs')) ->
  line_record s (strip later) = Ok (Some (card, key, last_probs)) ->
  in_player_after (header s) false (before ++ earlier :: mid)%list = true ->
  strategies_of s (readlines text') = strategies_of s (readlines text)
  /\ run s text' = run s text
  /\ forall strategies,
      strategies_of s (readlines text) = Ok strategies ->
      NoDup (dict_keys strategies)
      /\ inner_keys_NoDup strategies
      /\ (forall c k,
            lookup strategies c k
              = last_write s c k (player_lines (header s) false (readlines text)))
      /\ (last_write s card key (player_lines (header s) true rest) = None ->
          lookup strategies card key = Some last_probs).
Proof.
  intros Htext Htext' He He' Hl Hin.
  pose proof (line_record_tagged _ _ _ He) as Te.
  pose proof (line_record_tagged _ _ _ He') as Te'.
  pose proof (line_record_tagged _ _ _ Hl) as Tl.
  assert (in_player_after (header s) false (before ++ earlier' :: mid)%list = true)
    as Hin'.
  { rewrite in_player_after_app in Hin |- *.
    destruct (player_lines_tagged s (in_player_after (header s) false before)
                earlier mid Te) as [_ E].
    destruct (player_lines_tagged s (in_player_after (header s) false before)
                earlier' mid Te') as [_ E'].
    congruence. }
  pose proof (player_lines_two s before mid rest earlier later Te Tl Hin) as PL.
  pose proof (player_lines_two s before mid rest earlier' later Te' Tl Hin') as PL'.
  assert (strategies_of s (readlines text') = strategies_of s (readlines text)) as Heq.
  { rewrite Htext, Htext', !strategies_of_records, PL, PL'.
    destruct (in_player_after (header s) false before); [|reflexivity].
    simpl app. rewrite !mapM_two, He, He', Hl.
    destruct (mapM (line_record s) (player_lines (header s) false before));
      simpl; auto.
    destruct (mapM (line_record s) (player_lines (header s) true mid));
      simpl; auto.
    destruct (mapM (line_record s) (player_lines (header s) true rest));
      simpl; auto.
    f_equal. apply earlier_write_lost. }
  split; [exact Heq|]. split.
  { unfold run. rewrite !run_lines_tables, Heq. reflexivity. }
  intros strategies Hidx.
  split; [exact (strategies_keys_NoDup _ _ _ Hidx)|].
  pose proof Hidx as Hrecs. rewrite strategies_of_records in Hrecs.
  apply bind_ok in Hrecs as (recs & Hrecs & Hfold). injection Hfold as <-.
  split; [apply inner_keys_fold; constructor|].
  assert (forall c k,
            lookup (fold_left apply_record recs []) c k
              = last_write s c k (player_lines (header s) false (readlines text)))
    as Hlast.
  { intros c k. rewrite lookup_fold. unfold last_write.
    rewrite (write_of_records s c k _ recs None Hrecs). reflexivity. }
  split; [exact Hlast|].
  intro Hrest. rewrite Hlast, Htext, PL. unfold last_write in *.
  rewrite !fold_left_app. cbn [fold_left].
  rewrite write_of_init, Hrest.
  unfold write_of at 1. rewrite Hl, !String.eqb_refl. reflexivity.
Qed.

End LastWrite.

(** ** The end-to-end scenario *)

Module EndToEnd.

Import PyStr PyFloat Numbers Scenario Dump.

(** Against C1: on the three records as the scenario writes them the root
    record is stored under the history "," and never read, the root
    probabilities are the defaults 1 and 1, and the column of card A is
    0.6, 0.2, 0.2, 0.1, 0.9. *)
Lemma spec_scenario_column :
  exists df,
    P0.parse_strategy_file spec_scenario = Ok df
    /\ P0.strategies_of (PyStr.readlines spec_scenario)
         = Ok [("A", [(",|BET,CHECK", [dec "0.7"; dec "0.3"]);
                      ("CHECK, BET|CALLBET,FOLD,RAISE",
                       [dec "0.2"; dec "0.6"; dec "0.2"]);
                      ("BET, RAISE|CALLRAISE,FOLD", [dec "0.9"; dec "0.1"])])]
    /\ values df = [[dec "0.6"]; [dec "0.2"]; [dec "0.2"]; [dec "0.1"]; [dec "0.9"]]
    /\ ~ announced (1 # 100) df.
Proof.
  eexists. split; [by_computation|]. split; [by_computation|].
  split; [by_computation|].
  intros (_ & _ & a & b & c & d & e & Hv & [_ Ha] & _).
  vm_compute in Hv. injection Hv as <- _ _ _ _.
  vm_compute in Ha. apply Ha. reflexivity.
Qed.

(** C1, amended: on the dump whose section of player 0 holds the root
    record of card A in the format of the dump, "History:  Actions: BET,
    CHECK" with the probabilities 0.7 0.3, and the two other records of the
    scenario, the column of card A is CHECK+FOLD 0.18, CHECK+CALLBET 0.06,
    CHECK+RAISE 0.06, BET+CALLRAISE 0.63, each the float of its decimal, and
    BET+FOLD the float product of 0.7 and 0.1, the float just below that
    of 0.07; every cell is within 1e-17 of the announced value. *)
Theorem dump_scenario_column :
  exists df,
    P0.parse_strategy_file dump_scenario = Ok df
    /\ values df =
         [[dec "0.18"]; [dec "0.06"]; [dec "0.06"];
          [PyFloat.mul (dec "0.7") (dec "0.1")]; [dec "0.63"]]
    /\ PyFloat.mul (dec "0.7") (dec "0.1") = S754_finite false 5044031582654955 (-56)
    /\ dec "0.07" = S754_finite false 5044031582654956 (-56)
    /\ announced (1 # 10 ^ 17) df.
Proof.
  eexists. split; [by_computation|]. split; [by_computation|].
  split; [by_computation|]. split; [by_computation|].
  split; [by_computation|]. split; [by_computation|].
  do 5 eexists. split; [by_computation|].
  repeat split; by_computation.
Qed.

End EndToEnd.

(** ** Lines and sections *)

Module Lines.

Import PyStr PyFloat Scripts LoopFacts TableFacts Columns Outcome Samples Scenario.

Lemma player_lines_no_header (h : string) (lines : list string) :
  Forall (fun line => strip line <> h) lines ->
  player_lines h false lines = [].
Proof.
  induction 1 as [|x lines Hx _ IH]; simpl; auto.
  destruct (String.eqb_spec (strip x) h) as [E|_]; [contradiction|].
  destruct (String.eqb (strip x) "END"); exact IH.
Qed.

(** A file with no line that reads, stripped, as the header of the player
    gives the tables with all their row labels and no column. *)
Theorem no_section_gives_empty_tables (s : script) (text : string) :
  Forall (fun line => strip line <> header s) (readlines text) ->
  run s text = Ok (empty_tables s).
Proof.
  intro H. unfold run. rewrite run_lines_tables, strategies_of_records.
  rewrite (player_lines_no_header _ _ H). destruct s; reflexivity.
Qed.

Lemma no_section_gives_empty_tables_witness :
  run p1 Scenario.dump_scenario = Ok (empty_tables p1)
  /\ run p0 "" = Ok (empty_tables p0).
Proof.
  split; apply no_section_gives_empty_tables.
  - repeat constructor; by_computation.
  - constructor.
Defined.

(** *** Lines that change nothing *)

Lemma player_lines_strip (h : string) (st : bool) (lines lines' : list string) :
  map strip lines = map strip lines' ->
  player_lines h st lines = player_lines h st lines'.
Proof.
  revert st lines'; induction lines as [|x lines IH]; intros st [|y lines'] H;
    try discriminate; auto.
  simpl in H. injection H as Hxy H. simpl. rewrite Hxy.
  destruct (String.eqb (strip y) h); [auto|].
  destruct (String.eqb (strip y) "END"); [auto|].
  destruct (st && negb (String.eqb (strip y) "")); [f_equal|]; auto.
Qed.

Lemma strategies_of_lines (s : script) (lines lines' : list string) :
  player_lines (header s) false lines = player_lines (header s) false lines' ->
  strategies_of s lines = strategies_of s lines'.
Proof. intro H; rewrite !strategies_of_records, H; reflexivity. Qed.

Lemma run_lines_strategies (s : script) (lines lines' : list string) :
  strategies_of s lines = strategies_of s lines' ->
  run_lines s lines = run_lines s lines'.
Proof. intro H; rewrite !run_lines_tables, H; reflexivity. Qed.

(** Only the stripped lines count: two lists of lines that agree after
    [strip] give the same result, tables or exception. *)
Theorem surrounding_whitespace_is_irrelevant (s : script) (lines lines' : list string) :
  map strip lines = map strip lines' ->
  run_lines s lines = run_lines s lines'.
Proof.
  intro H. apply run_lines_strategies, strategies_of_lines, player_lines_strip, H.
Qed.

Lemma surrounding_whitespace_is_irrelevant_witness :
  run_lines p0 (readlines root_only) = run_lines p0 padded_lines.
Proof. apply surrounding_whitespace_is_irrelevant; by_computation. Defined.

Lemma untagged_line_record (s : script) (line : string) :
  startswith line (tag s) = false -> line_record s line = Ok None.
Proof. intro H; unfold line_record; rewrite H; reflexivity. Qed.

Lemma index_skips_None (s : script) (l1 l2 : list string) (x : string)
  (strategies : strategy_index) :
  line_record s x = Ok None ->
  process_lines (tag s) (make_key s) strategies (l1 ++ x :: l2)%list
    = process_lines (tag s) (make_key s) strategies (l1 ++ l2)%list.
Proof.
  intro Hx. rewrite !process_lines_records, !mapM_app; simpl. rewrite Hx; simpl.
  destruct (mapM (line_record s) l1) as [r1|]; simpl; auto.
  destruct (mapM (line_record s) l2) as [r2|]; simpl; auto.
  rewrite !fold_left_app. reflexivity.
Qed.

Lemma strategies_of_process (s : script) (lines : list string) :
  strategies_of s lines
    = process_lines (tag s) (make_key s) [] (player_lines (header s) false lines).
Proof. destruct s; reflexivity. Qed.

(** A line that, stripped, does not start with the tag of the player and is
    neither the header nor END changes nothing, wherever it stands: a blank
    line, a comment, a record of the other player. *)
Theorem untagged_lines_are_skipped (s : script) (before after : list string)
  (x : string) :
  startswith (strip x) (tag s) = false ->
  strip x <> header s ->
  strip x <> "END" ->
  run_lines s (before ++ x :: after) = run_lines s (before ++ after).
Proof.
  intros Htag Hh He. apply run_lines_strategies.
  rewrite !strategies_of_process, !player_lines_app. simpl.
  destruct (String.eqb_spec (strip x) (header s)) as [E|_]; [contradiction|].
  destruct (String.eqb_spec (strip x) "END") as [E|_]; [contradiction|].
  destruct (in_player_after (header s) false before && negb (String.eqb (strip x) ""));
    [|reflexivity].
  apply index_skips_None, untagged_line_record, Htag.
Qed.

Lemma untagged_lines_are_skipped_witness :
  run_lines p0 (["PLAYER: 0" ++ nl] ++ "Iterations: 100" :: [root_record "A" "0.7 0.3"])
    = run_lines p0 (["PLAYER: 0" ++ nl] ++ [root_record "A" "0.7 0.3"]).
Proof.
  apply untagged_lines_are_skipped; [reflexivity| |]; intro H; discriminate H.
Defined.

(** A line before the first header of the player or after an END changes
    nothing unless it is the header: records outside the sections of the
    player are not read. *)
Theorem lines_outside_sections_are_ignored (s : script)
  (before after : list string) (x : string) :
  in_player_after (header s) false before = false ->
  strip x <> header s ->
  run_lines s (before ++ x :: after) = run_lines s (before ++ after).
Proof.
  intros Hst Hh. apply run_lines_strategies, strategies_of_lines.
  rewrite !player_lines_app, Hst. simpl.
  destruct (String.eqb_spec (strip x) (header s)) as [E|_]; [contradiction|].
  destruct (String.eqb (strip x) "END"); reflexivity.
Qed.

Lemma lines_outside_sections_are_ignored_witness :
  run_lines p0 ([] ++ root_record "K" "0.5 0.5" :: readlines root_only)
    = run_lines p0 ([] ++ readlines root_only).
Proof.
  apply lines_outside_sections_are_ignored; [reflexivity|].
  intro H; vm_compute in H; discriminate H.
Defined.

(** The END of the last section can be left out: an END as the last line
    changes nothing. *)
Theorem unterminated_section_ends_with_the_file (s : script)
  (lines : list string) (last : string) :
  strip last = "END" ->
  run_lines s (lines ++ [last]) = run_lines s lines.
Proof.
  intro H. apply run_lines_strategies, strategies_of_lines.
  rewrite player_lines_app. simpl. rewrite H.
  destruct (String.eqb_spec "END" (header s)) as [E|_].
  - destruct s; discriminate E.
  - simpl. apply app_nil_r.
Qed.

Lemma unterminated_section_ends_with_the_file_witness :
  run_lines p0 (["PLAYER: 0" ++ nl; root_record "A" "0.7 0.3"] ++ ["END" ++ nl])
    = run_lines p0 ["PLAYER: 0" ++ nl; root_record "A" "0.7 0.3"].
Proof. apply unterminated_section_ends_with_the_file; reflexivity. Defined.

(** A section can be closed and opened again: inside a section, an END
    followed by the header changes nothing, so the records of all the
    sections of the player are read. *)
Theorem sections_of_a_player_accumulate (s : script)
  (before after : list string) (closing opening : string) :
  in_player_after (header s) false before = true ->
  strip closing = "END" ->
  strip opening = header s ->
  run_lines s (before ++ closing :: opening :: after) = run_lines s (before ++ after).
Proof.
  intros Hst Hc Ho. apply run_lines_strategies, strategies_of_lines.
  rewrite !player_lines_app, Hst. simpl. rewrite Hc, Ho, String.eqb_refl.
  destruct (String.eqb_spec "END" (header s)) as [E|_]; [destruct s; discriminate E|].
  reflexivity.
Qed.

Lemma sections_of_a_player_accumulate_witness :
  run_lines p0
    (["PLAYER: 0" ++ nl; root_record "A" "0.7 0.3"]
       ++ ("END" ++ nl) :: ("PLAYER: 0" ++ nl) :: [after_check; "END" ++ nl])
  = run_lines p0
      (["PLAYER: 0" ++ nl; root_record "A" "0.7 0.3"]
         ++ [after_check; "END" ++ nl]).
Proof. apply sections_of_a_player_accumulate; reflexivity. Defined.

End Lines.

(** ** How the third loop ends *)

Module OutcomeFacts.

Import PyStr PyFloat Scripts LoopFacts TableFacts Columns Outcome Samples Scenario Lines.

Lemma mapM_error_kind {A B : Type} (f : A -> result B) (l : list A) (e0 : exn) :
  (forall a e, In a l -> f a = Err e -> e = e0) ->
  forall e, mapM f l = Err e -> e = e0.
Proof.
  induction l as [|a l IH]; simpl; intros Hkind e H; [discriminate|].
  destruct (f a) as [b|e'] eqn:E; simpl in H.
  - destruct (mapM f l) as [bs|e''] eqn:E'; simpl in H; [discriminate|].
    injection H as <-.
    apply (IH (fun a e Hin => Hkind a e (or_intror Hin)) e''). reflexivity.
  - injection H as <-. apply (Hkind a e'); auto.
Qed.

Lemma mapM_forallb {A B : Type} (f : A -> result B) (l : list A) :
  is_ok (mapM f l) = forallb (fun a => is_ok (f a)) l.
Proof.
  induction l as [|a l IH]; simpl; auto.
  destruct (f a) as [b|e]; simpl; auto.
  rewrite <- IH. destruct (mapM f l); reflexivity.
Qed.

Lemma is_ok_true {A : Type} (r : result A) : is_ok r = true -> exists a, r = Ok a.
Proof. destruct r; [eauto | discriminate]. Qed.

Lemma is_ok_false {A : Type} (r : result A) : is_ok r = false -> exists e, r = Err e.
Proof. destruct r; [discriminate | eauto]. Qed.

Lemma forallb_eq {A : Type} (f g : A -> bool) (l : list A) :
  (forall a, f a = g a) -> forallb f l = forallb g l.
Proof. intro H; induction l as [|a l IH]; simpl; congruence. Qed.

Lemma with_rank_known (card : string) : is_ok (with_rank card) = known card.
Proof.
  unfold with_rank, index, known.
  destruct (String.index 0 card card_order); reflexivity.
Qed.

Lemma sorted_cards_known (strategies : strategy_index) :
  is_ok (sorted_cards strategies) = forallb known (dict_keys strategies).
Proof.
  unfold sorted_cards.
  rewrite <- (forallb_eq _ _ _ with_rank_known), <- mapM_forallb.
  destruct (mapM with_rank (dict_keys strategies)); reflexivity.
Qed.

Lemma sorted_cards_error (strategies : strategy_index) (e : exn) :
  sorted_cards strategies = Err e -> e = ValueError.
Proof.
  unfold sorted_cards; intro H.
  destruct (mapM with_rank (dict_keys strategies)) as [keyed|e'] eqn:E;
    [discriminate|].
  injection H as <-.
  apply (mapM_error_kind with_rank (dict_keys strategies) ValueError) in E; auto.
  intros a e _ Ha. unfold with_rank, index in Ha.
  destruct (String.index 0 a card_order); simpl in Ha; congruence.
Qed.

Lemma item_length {A : Type} (l : list A) (i : nat) :
  item l i = match nth_error l i with Some a => Ok a | None => Err IndexError end.
Proof. reflexivity. Qed.

Lemma p0_compound_outcome (card_data : card_strategy) :
  (long_enough p0 card_data = true -> exists col, P0.compound card_data = Ok col)
  /\ (long_enough p0 card_data = false -> P0.compound card_data = Err IndexError).
Proof.
  unfold long_enough, P0.compound, P0.check_prob, P0.bet_prob.
  assert (List.length (dict_get_default card_data "|BET,CHECK" [one; zero])
          = List.length (dict_get_default card_data "|BET,CHECK" [zero; one])) as E.
  { unfold dict_get_default; destruct (dict_get card_data "|BET,CHECK"); reflexivity. }
  assert (forall d, item (dict_get_default card_data "|BET,CHECK" [one; zero]) 0 = Err d ->
          item (dict_get_default card_data "|BET,CHECK" [zero; one]) 1 = Err IndexError).
  { unfold dict_get_default; destruct (dict_get card_data "|BET,CHECK") as [[|a [|b l]]|];
      intros d Hd; try discriminate; reflexivity. }
  destruct (dict_get_default card_data "|BET,CHECK" [zero; one]) as [|r0 [|r1 r]];
    destruct (dict_get_default card_data "|BET,CHECK" [one; zero]) as [|r0' [|r1' r']];
    try discriminate E;
    destruct (P0.check_actions card_data) as [|a0 [|a1 [|a2 a]]];
    destruct (P0.bet_actions card_data) as [|b0 [|b1 b]];
    simpl; split; intro Hl; try discriminate Hl; eauto.
Qed.

Lemma p1_compound_outcome (card_data : card_strategy) :
  (long_enough p1 card_data = true -> exists cols, P1.compound card_data = Ok cols)
  /\ (long_enough p1 card_data = false -> P1.compound card_data = Err IndexError).
Proof.
  unfold long_enough, P1.compound, P1.raise_response.
  destruct (P1.checked_to_probs card_data) as [|r0 [|r1 r]];
    destruct (P1.raise_response_probs card_data) as [|c0 [|c1 c]];
    destruct (P1.bet_into_probs card_data) as [|a0 [|a1 [|a2 a]]];
    simpl; split; intro Hl; try discriminate Hl; eauto.
Qed.

Lemma dict_get_of_In {V : Type} (d : dict V) (k : string) (v : V) :
  NoDup (dict_keys d) -> In (k, v) d -> dict_get d k = Some v.
Proof.
  induction d as [|[k0 v0] d IH]; simpl; intros Hnd Hin; [destruct Hin|].
  apply NoDup_cons_iff in Hnd as [Hk0 Hnd].
  destruct Hin as [Hin|Hin].
  - injection Hin as -> ->. rewrite String.eqb_refl; reflexivity.
  - destruct (String.eqb_spec k k0) as [->|_]; [|auto].
    exfalso; apply Hk0. apply (in_map fst) in Hin; exact Hin.
Qed.

Lemma column_outcome (s : script) (strategies : strategy_index) (card : string)
  (card_data : card_strategy) :
  dict_get strategies card = Some card_data ->
  column_result s strategies card
    = if long_enough s card_data then Ok tt else Err IndexError.
Proof.
  intro H. unfold column_result, P0.column_of, P1.column_of, dict_item.
  rewrite H; simpl.
  destruct (long_enough s card_data) eqn:E; destruct s.
  - destruct (proj1 (p0_compound_outcome card_data) E) as [col ->]; reflexivity.
  - destruct (proj1 (p1_compound_outcome card_data) E) as [col ->]; reflexivity.
  - rewrite (proj2 (p0_compound_outcome card_data) E); reflexivity.
  - rewrite (proj2 (p1_compound_outcome card_data) E); reflexivity.
Qed.

(** The third loop over the cards, without the columns. *)
Lemma columns_outcome (s : script) (strategies : strategy_index) (cards : list string) :
  NoDup (dict_keys strategies) ->
  Permutation cards (dict_keys strategies) ->
  (forallb (fun entry => long_enough s (snd entry)) strategies = true ->
   is_ok (mapM (column_result s strategies) cards) = true)
  /\ (forallb (fun entry => long_enough s (snd entry)) strategies = false ->
      mapM (column_result s strategies) cards = Err IndexError).
Proof.
  intros Hnd Hperm. split; intro Hl.
  - rewrite mapM_forallb. apply forallb_forall. intros card Hcard.
    apply (Permutation_in _ Hperm) in Hcard.
    destruct (dict_get strategies card) as [cd|] eqn:E;
      [|apply dict_get_keys in Hcard; contradiction].
    rewrite (column_outcome s _ _ _ E).
    rewrite forallb_forall in Hl.
    pose proof (Hl (card, cd) (dict_get_In _ _ _ E)) as Hc; simpl in Hc.
    rewrite Hc. reflexivity.
  - assert (is_ok (mapM (column_result s strategies) cards) = false) as Hno.
    { rewrite mapM_forallb. apply Bool.not_true_is_false. intro Hall.
      rewrite forallb_forall in Hall.
      assert (forallb (fun entry => long_enough s (snd entry)) strategies = true)
        as Habs; [|congruence].
      apply forallb_forall. intros [card cd] Hin. simpl.
      pose proof (dict_get_of_In _ _ _ Hnd Hin) as Hget.
      assert (In card cards) as Hcard.
      { apply (Permutation_in _ (Permutation_sym Hperm)).
        apply (in_map fst) in Hin; exact Hin. }
      specialize (Hall card Hcard). rewrite (column_outcome s _ _ _ Hget) in Hall.
      destruct (long_enough s cd); [reflexivity | discriminate]. }
    apply is_ok_false in Hno as [e He]. rewrite He. f_equal.
    eapply mapM_error_kind; [|exact He].
    intros card e' Hcard He'.
    apply (Permutation_in _ Hperm) in Hcard.
    destruct (dict_get strategies card) as [cd|] eqn:E;
      [|apply dict_get_keys in Hcard; contradiction].
    rewrite (column_outcome s _ _ _ E) in He'.
    destruct (long_enough s cd); congruence.
Qed.

Lemma mapM_forget {A B : Type} (f : A -> result B) (l : list A) :
  mapM (fun a => b <- f a ;; Ok tt) l
    = (bs <- mapM f l ;; Ok (map (fun _ => tt) bs)).
Proof.
  induction l as [|a l IH]; simpl; auto.
  destruct (f a) as [b|e]; simpl; auto.
  rewrite IH. destruct (mapM f l); reflexivity.
Qed.

Lemma tables_outcome (s : script) (strategies : strategy_index) :
  NoDup (dict_keys strategies) ->
  let tables :=
    match s with
    | p0 => df <- P0.build_table strategies ;; Ok [df]
    | p1 => '(a, b) <- P1.build_tables strategies ;; Ok [a; b]
    end in
  (forallb known (dict_keys strategies) = false -> tables = Err ValueError)
  /\ (forallb known (dict_keys strategies) = true ->
      forallb (fun entry => long_enough s (snd entry)) strategies = false ->
      tables = Err IndexError)
  /\ (forallb known (dict_keys strategies) = true ->
      forallb (fun entry => long_enough s (snd entry)) strategies = true ->
      exists dfs, tables = Ok dfs).
Proof.
  intros Hnd tables. subst tables.
  pose proof (sorted_cards_known strategies) as Hk.
  destruct (sorted_cards strategies) as [cards|e] eqn:Hcards; simpl in Hk.
  - destruct (sorted_cards_spec _ _ Hcards) as [Hperm _].
    destruct (columns_outcome s strategies cards Hnd Hperm) as [Hok Herr].
    split; [congruence|]. split.
    + intros _ Hl. specialize (Herr Hl).
      destruct s; unfold column_result in Herr; rewrite mapM_forget in Herr;
        unfold P0.build_table, P1.build_tables; rewrite Hcards; simpl.
      * destruct (mapM (P0.column_of strategies) cards); simpl in *; congruence.
      * destruct (mapM (P1.column_of strategies) cards); simpl in *; congruence.
    + intros _ Hl. specialize (Hok Hl).
      destruct s; unfold column_result in Hok; rewrite mapM_forget in Hok;
        unfold P0.build_table, P1.build_tables; rewrite Hcards; simpl.
      * destruct (mapM (P0.column_of strategies) cards); simpl in *;
          [eauto | discriminate].
      * destruct (mapM (P1.column_of strategies) cards); simpl in *;
          [eauto | discriminate].
  - pose proof (sorted_cards_error _ _ Hcards) as ->.
    split; [|split; congruence].
    intros _. destruct s; unfold P0.build_table, P1.build_tables;
      rewrite Hcards; reflexivity.
Qed.

(** What the construction of the tables does with the index of the second
    loop: ValueError when some card is not found in [card_order]; else
    IndexError when a vector read for some card is too short; else the
    tables. *)
Theorem outcome_of_the_table_loop (s : script) (lines : list string)
  (strategies : strategy_index) :
  strategies_of s lines = Ok strategies ->
  (forallb known (dict_keys strategies) = false ->
   run_lines s lines = Err ValueError)
  /\ (forallb known (dict_keys strategies) = true ->
      forallb (fun entry => long_enough s (snd entry)) strategies = false ->
      run_lines s lines = Err IndexError)
  /\ (forallb known (dict_keys strategies) = true ->
      forallb (fun entry => long_enough s (snd entry)) strategies = true ->
      exists dfs, run_lines s lines = Ok dfs).
Proof.
  intro H. rewrite run_lines_tables, H. cbn [bind].
  apply (tables_outcome s strategies (strategies_keys_NoDup _ _ _ H)).
Qed.

Lemma outcome_of_the_table_loop_witness :
  run_lines p0 (readlines unknown_card) = Err ValueError
  /\ run_lines p0 (readlines short_vector) = Err IndexError
  /\ exists dfs, run_lines p0 (readlines root_only) = Ok dfs.
Proof.
  pose proof (outcome_of_the_table_loop p0 (readlines unknown_card) _
                ltac:(vm_compute; reflexivity)) as (H1 & _).
  pose proof (outcome_of_the_table_loop p0 (readlines short_vector) _
                ltac:(vm_compute; reflexivity)) as (_ & H2 & _).
  pose proof (outcome_of_the_table_loop p0 (readlines root_only) _
                ltac:(vm_compute; reflexivity)) as (_ & _ & H3).
  split; [apply H1; by_computation|].
  split; [apply H2; by_computation|apply H3; by_computation].
Defined.

End OutcomeFacts.

(** ** The columns by rank *)

Module OrderFacts.

Import PyStr PyFloat Scripts LoopFacts TableFacts Columns.
Import Outcome Order Samples Scenario Lines OutcomeFacts.

Lemma sorted_perm_eq {A : Type} (R : A -> A -> Prop) (l l' : list A) :
  StronglySorted R l -> StronglySorted R l' -> Permutation l l' ->
  (forall x y, In x l -> In y l -> R x y -> R y x -> x = y) ->
  l = l'.
Proof.
  intros Hl; revert l'; induction Hl as [|x l Hl IH Hx]; intros l' Hl' Hperm Hanti.
  - apply Permutation_nil in Hperm; auto.
  - destruct Hl' as [|y l' Hl' Hy].
    + apply Permutation_sym, Permutation_nil in Hperm; discriminate.
    + assert (x = y) as <-.
      { assert (In x (y :: l')) as Hin
          by (eapply Permutation_in; [exact Hperm | left; reflexivity]).
        assert (In y (x :: l)) as Hin'
            by (eapply Permutation_in; [exact (Permutation_sym Hperm) | left; reflexivity]).
        destruct Hin as [->|Hin]; [reflexivity|].
        destruct Hin' as [->|Hin']; [reflexivity|].
        rewrite Forall_forall in Hx, Hy.
        apply Hanti; [left; reflexivity | right; exact Hin' | auto | auto]. }
      f_equal. apply IH; auto.
      * eapply Permutation_cons_inv; exact Hperm.
      * intros a b Ha Hb. apply Hanti; right; assumption.
Qed.

Lemma StronglySorted_filter {A : Type} (R : A -> A -> Prop) (f : A -> bool)
  (l : list A) :
  StronglySorted R l -> StronglySorted R (filter f l).
Proof.
  induction 1 as [|x l Hl IH Hx]; simpl; [constructor|].
  destruct (f x); [|exact IH].
  constructor; [exact IH|].
  rewrite Forall_forall in *. intros y Hy. apply filter_In in Hy as [Hy _]. auto.
Qed.

Lemma rank_of_position (x : string) (n : nat) :
  In x ranks -> index card_order x = Ok n -> x = nth n ranks "".
Proof.
  unfold ranks; simpl In; intros H Hn.
  repeat (destruct H as [<-|H];
          [vm_compute in Hn; injection Hn as <-; reflexivity|]).
  destruct H.
Qed.

Lemma rank_le_antisym (x y : string) :
  In x ranks -> In y ranks -> rank_le x y -> rank_le y x -> x = y.
Proof.
  intros Hx Hy (i & j & Hi & Hj & Hij) (j' & i' & Hj' & Hi' & Hji).
  rewrite Hi in Hi'; injection Hi' as <-.
  rewrite Hj in Hj'; injection Hj' as <-.
  assert (i = j) as <- by lia.
  rewrite (rank_of_position x i Hx Hi), (rank_of_position y i Hy Hj). reflexivity.
Qed.

Lemma ranks_sorted : StronglySorted rank_le ranks.
Proof.
  unfold ranks.
  repeat (constructor;
          [|repeat (constructor;
                    [do 2 eexists; split; [reflexivity|]; split; [reflexivity|]; lia|]);
            constructor]).
  constructor.
Qed.

Lemma ranks_NoDup : NoDup ranks.
Proof.
  unfold ranks.
  repeat (constructor; [simpl; intro H; repeat (destruct H as [H|H]; [discriminate H|]); exact H|]).
  constructor.
Qed.

Lemma cards_sorted (cards : list string) (positions : list nat) :
  Forall2 (fun card r => index card_order card = Ok r) cards positions ->
  StronglySorted le positions ->
  StronglySorted rank_le cards.
Proof.
  induction 1 as [|card r cards positions Hr Hrest IH]; intro Hs; constructor.
  - apply IH. apply StronglySorted_inv in Hs as [Hs _]; exact Hs.
  - apply StronglySorted_inv in Hs as [_ Hle].
    clear IH. induction Hrest as [|card' r' cards' positions' Hr' _ IH'];
      constructor.
    + exists r, r'. apply Forall_inv in Hle. auto.
    + apply IH'. apply Forall_inv_tail in Hle; exact Hle.
Qed.

Lemma dict_mem_keys {V : Type} (d : dict V) (k : string) :
  dict_mem d k = true <-> In k (dict_keys d).
Proof.
  unfold dict_mem; split.
  - destruct (dict_get d k) as [v|] eqn:E; [|discriminate].
    intros _; eapply dict_keys_get; eassumption.
  - intro H; apply dict_get_keys in H. destruct (dict_get d k); congruence.
Qed.

(** With ranks for cards the columns are the ranks of the index in the
    order of [ranks]. *)
Lemma sorted_rank_cards (strategies : strategy_index) (cards : list string) :
  NoDup (dict_keys strategies) ->
  Forall (fun card => In card ranks) (dict_keys strategies) ->
  sorted_cards strategies = Ok cards ->
  cards = filter (dict_mem strategies) ranks.
Proof.
  intros Hnd Hranks Hcards.
  destruct (sorted_cards_spec _ _ Hcards) as (Hperm & positions & Hpos & Hsorted).
  rewrite Forall_forall in Hranks.
  apply (sorted_perm_eq rank_le).
  - eapply cards_sorted; eassumption.
  - apply StronglySorted_filter, ranks_sorted.
  - apply NoDup_Permutation.
    + eapply Permutation_NoDup; [apply Permutation_sym; exact Hperm | exact Hnd].
    + apply NoDup_filter, ranks_NoDup.
    + intro x. rewrite filter_In, dict_mem_keys. split.
      * intro Hx. apply (Permutation_in _ Hperm) in Hx. auto.
      * intros [_ Hx]. apply (Permutation_in _ (Permutation_sym Hperm)); exact Hx.
  - intros x y Hx Hy. apply rank_le_antisym; apply Hranks;
      eapply Permutation_in; eassumption.
Qed.

(** With the thirteen ranks for cards, the columns of every table are the
    ranks that have a record, in the order of [card_order]. *)
Theorem columns_are_the_ranks_present (s : script) (text : string)
  (strategies : strategy_index) (dfs : list DataFrame) :
  strategies_of s (readlines text) = Ok strategies ->
  run s text = Ok dfs ->
  Forall (fun card => In card ranks) (dict_keys strategies) ->
  Forall (fun df => columns df = filter (dict_mem strategies) ranks) dfs.
Proof.
  intros Hidx Hrun Hranks.
  pose proof (strategies_keys_NoDup _ _ _ Hidx) as Hnd.
  unfold run in Hrun. rewrite run_lines_tables, Hidx in Hrun. cbn [bind] in Hrun.
  destruct s.
  - apply bind_ok in Hrun as (df & Hb & Hrun). injection Hrun as <-.
    apply p0_build_table_inv in Hb as (cards & cols & Hcards & _ & ->).
    repeat constructor. simpl. apply sorted_rank_cards; assumption.
  - apply bind_ok in Hrun as ([t1 t2] & Hb & Hrun). injection Hrun as <-.
    apply p1_build_tables_inv in Hb as (cards & cols & Hcards & _ & Hb).
    injection Hb as -> ->.
    repeat constructor; simpl; apply sorted_rank_cards; assumption.
Qed.

Lemma columns_are_the_ranks_present_witness :
  exists (strategies : strategy_index) dfs,
    run p0 three_cards = Ok dfs
    /\ Forall (fun df => columns df = filter (dict_mem strategies) ranks) dfs
    /\ filter (dict_mem strategies) ranks = ["A"; "T"; "2"].
Proof.
  eexists; eexists.
  split; [by_computation|].
  split.
  - eapply (columns_are_the_ranks_present p0 three_cards); [by_computation..|].
    vm_compute; repeat (apply Forall_cons; [auto 20|]); apply Forall_nil.
  - by_computation.
Defined.

End OrderFacts.

(** ** The order of the records *)

Module WriteOrder.

Import PyStr PyFloat Scripts LoopFacts TableFacts Columns.
Import Outcome Order Writes LastWrite Samples Scenario.
Import Lines OutcomeFacts OrderFacts.

Lemma mapM_perm {A B : Type} (f : A -> result B) (l l' : list A) (bs : list B) :
  Permutation l l' -> mapM f l = Ok bs ->
  exists bs', mapM f l' = Ok bs' /\ Permutation bs bs'.
Proof.
  intro Hperm; revert bs; induction Hperm as [|x l l' _ IH|x y l|l l' l'' _ IH1 _ IH2];
    intros bs H.
  - exists bs; split; [exact H | auto].
  - simpl in H. apply bind_ok in H as (b & Hb & H).
    apply bind_ok in H as (bs0 & Hbs & H). injection H as <-.
    destruct (IH _ Hbs) as (bs' & Hbs' & Hp).
    exists (b :: bs'); simpl; rewrite Hb, Hbs'; simpl; auto.
  - simpl in H. apply bind_ok in H as (b & Hb & H).
    apply bind_ok in H as (bs0 & Hbs & H). injection H as <-.
    apply bind_ok in Hbs as (c & Hc & Hbs).
    apply bind_ok in Hbs as (bs1 & Hbs1 & Hbs). injection Hbs as <-.
    exists (c :: b :: bs1); simpl; rewrite Hb, Hc, Hbs1; simpl.
    split; [reflexivity | apply perm_swap].
  - destruct (IH1 _ H) as (bs' & H' & Hp1).
    destruct (IH2 _ H') as (bs'' & H'' & Hp2).
    exists bs''; split; [exact H'' | eapply perm_trans; eassumption].
Qed.

Lemma mapM_ext_in {A B : Type} (f g : A -> result B) (l : list A) :
  (forall a, In a l -> f a = g a) -> mapM f l = mapM g l.
Proof.
  induction l as [|a l IH]; simpl; intro H; auto.
  rewrite (H a (or_introl eq_refl)), IH; auto.
Qed.

Lemma writes_In (recs : list (option (string * string * list float)))
  (card key : string) :
  In (card, key) (writes recs) <-> exists probs, In (Some (card, key, probs)) recs.
Proof.
  unfold writes. rewrite in_flat_map. split.
  - intros ([[[c k] p]|] & Hin & Hw); simpl in Hw; [|destruct Hw].
    destruct Hw as [Hw|[]]. injection Hw as -> ->. eauto.
  - intros (p & Hin). exists (Some (card, key, p)). split; [exact Hin | left; reflexivity].
Qed.

Lemma writes_dec (recs : list (option (string * string * list float)))
  (card key : string) :
  {In (card, key) (writes recs)} + {~ In (card, key) (writes recs)}.
Proof.
  apply in_dec. decide equality; apply String.string_dec.
Qed.

Lemma lookup_fold_other (recs : list (option (string * string * list float)))
  (strategies : strategy_index) (card key : string) :
  ~ In (card, key) (writes recs) ->
  lookup (fold_left apply_record recs strategies) card key
    = lookup strategies card key.
Proof.
  revert strategies; induction recs as [|r recs IH]; intros strategies Hnot;
    simpl; auto.
  unfold writes in Hnot; simpl in Hnot. rewrite in_app_iff in Hnot.
  rewrite IH by tauto.
  destruct r as [[[c k] p]|]; simpl; auto.
  apply lookup_put_other.
  destruct (String.eqb_spec c card) as [->|Hc]; [|auto].
  destruct (String.eqb_spec k key) as [->|Hk]; [|auto].
  exfalso; apply Hnot; left; left; reflexivity.
Qed.

Lemma lookup_fold_written (recs : list (option (string * string * list float)))
  (strategies : strategy_index) (card key : string) (probs : list float) :
  NoDup (writes recs) ->
  In (Some (card, key, probs)) recs ->
  lookup (fold_left apply_record recs strategies) card key = Some probs.
Proof.
  revert strategies; induction recs as [|r recs IH]; intros strategies Hnd Hin;
    [destruct Hin|].
  unfold writes in Hnd; simpl in Hnd. simpl.
  destruct Hin as [->|Hin].
  - simpl in Hnd. apply NoDup_cons_iff in Hnd as [Hnot _].
    rewrite lookup_fold_other by exact Hnot. apply lookup_put_same.
  - apply IH; [|exact Hin]. apply NoDup_app_remove_l in Hnd; exact Hnd.
Qed.

Lemma keys_put (card key : string) (probs : list float)
  (strategies : strategy_index) (x : string) :
  In x (dict_keys (put card key probs strategies))
    <-> x = card \/ In x (dict_keys strategies).
Proof.
  unfold put. rewrite dict_keys_set.
  destruct (dict_mem strategies card) eqn:E.
  - apply dict_mem_keys in E. split; [auto|]. intros [->|H]; auto.
  - rewrite in_app_iff; simpl. split; intros H; decompose [or] H; auto; try tauto.
Qed.

Lemma keys_fold (recs : list (option (string * string * list float)))
  (strategies : strategy_index) (x : string) :
  In x (dict_keys (fold_left apply_record recs strategies))
    <-> In x (dict_keys strategies) \/ In x (map fst (writes recs)).
Proof.
  revert strategies; induction recs as [|r recs IH]; intro strategies; simpl.
  - tauto.
  - rewrite IH. unfold writes; simpl. rewrite map_app, in_app_iff.
    destruct r as [[[c k] p]|]; simpl; [rewrite keys_put|]; split; intro H;
      decompose [or] H; subst; auto; tauto.
Qed.

Lemma p0_compound_ext (cd cd' : card_strategy) :
  (forall key, dict_get cd key = dict_get cd' key) ->
  P0.compound cd = P0.compound cd'.
Proof.
  intro H. unfold P0.compound, P0.check_prob, P0.bet_prob, P0.check_actions,
    P0.bet_actions, dict_get_default. rewrite !H. reflexivity.
Qed.

Lemma p1_compound_ext (cd cd' : card_strategy) :
  (forall key, dict_get cd key = dict_get cd' key) ->
  P1.compound cd = P1.compound cd'.
Proof.
  intro H. unfold P1.compound, P1.checked_to_probs, P1.raise_response_probs,
    P1.bet_into_probs, dict_get_default. rewrite !H. reflexivity.
Qed.

(** Two indexes with the same lookups and the same ranks for cards give the
    same tables. *)
Lemma tables_of_equal_lookups (s : script) (strategies strategies' : strategy_index) :
  NoDup (dict_keys strategies) -> NoDup (dict_keys strategies') ->
  (forall x, In x (dict_keys strategies) <-> In x (dict_keys strategies')) ->
  Forall (fun card => In card ranks) (dict_keys strategies) ->
  (forall card key, lookup strategies card key = lookup strategies' card key) ->
  match s with
  | p0 => df <- P0.build_table strategies' ;; Ok [df]
  | p1 => '(a, b) <- P1.build_tables strategies' ;; Ok [a; b]
  end
  = match s with
    | p0 => df <- P0.build_table strategies ;; Ok [df]
    | p1 => '(a, b) <- P1.build_tables strategies ;; Ok [a; b]
    end.
Proof.
  intros Hnd Hnd' Hkeys Hranks Hlook.
  assert (Forall (fun card => In card ranks) (dict_keys strategies')) as Hranks'.
  { rewrite Forall_forall in *. intros x Hx. apply Hranks, Hkeys, Hx. }
  assert (forallb known (dict_keys strategies) = true) as Hk.
  { apply forallb_forall. intros x Hx. rewrite Forall_forall in Hranks.
    specialize (Hranks x Hx). unfold ranks in Hranks; simpl in Hranks.
    repeat (destruct Hranks as [<-|Hranks]; [reflexivity|]). destruct Hranks. }
  assert (forallb known (dict_keys strategies') = true) as Hk'.
  { apply forallb_forall. intros x Hx. rewrite forallb_forall in Hk.
    apply Hk, Hkeys, Hx. }
  rewrite <- sorted_cards_known in Hk, Hk'.
  apply is_ok_true in Hk as [cards Hcards], Hk' as [cards' Hcards'].
  assert (cards' = cards) as ->.
  { rewrite (sorted_rank_cards _ _ Hnd Hranks Hcards).
    rewrite (sorted_rank_cards _ _ Hnd' Hranks' Hcards').
    apply filter_ext. intro x.
    destruct (dict_mem strategies x) eqn:E.
    - apply dict_mem_keys. apply Hkeys. apply dict_mem_keys; exact E.
    - apply Bool.not_true_is_false. intro E'. apply dict_mem_keys in E'.
      apply Hkeys, dict_mem_keys in E'. congruence. }
  assert (forall card cd cd',
            dict_get strategies card = Some cd ->
            dict_get strategies' card = Some cd' ->
            forall key, dict_get cd' key = dict_get cd key) as Hinner.
  { intros card cd cd' Hcd Hcd' key. specialize (Hlook card key).
    unfold lookup in Hlook. rewrite Hcd, Hcd' in Hlook. auto. }
  destruct (sorted_cards_spec _ _ Hcards) as [Hperm _].
  destruct s.
  - unfold P0.build_table. rewrite Hcards, Hcards'. cbn [bind].
    rewrite (mapM_ext_in (P0.column_of strategies') (P0.column_of strategies));
      [reflexivity|].
    intros card Hcard. apply (Permutation_in _ Hperm) in Hcard.
    unfold P0.column_of, dict_item.
    destruct (dict_get strategies card) as [cd|] eqn:E;
      [|apply dict_get_keys in Hcard; contradiction].
    apply Hkeys in Hcard.
    destruct (dict_get strategies' card) as [cd'|] eqn:E';
      [|apply dict_get_keys in Hcard; contradiction].
    simpl. apply p0_compound_ext. eapply Hinner; eassumption.
  - unfold P1.build_tables. rewrite Hcards, Hcards'. cbn [bind].
    rewrite (mapM_ext_in (P1.column_of strategies') (P1.column_of strategies));
      [reflexivity|].
    intros card Hcard. apply (Permutation_in _ Hperm) in Hcard.
    unfold P1.column_of, dict_item.
    destruct (dict_get strategies card) as [cd|] eqn:E;
      [|apply dict_get_keys in Hcard; contradiction].
    apply Hkeys in Hcard.
    destruct (dict_get strategies' card) as [cd'|] eqn:E';
      [|apply dict_get_keys in Hcard; contradiction].
    simpl. apply p1_compound_ext. eapply Hinner; eassumption.
Qed.

(** The records can come in any order: when no card and key is written
    twice and the cards are ranks, a permutation of the lines read within
    the sections gives the same result. *)
Theorem record_order_is_irrelevant (s : script) (lines lines' : list string)
  (recs : list (option (string * string * list float))) :
  mapM (line_record s) (player_lines (header s) false lines) = Ok recs ->
  Permutation (player_lines (header s) false lines)
    (player_lines (header s) false lines') ->
  NoDup (writes recs) ->
  Forall (fun card => In card ranks) (map fst (writes recs)) ->
  run_lines s lines' = run_lines s lines.
Proof.
  intros Hrecs Hperm Hnd Hranks.
  destruct (mapM_perm _ _ _ _ Hperm Hrecs) as (recs' & Hrecs' & Hp).
  rewrite !run_lines_tables, !strategies_of_records, Hrecs, Hrecs'. cbn [bind].
  assert (forall c k, In (c, k) (writes recs') <-> In (c, k) (writes recs)) as Hw.
  { intros c k. rewrite !writes_In. split; intros [p Hin]; exists p.
    - eapply Permutation_in; [apply Permutation_sym; exact Hp | exact Hin].
    - eapply Permutation_in; [exact Hp | exact Hin]. }
  assert (NoDup (writes recs')) as Hnd'.
  { eapply Permutation_NoDup; [|exact Hnd]. apply Permutation_flat_map, Hp. }
  apply tables_of_equal_lookups.
  - apply fold_keys_NoDup; constructor.
  - apply fold_keys_NoDup; constructor.
  - intro x. rewrite !keys_fold. simpl.
    assert (In x (map fst (writes recs)) <-> In x (map fst (writes recs'))) as E.
    { rewrite !in_map_iff. split; intros ([c k] & Hx & Hin); exists (c, k);
        (split; [exact Hx|]); apply Hw; exact Hin. }
    tauto.
  - apply Forall_forall. intros x Hx. apply keys_fold in Hx as [[]|Hx].
    rewrite Forall_forall in Hranks; auto.
  - intros card key.
    destruct (writes_dec recs card key) as [Hin|Hnot].
    + apply writes_In in Hin as [p Hin].
      rewrite (lookup_fold_written recs [] card key p Hnd Hin).
      symmetry. apply lookup_fold_written; [exact Hnd'|].
      eapply Permutation_in; [exact Hp | exact Hin].
    + rewrite (lookup_fold_other recs [] card key Hnot).
      symmetry. apply lookup_fold_other. rewrite Hw. exact Hnot.
Qed.

Lemma record_order_is_irrelevant_witness :
  run_lines p0 (readlines two_cards_swapped) = run_lines p0 (readlines two_cards).
Proof.
  eapply (record_order_is_irrelevant p0 (readlines two_cards)).
  - vm_compute; reflexivity.
  - vm_compute; apply perm_swap.
  - vm_compute.
    apply NoDup_cons; [intros [H|[]]; discriminate H|].
    apply NoDup_cons; [intros []|apply NoDup_nil].
  - vm_compute; repeat (apply Forall_cons; [auto 20|]); apply Forall_nil.
Defined.

End WriteOrder.

(** ** An overwritten line *)

Module Overwrite.

Import PyStr PyFloat Scripts LoopFacts TableFacts Columns.
Import Outcome Writes LastWrite Samples WriteOrder.

(** The lines of the player in a dump from which a tagged line before
    another one was removed. *)
Lemma player_lines_removed (s : script) (before mid rest : list string)
  (earlier later : string) :
  startswith (strip earlier) (tag s) = true ->
  startswith (strip later) (tag s) = true ->
  in_player_after (header s) false (before ++ earlier :: mid)%list = true ->
  player_lines (header s) false (before ++ mid ++ later :: rest)%list
    = (player_lines (header s) false before
         ++ player_lines (header s) (in_player_after (header s) false before) mid
         ++ strip later :: player_lines (header s) true rest)%list.
Proof.
  intros He Hl Hin.
  rewrite in_player_after_app in Hin.
  destruct (player_lines_tagged s (in_player_after (header s) false before)
              earlier mid He) as [_ Hst].
  rewrite Hst in Hin.
  rewrite !player_lines_app, Hin.
  destruct (player_lines_tagged s true later rest Hl) as [-> _].
  reflexivity.
Qed.

Lemma writes_app (l1 l2 : list (option (string * string * list float))) :
  writes (l1 ++ l2) = (writes l1 ++ writes l2)%list.
Proof. apply flat_map_app. Qed.

(** Without the earlier of two writes under a card and key the lookups
    are the same. *)
Lemma lookup_removed (before mid rest : list (option (string * string * list float)))
  (card key : string) (probs last_probs : list float) (c k : string) :
  lookup (fold_left apply_record
            (before ++ mid ++ Some (card, key, last_probs) :: rest) []) c k
  = lookup (fold_left apply_record
              (before ++ Some (card, key, probs) :: mid
                 ++ Some (card, key, last_probs) :: rest) []) c k.
Proof.
  rewrite !lookup_fold, !fold_left_app. cbn [fold_left].
  rewrite !fold_left_app. cbn [fold_left].
  destruct (String.eqb c card && String.eqb k key); reflexivity.
Qed.

(** And the cards are the same, in an order that may differ. *)
Lemma keys_removed (before mid rest : list (option (string * string * list float)))
  (card key : string) (probs last_probs : list float) (x : string) :
  In x (dict_keys (fold_left apply_record
                     (before ++ mid ++ Some (card, key, last_probs) :: rest) []))
  <-> In x (dict_keys (fold_left apply_record
                         (before ++ Some (card, key, probs) :: mid
                            ++ Some (card, key, last_probs) :: rest) [])).
Proof.
  rewrite !keys_fold.
  change (Some (card, key, probs) :: mid ++ Some (card, key, last_probs) :: rest)%list
    with ([Some (card, key, probs)] ++ mid ++ Some (card, key, last_probs) :: rest)%list.
  change (Some (card, key, last_probs) :: rest)
    with ([Some (card, key, last_probs)] ++ rest)%list.
  rewrite !writes_app, !map_app, !in_app_iff. simpl. tauto.
Qed.

Lemma mapM_removed {A B : Type} (f : A -> result B) (l1 l2 l3 : list A) (y : A) :
  mapM f (l1 ++ l2 ++ y :: l3)%list =
    (r1 <- mapM f l1 ;;
     r2 <- mapM f l2 ;;
     ry <- f y ;;
     r3 <- mapM f l3 ;;
     Ok (r1 ++ r2 ++ ry :: r3)%list).
Proof.
  rewrite mapM_app. destruct (mapM f l1); simpl; auto.
  rewrite mapM_app; simpl. destruct (mapM f l2); simpl; auto.
  destruct (f y); simpl; auto.
  destruct (mapM f l3); simpl; auto.
Qed.

(** Against C8: card A is written twice with card AK in between; with the
    first line of A the columns are A, AK, without it AK, A, so the line
    that is overwritten has an effect on the tables. *)
Lemma removing_an_overwritten_line_moves_a_column :
  exists df df',
    run p0 overwritten_A = Ok [df]
    /\ run p0 overwritten_A_removed = Ok [df']
    /\ line_record p0 (strip (Scenario.root_record "A" "0.1 0.9"))
       = Ok (Some ("A", "|BET,CHECK", [Numbers.dec "0.1"; Numbers.dec "0.9"]))
    /\ line_record p0 (strip (Scenario.root_record "A" "0.6 0.4"))
       = Ok (Some ("A", "|BET,CHECK", [Numbers.dec "0.6"; Numbers.dec "0.4"]))
    /\ columns df = ["A"; "AK"]
    /\ columns df' = ["AK"; "A"]
    /\ run p0 overwritten_A_removed <> run p0 overwritten_A.
Proof.
  do 2 eexists.
  split; [vm_compute; reflexivity|]. split; [vm_compute; reflexivity|].
  split; [vm_compute; reflexivity|]. split; [vm_compute; reflexivity|].
  split; [reflexivity|]. split; [reflexivity|].
  vm_compute. intro H; discriminate H.
Qed.

(** C8, amended: the index holds one vector for each card and key, the one
    of the last line of the player's sections that writes it.  When two
    lines of a dump write the same card and key and the later one is
    inside a section, the vector of the earlier line has no effect:
    replacing it changes neither the index nor the tables, and the vector
    stored is the one of the later line unless a line after it writes the
    key again.  Removing the earlier line leaves the cards and every
    lookup of the index as they are and the same exception of the second
    loop, if any; the tables are the same when the cards of the index are
    ranks. *)
Theorem last_write_wins (s : script) (text text' removed : string)
  (before mid rest : list string) (earlier earlier' later : string)
  (card key : string) (probs probs' last_probs : list float) :
  readlines text = (before ++ earlier :: mid ++ later :: rest)%list ->
  readlines text' = (before ++ earlier' :: mid ++ later :: rest)%list ->
  readlines removed = (before ++ mid ++ later :: rest)%list ->
  line_record s (strip earlier) = Ok (Some (card, key, probs)) ->
  line_record s (strip earlier') = Ok (Some (card, key, probs')) ->
  line_record s (strip later) = Ok (Some (card, key, last_probs)) ->
  in_player_after (header s) false (before ++ earlier :: mid)%list = true ->
  strategies_of s (readlines text') = strategies_of s (readlines text)
  /\ run s text' = run s text
  /\ (forall strategies,
        strategies_of s (readlines text) = Ok strategies ->
        NoDup (dict_keys strategies)
        /\ inner_keys_NoDup strategies
        /\ (forall c k,
              lookup strategies c k
                = last_write s c k (player_lines (header s) false (readlines text)))
        /\ (last_write s card key (player_lines (header s) true rest) = None ->
            lookup strategies card key = Some last_probs))
  /\ (forall e,
        strategies_of s (readlines removed) = Err e
        <-> strategies_of s (readlines text) = Err e)
  /\ (forall strategies strategies',
        strategies_of s (readlines text) = Ok strategies ->
        strategies_of s (readlines removed) = Ok strategies' ->
        (forall c, In c (dict_keys strategies') <-> In c (dict_keys strategies))
        /\ (forall c k, lookup strategies' c k = lookup strategies c k))
  /\ ((forall strategies,
         strategies_of s (readlines text) = Ok strategies ->
         Forall (fun c => In c ranks) (dict_keys strategies)) ->
      run s removed = run s text).
Proof.
  intros Htext Htext' Hremoved He He' Hl Hin.
  destruct (replaced_write_is_lost s text text' before mid rest earlier earlier'
              later card key probs probs' last_probs Htext Htext' He He' Hl Hin)
    as (H1 & H2 & H3).
  split; [exact H1|]. split; [exact H2|]. split; [exact H3|].
  pose proof (line_record_tagged _ _ _ He) as Te.
  pose proof (line_record_tagged _ _ _ Hl) as Tl.
  pose proof (player_lines_two s before mid rest earlier later Te Tl Hin) as PL.
  pose proof (player_lines_removed s before mid rest earlier later Te Tl Hin) as PR.
  unfold run. rewrite !run_lines_tables, Htext, Hremoved, !strategies_of_records.
  rewrite PL, PR. clear H1 H2 H3.
  destruct (in_player_after (header s) false before).
  - cbn [app]. rewrite mapM_two, mapM_removed, He, Hl.
    destruct (mapM (line_record s) (player_lines (header s) false before))
      as [rb|eb]; cbn [bind];
      [|split; [tauto|]; split; [intros ? ? H; discriminate H|reflexivity]].
    destruct (mapM (line_record s) (player_lines (header s) true mid))
      as [rm|em]; cbn [bind];
      [|split; [tauto|]; split; [intros ? ? H; discriminate H|reflexivity]].
    destruct (mapM (line_record s) (player_lines (header s) true rest))
      as [rr|er]; cbn [bind];
      [|split; [tauto|]; split; [intros ? ? H; discriminate H|reflexivity]].
    split; [intro e; split; intro H; discriminate H|].
    split.
    + intros strategies strategies' H H'.
      injection H as <-. injection H' as <-.
      split; [intro c; apply keys_removed|intros c k; apply lookup_removed].
    + intro Hranks. apply tables_of_equal_lookups.
      * apply fold_keys_NoDup; constructor.
      * apply fold_keys_NoDup; constructor.
      * intro x; symmetry; apply keys_removed.
      * apply Hranks; reflexivity.
      * intros c k; symmetry; apply lookup_removed.
  - cbn [app].
    split; [tauto|]. split; [|reflexivity].
    intros strategies strategies' H H'. rewrite H in H'. injection H' as <-.
    split; [tauto|reflexivity].
Qed.

Lemma last_write_wins_witness :
  run p0 (Scenario.written_twice "0.1 0.9") = run p0 (Scenario.written_twice "0.7 0.3")
  /\ run p0 written_once = run p0 (Scenario.written_twice "0.7 0.3")
  /\ exists strategies,
      strategies_of p0 (readlines (Scenario.written_twice "0.7 0.3")) = Ok strategies
      /\ lookup strategies "A" "|BET,CHECK"
           = Some [Numbers.dec "0.6"; Numbers.dec "0.4"].
Proof.
  eassert (H : _);
    [eapply (last_write_wins p0 (Scenario.written_twice "0.7 0.3")
               (Scenario.written_twice "0.1 0.9") written_once
               ["PLAYER: 0" ++ Scenario.nl]
               [Scenario.root_record "K" "0.5 0.5"]
               ["END" ++ Scenario.nl]
               (Scenario.root_record "A" "0.7 0.3")
               (Scenario.root_record "A" "0.1 0.9")
               (Scenario.root_record "A" "0.6 0.4")
               "A" "|BET,CHECK");
     by_computation|].
  destruct H as (_ & Hrun & Hidx & _ & _ & Hremoved).
  split; [exact Hrun|]. split.
  - apply Hremoved. intros strategies Hs. vm_compute in Hs.
    injection Hs as <-.
    vm_compute; repeat (apply Forall_cons; [auto 20|]); apply Forall_nil.
  - eexists. split; [by_computation|].
    eapply Hidx; by_computation.
Defined.

End Overwrite.

(** ** Splitting at a separator *)

Module Fields.

Import PyStr PyFloat Scripts PyStrFacts LoopFacts Format.

Lemma append_assoc (a b c : string) : (a ++ b) ++ c = a ++ b ++ c.
Proof. induction a as [|x a IH]; simpl; [|rewrite IH]; reflexivity. Qed.

Lemma append_empty (a : string) : a ++ "" = a.
Proof. induction a as [|x a IH]; simpl; [|rewrite IH]; reflexivity. Qed.

Lemma length_append (a b : string) :
  String.length (a ++ b) = String.length a + String.length b.
Proof. induction a as [|x a IH]; simpl; [|rewrite IH]; reflexivity. Qed.

Lemma has_char_append (c : ascii) (a b : string) :
  has_char c (a ++ b) = has_char c a || has_char c b.
Proof.
  induction a as [|x a IH]; simpl; [reflexivity|].
  rewrite IH, orb_assoc; reflexivity.
Qed.

Lemma split_from_cons (sep : string) (s : string) : forall k,
  exists h rest, split_from sep k s = h :: rest.
Proof.
  induction s as [|a s IH]; intro k; cbn [split_from]; [eauto|].
  destruct k as [|k]; [|apply IH].
  destruct (prefix sep (String a s)); [eauto|].
  destruct (IH 0) as (h & rest & ->); eauto.
Qed.

Lemma split_from_clear (sep w t : string) :
  clear_of sep w t ->
  split_from sep 0 (w ++ t) =
    match split_from sep 0 t with
    | h :: rest => (w ++ h) :: rest
    | [] => [w]
    end.
Proof.
  induction w as [|a w IH]; cbn [clear_of].
  - intros _. cbn [append].
    destruct (split_from_cons sep t 0) as (h & rest & ->); reflexivity.
  - intros [Hp Hc]. cbn [append] in *. cbn [split_from].
    rewrite Hp, (IH Hc).
    destruct (split_from_cons sep t 0) as (h & rest & ->); reflexivity.
Qed.

Lemma split_from_skip (sep w t : string) :
  split_from sep (String.length w) (w ++ t) = split_from sep 0 t.
Proof. induction w as [|a w IH]; cbn [String.length append split_from]; auto. Qed.

Lemma prefix_append (sep t : string) : prefix sep (sep ++ t) = true.
Proof.
  induction sep as [|a sep IH]; cbn [append].
  - destruct t; reflexivity.
  - rewrite prefix_cons. destruct (ascii_dec a a); congruence.
Qed.

Lemma split_from_match (sep t : string) :
  sep <> "" ->
  split_from sep 0 (sep ++ t) = "" :: split_from sep 0 t.
Proof.
  destruct sep as [|c sep]; [congruence|]; intros _.
  cbn [append split_from].
  change (String c (sep ++ t)) with (String c sep ++ t).
  rewrite prefix_append. cbn [String.length].
  rewrite Nat.sub_1_r; cbn [Nat.pred].
  rewrite split_from_skip; reflexivity.
Qed.

(** The first separator of a string is where the first piece ends. *)
Lemma split_at (sep w t : string) :
  sep <> "" -> clear_of sep w (sep ++ t) ->
  split (w ++ sep ++ t) sep = w :: split t sep.
Proof.
  intros Hsep Hc; unfold split.
  rewrite (split_from_clear _ _ _ Hc), (split_from_match _ _ Hsep).
  rewrite append_empty; reflexivity.
Qed.

Lemma split_none (sep w : string) : clear_of sep w "" -> split w sep = [w].
Proof.
  intros Hc; unfold split.
  rewrite <- (append_empty w) at 1.
  rewrite (split_from_clear _ _ _ Hc); cbn [split_from].
  rewrite append_empty; reflexivity.
Qed.

Lemma prefix_get (sep : string) : forall (s : string) (k : nat) (c : ascii),
  prefix sep s = true -> get k sep = Some c -> get k s = Some c.
Proof.
  induction sep as [|a sep IH]; intros s k c Hp Hg; [discriminate Hg|].
  destruct s as [|b s]; [discriminate Hp|].
  rewrite prefix_cons in Hp.
  destruct (ascii_dec a b) as [->|_]; [|discriminate Hp].
  destruct k as [|k]; cbn [get] in *; [exact Hg|].
  apply IH; assumption.
Qed.

Lemma get_has_char (s : string) : forall (k : nat) (c : ascii),
  get k s = Some c -> has_char c s = true.
Proof.
  induction s as [|a s IH]; intros k c Hg; [discriminate Hg|].
  cbn [get has_char] in *. destruct k as [|k].
  - injection Hg as ->. rewrite Ascii.eqb_refl; reflexivity.
  - rewrite (IH _ _ Hg), orb_true_r; reflexivity.
Qed.

(** A separator whose character at [k] occurs neither in [w] nor in the
    [k] characters that follow it starts nowhere in [w]. *)
Lemma clear_by_char (sep : string) (k : nat) (c : ascii) (w u t : string) :
  get k sep = Some c -> k <= String.length u ->
  has_char c (w ++ u) = false -> clear_of sep w (u ++ t).
Proof.
  intros Hg Hk; induction w as [|a w IH]; cbn [clear_of]; [auto|].
  intros Hc; split.
  - destruct (prefix sep (String a w ++ u ++ t)) eqn:Hp; [|reflexivity].
    pose proof (prefix_get _ _ _ _ Hp Hg) as Hget.
    rewrite <- append_assoc, <- append_correct1 in Hget.
    + rewrite (get_has_char _ _ _ Hget) in Hc; discriminate Hc.
    + rewrite length_append; cbn [String.length]; lia.
  - apply IH. cbn [append has_char] in Hc.
    apply orb_false_elim in Hc as [_ Hc]; exact Hc.
Qed.

Lemma clear_by_char_end (sep : string) (k : nat) (c : ascii) (w t : string) :
  get k sep = Some c -> has_char c (w ++ t) = false -> clear_of sep w t.
Proof.
  intros Hg; induction w as [|a w IH]; cbn [clear_of]; [auto|].
  intros Hc; split.
  - destruct (prefix sep (String a w ++ t)) eqn:Hp; [|reflexivity].
    rewrite (get_has_char _ _ _ (prefix_get _ _ _ _ Hp Hg)) in Hc.
    discriminate Hc.
  - apply IH. cbn [append has_char] in Hc.
    apply orb_false_elim in Hc as [_ Hc]; exact Hc.
Qed.

Lemma clear_append (sep a b t : string) :
  clear_of sep a (b ++ t) -> clear_of sep b t -> clear_of sep (a ++ b) t.
Proof.
  induction a as [|x a IH]; cbn [clear_of append]; [auto|].
  intros [Hp Hc] Hb; split; [|auto].
  change (String x ((a ++ b) ++ t)) with ((String x a ++ b) ++ t).
  rewrite append_assoc; exact Hp.
Qed.

End Fields.

(** ** Reading a record line *)

Module ParseInfo.

Import PyStr PyFloat Scripts PyStrFacts LoopFacts Format Fields.

Lemma clear_by_first (sep : string) (c : ascii) (w t : string) :
  get 0 sep = Some c -> has_char c w = false -> clear_of sep w t.
Proof.
  intros Hg Hc. apply (clear_by_char sep 0 c w "" t Hg); [apply Nat.le_0_l|].
  rewrite append_empty; exact Hc.
Qed.

Lemma clear_append_end (sep a b : string) :
  clear_of sep a b -> clear_of sep b "" -> clear_of sep (a ++ b) "".
Proof.
  intros Ha Hb; apply clear_append; [rewrite append_empty|]; assumption.
Qed.

Lemma join_cons (sep x y : string) (l : list string) :
  join sep (x :: y :: l) = x ++ sep ++ join sep (y :: l).
Proof. reflexivity. Qed.

Lemma join_has_char (c : ascii) (sep : string) (l : list string) :
  has_char c sep = false ->
  Forall (fun a => has_char c a = false) l ->
  has_char c (join sep l) = false.
Proof.
  intros Hsep Hl; induction Hl as [|x l Hx Hl IH]; [reflexivity|].
  destruct l as [|y l]; [exact Hx|].
  rewrite join_cons, !has_char_append, Hx, Hsep, IH; reflexivity.
Qed.

(** The actions come back from their joined text. *)
Lemma split_join (l : list string) :
  l <> [] -> Forall (fun a => has_char "," a = false) l ->
  split (join ", " l) ", " = l.
Proof.
  intros Hne Hl; induction Hl as [|x l Hx Hl IH]; [congruence|].
  destruct l as [|y l].
  - apply split_none, (clear_by_first _ ","); [reflexivity|exact Hx].
  - rewrite join_cons, split_at, IH; [reflexivity|discriminate|discriminate|].
    apply (clear_by_first _ ","); [reflexivity|exact Hx].
Qed.

Section Tail.

Variables (sep : string) (k : nat) (c0 : ascii).
Hypothesis Hcolon : get k sep = Some ":"%char.
Hypothesis Hk : k <= 8.
Hypothesis Hfirst : get 0 sep = Some c0.

Lemma clear_field (w u t : string) :
  has_char ":" w = false -> has_char ":" u = false -> 8 <= String.length u ->
  clear_of sep w (u ++ t).
Proof.
  intros Hw Hu Hlen. apply (clear_by_char sep k ":" w u t Hcolon); [lia|].
  rewrite has_char_append, Hw, Hu; reflexivity.
Qed.

Lemma clear_constant (w t : string) :
  has_char c0 w = false -> clear_of sep w t.
Proof. apply (clear_by_first sep c0 _ _ Hfirst). Qed.

Lemma clear_inside (inside : string) :
  has_char ":" inside = false -> has_char c0 "]" = false ->
  clear_of sep (inside ++ "]") "".
Proof.
  intros Hinside Hc0. apply clear_append_end.
  - apply (clear_by_char_end sep k ":" _ _ Hcolon).
    rewrite has_char_append, Hinside; reflexivity.
  - apply clear_constant, Hc0.
Qed.

(** After the history nothing reads as the separator. *)
Lemma clear_history (history inside : string) :
  has_char ":" history = false -> has_char ":" inside = false ->
  has_char c0 " Actions: ]" = false ->
  clear_of sep (history ++ " Actions: " ++ inside ++ "]") "".
Proof.
  intros Hh Hi Hc0.
  assert (has_char c0 " Actions: " = false /\ has_char c0 "]" = false)
    as [H1 H2].
  { change " Actions: ]" with (" Actions: " ++ "]") in Hc0.
    rewrite has_char_append in Hc0; apply orb_false_elim in Hc0; exact Hc0. }
  apply clear_append_end.
  - change (" Actions: " ++ inside ++ "]")
      with (" Actions" ++ ": " ++ inside ++ "]").
    apply clear_field; [exact Hh|reflexivity|apply Nat.le_refl].
  - apply clear_append_end; [apply clear_constant, H1|].
    apply clear_inside; assumption.
Qed.

(** After the card nothing reads as the separator. *)
Lemma clear_card (card history inside : string) :
  has_char ":" card = false -> has_char ":" history = false ->
  has_char ":" inside = false ->
  has_char c0 ", History: " = false -> has_char c0 " Actions: ]" = false ->
  clear_of sep
    (card ++ ", History: " ++ history ++ " Actions: " ++ inside ++ "]") "".
Proof.
  intros Hc Hh Hi H1 H2.
  apply clear_append_end.
  - change (", History: " ++ history ++ " Actions: " ++ inside ++ "]")
      with (", History" ++ ": " ++ history ++ " Actions: " ++ inside ++ "]").
    apply clear_field; [exact Hc|reflexivity|cbn; lia].
  - apply clear_append_end; [apply clear_constant, H1|].
    apply clear_history; assumption.
Qed.

Lemma clear_field_in (w u t tail : string) :
  tail = u ++ t ->
  has_char ":" w = false -> has_char ":" u = false -> 8 <= String.length u ->
  clear_of sep w tail.
Proof. intros ->; apply clear_field. Qed.

End Tail.

Lemma split_after (sep w t : string) :
  sep <> "" -> clear_of sep w (sep ++ t) -> clear_of sep t "" ->
  item (split (w ++ sep ++ t) sep) 1 = Ok t.
Proof. intros; rewrite split_at, split_none by assumption; reflexivity. Qed.

Lemma split_before (sep w t : string) :
  sep <> "" -> clear_of sep w (sep ++ t) ->
  item (split (w ++ sep ++ t) sep) 0 = Ok w.
Proof. intros; rewrite split_at by assumption; reflexivity. Qed.

Ltac constant c :=
  apply (clear_constant _ c); [reflexivity|];
  first [reflexivity
        | match goal with s : script |- _ => destruct s; reflexivity end].

(** The card, the history and the actions are read back from the
    information part of a line. *)
Lemma information_part_is_read_back (s : script) (card history : string)
  (actions : list string) :
  has_char ":" card = false -> has_char "," card = false ->
  has_char ":" history = false ->
  actions <> [] ->
  Forall (fun a => has_char ":" a = false /\ has_char "," a = false
                   /\ has_char "]" a = false) actions ->
  parse_info (info_text (tag s) card history actions)
    = Ok (card, strip history, actions).
Proof.
  intros Hcc Hcm Hh Hne Hacts.
  assert (Hic : has_char ":" (join ", " actions) = false).
  { apply join_has_char; [reflexivity|].
    eapply Forall_impl; [|exact Hacts]. intros a (H & _ & _); exact H. }
  assert (Hib : has_char "]" (join ", " actions) = false).
  { apply join_has_char; [reflexivity|].
    eapply Forall_impl; [|exact Hacts]. intros a (_ & _ & H); exact H. }
  assert (Hsplit : split (join ", " actions) ", " = actions).
  { apply split_join; [exact Hne|].
    eapply Forall_impl; [|exact Hacts]. intros a (_ & H & _); exact H. }
  unfold info_text. set (inside := join ", " actions) in *.
  set (t3 := inside ++ "]").
  set (t2 := history ++ " Actions: " ++ t3).
  set (t1 := card ++ ", History: " ++ t2).
  assert (F1 : item (split (tag s ++ " Card: " ++ t1) "Card: ") 1 = Ok t1).
  { replace (tag s ++ " Card: " ++ t1) with ((tag s ++ " ") ++ "Card: " ++ t1)
      by (rewrite append_assoc; reflexivity).
    apply split_after; [discriminate| |].
    - constant "C"%char.
    - apply (clear_card "Card: " 4 "C"); auto; reflexivity || lia. }
  assert (F2 : item (split t1 ",") 0 = Ok card).
  { change t1 with (card ++ "," ++ " History: " ++ t2).
    apply split_before; [discriminate|].
    apply (clear_constant _ ","); [reflexivity|exact Hcm]. }
  assert (F3 : item (split (tag s ++ " Card: " ++ t1) "History: ") 1 = Ok t2).
  { replace (tag s ++ " Card: " ++ t1)
      with ((tag s ++ " Card: " ++ card ++ ", ") ++ "History: " ++ t2)
      by (rewrite !append_assoc; reflexivity).
    apply split_after; [discriminate| |].
    - apply clear_append; [constant "H"%char|].
      apply clear_append; [constant "H"%char|].
      apply clear_append; [|constant "H"%char].
      eapply (clear_field_in "History: " 7 eq_refl ltac:(lia) card ", Histor");
        [reflexivity|exact Hcc|reflexivity|apply Nat.le_refl].
    - apply (clear_history "History: " 7 "H"); auto; reflexivity || lia. }
  assert (F4 : item (split t2 " Actions:") 0 = Ok history).
  { change t2 with (history ++ " Actions:" ++ " " ++ t3).
    apply split_before; [discriminate|].
    change (" Actions:" ++ " " ++ t3) with (" Actions" ++ ": " ++ t3).
    apply (clear_field " Actions:" 8 eq_refl (Nat.le_refl 8));
      [exact Hh|reflexivity|apply Nat.le_refl]. }
  assert (F5 : item (split (tag s ++ " Card: " ++ t1) "Actions: ") 1 = Ok t3).
  { replace (tag s ++ " Card: " ++ t1)
      with ((tag s ++ " Card: " ++ card ++ ", History: " ++ history ++ " ")
              ++ "Actions: " ++ t3)
      by (rewrite !append_assoc; reflexivity).
    apply split_after; [discriminate| |].
    - apply clear_append; [constant "A"%char|].
      apply clear_append; [constant "A"%char|].
      apply clear_append.
      { eapply (clear_field_in "Actions: " 7 eq_refl ltac:(lia) card
                  ", History");
          [reflexivity|exact Hcc|reflexivity|cbn; lia]. }
      apply clear_append; [constant "A"%char|].
      apply clear_append; [|constant "A"%char].
      eapply (clear_field_in "Actions: " 7 eq_refl ltac:(lia) history
                " Actions");
        [reflexivity|exact Hh|reflexivity|apply Nat.le_refl].
    - apply (clear_inside "Actions: " 7 "A"); auto; reflexivity. }
  assert (F6 : item (split t3 "]") 0 = Ok inside).
  { change t3 with (inside ++ "]" ++ "").
    apply split_before; [discriminate|].
    apply (clear_constant _ "]"); [reflexivity|exact Hib]. }
  unfold parse_info.
  rewrite F1; cbn [bind]. rewrite F2; cbn [bind]. rewrite F3; cbn [bind].
  rewrite F4; cbn [bind]. rewrite F5; cbn [bind]. rewrite F6; cbn [bind].
  rewrite Hsplit; reflexivity.
Qed.

Lemma record_line_fields (s : script) (card history : string)
  (actions : list string) (probs_text : string) (probs : list float) :
  has_char ":" card = false -> has_char "," card = false ->
  has_char tab card = false ->
  has_char ":" history = false -> has_char tab history = false ->
  actions <> [] ->
  Forall (fun a => has_char ":" a = false /\ has_char "," a = false
                   /\ has_char "]" a = false /\ has_char tab a = false)
    actions ->
  has_char tab probs_text = false ->
  mapM float_of_string (split_ws probs_text) = Ok probs ->
  parse_line (line_text (tag s) card history actions probs_text)
    = Ok (card, strip history, actions, probs).
Proof.
  intros Hcc Hcm Hct Hh Hht Hne Hacts Hpt Hprobs.
  unfold line_text, parse_line.
  rewrite (Counts.split_at_char tab _ probs_text); [|
    |exact Hpt].
  - cbn [unpack2 bind]. rewrite Hprobs; cbn [bind].
    rewrite information_part_is_read_back; auto.
    eapply Forall_impl; [|exact Hacts]. intros a (H1 & H2 & H3 & _); auto.
  - unfold info_text. rewrite !has_char_append, Hct, Hht.
    rewrite (join_has_char _ ", "); [destruct s; reflexivity|reflexivity|].
    eapply Forall_impl; [|exact Hacts]. intros a (_ & _ & _ & H); exact H.
Qed.

Lemma solid_has_char (c : ascii) (t : string) :
  isspace c = true -> solid t = true -> has_char c t = false.
Proof.
  intro Hc; induction t as [|a t IH]; [reflexivity|].
  cbn [solid has_char]. intro H; apply andb_true_iff in H as [Ha Ht].
  rewrite (IH Ht), orb_false_r.
  destruct (Ascii.eqb_spec c a) as [->|_]; [|reflexivity].
  rewrite Hc in Ha; discriminate Ha.
Qed.

(** A token before the end or before a blank is the first piece. *)
Lemma split_ws_token (t r : string) :
  t <> "" -> solid t = true ->
  (r = "" \/ exists c r', r = String c r' /\ isspace c = true) ->
  split_ws (t ++ r) = t :: split_ws r.
Proof.
  intros Hne Hs Hr. induction t as [|c t IH]; [congruence|].
  cbn [solid] in Hs. apply andb_true_iff in Hs as [Hc Ht].
  apply negb_true_iff in Hc.
  cbn [append split_ws]. rewrite Hc.
  destruct t as [|d t].
  - cbn [append]. destruct Hr as [->|(c' & r' & -> & Hc')]; [reflexivity|].
    rewrite Hc'; reflexivity.
  - assert (isspace d = false) as Hd.
    { cbn [solid] in Ht. apply andb_true_iff in Ht as [Hd _].
      apply negb_true_iff in Hd; exact Hd. }
    change (String d t ++ r) with (String d (t ++ r)) at 1.
    cbv iota. rewrite Hd.
    change (String d (t ++ r)) with (String d t ++ r).
    rewrite IH; [reflexivity|discriminate|exact Ht].
Qed.

(** The tokens come back from their text with one blank between them. *)
Lemma split_ws_join (tokens : list string) :
  Forall (fun t => t <> "" /\ solid t = true) tokens ->
  split_ws (join " " tokens) = tokens.
Proof.
  induction 1 as [|t tokens [Hne Hs] _ IH]; [reflexivity|].
  destruct tokens as [|u tokens].
  - cbn [join concat]. rewrite <- (append_empty t) at 1.
    rewrite split_ws_token; auto.
  - change (join " " (t :: u :: tokens)) with (t ++ " " ++ join " " (u :: tokens)).
    rewrite split_ws_token; auto.
    + change (" " ++ join " " (u :: tokens))
        with (String " " (join " " (u :: tokens))).
      cbn [split_ws]. change (isspace " ") with true. cbv iota.
      rewrite IH; reflexivity.
    + right. exists " "%char, (join " " (u :: tokens)). split; reflexivity.
Qed.

Lemma rstrip_append (a b : string) :
  rstrip b <> "" -> rstrip (a ++ b) = a ++ rstrip b.
Proof.
  intro Hb. induction a as [|c a IH]; [reflexivity|].
  cbn [append rstrip]. rewrite IH.
  destruct (a ++ rstrip b) as [|d r] eqn:E; [|reflexivity].
  destruct a; [contradiction|discriminate E].
Qed.

(** A token keeps its text when the blanks after it are stripped. *)
Lemma rstrip_token (t w : string) :
  t <> "" -> solid t = true -> rstrip w = "" -> rstrip (t ++ w) = t.
Proof.
  intros Hne Hs Hw. induction t as [|c t IH]; [congruence|].
  cbn [solid] in Hs. apply andb_true_iff in Hs as [Hc Ht].
  apply negb_true_iff in Hc.
  cbn [append rstrip].
  destruct t as [|d t].
  - cbn [append]. rewrite Hw, Hc; reflexivity.
  - rewrite IH; [reflexivity|discriminate|exact Ht].
Qed.

Lemma join_last (P : string -> Prop) (sep : string) (l : list string) :
  l <> [] -> Forall P l ->
  exists before last, join sep l = before ++ last /\ P last.
Proof.
  intros Hne Hl. induction Hl as [|x l Hx _ IH]; [congruence|].
  destruct l as [|y l].
  - exists "", x. split; [reflexivity|exact Hx].
  - destruct IH as (before & last & E & Hlast); [discriminate|].
    exists (x ++ sep ++ before), last. split; [|exact Hlast].
    rewrite join_cons, E, !append_assoc; reflexivity.
Qed.

(** A record line with at least one token is the same line after [strip]:
    it starts with the bracket of the tag and ends with a token. *)
Lemma strip_record_line (s : script) (card history : string)
  (actions tokens : list string) :
  tokens <> [] ->
  Forall (fun t => t <> "" /\ solid t = true) tokens ->
  strip (line_text (tag s) card history actions (join " " tokens)
           ++ String newline "")
    = line_text (tag s) card history actions (join " " tokens).
Proof.
  intros Hne Htok.
  destruct (join_last _ " " tokens Hne Htok) as (before & last & -> & Hl & Hs).
  unfold strip, line_text. rewrite append_assoc.
  assert (forall rest, lstrip (info_text (tag s) card history actions ++ rest)
                       = info_text (tag s) card history actions ++ rest) as ->
    by (intro rest; destruct s; reflexivity).
  transitivity
    (rstrip ((info_text (tag s) card history actions ++ String tab before)
               ++ last ++ String newline "")).
  { f_equal. cbn [append]. rewrite !append_assoc. reflexivity. }
  assert (rstrip (last ++ String newline "") = last) as E
    by (apply rstrip_token; auto).
  rewrite rstrip_append; rewrite E; [|exact Hl].
  rewrite append_assoc; reflexivity.
Qed.

(** A text without an end of line, followed by one, is one line of the
    file. *)
Lemma readlines_one_line (l : string) :
  has_char newline l = false -> has_char carriage_return l = false ->
  readlines (l ++ String newline "") = [l ++ String newline ""].
Proof.
  induction l as [|c l IH]; [reflexivity|].
  cbn [has_char]. intros Hn Hr.
  apply orb_false_elim in Hn as [Hn Hn']. apply orb_false_elim in Hr as [Hr Hr'].
  cbn [append readlines]. rewrite (Ascii.eqb_sym c newline), Hn.
  rewrite (Ascii.eqb_sym c carriage_return), Hr, (IH Hn' Hr'). reflexivity.
Qed.

(** No end of line inside a record line whose fields have none. *)
Lemma line_text_one_line (c : ascii) (s : script) (card history : string)
  (actions tokens : list string) :
  c = newline \/ c = carriage_return ->
  has_char c card = false -> has_char c history = false ->
  Forall (fun a => has_char c a = false) actions ->
  Forall (fun t => t <> "" /\ solid t = true) tokens ->
  has_char c (line_text (tag s) card history actions (join " " tokens)) = false.
Proof.
  intros Hc Hcard Hhistory Hacts Htok.
  assert (has_char c (join ", " actions) = false) as Ha.
  { apply join_has_char; [destruct Hc as [->| ->]; reflexivity|exact Hacts]. }
  assert (has_char c (join " " tokens) = false) as Ht.
  { apply join_has_char; [destruct Hc as [->| ->]; reflexivity|].
    eapply Forall_impl; [|exact Htok].
    intros t [_ Hs]. apply solid_has_char; [|exact Hs].
    destruct Hc as [->| ->]; reflexivity. }
  unfold line_text, info_text. cbn [has_char].
  rewrite !has_char_append. cbn [has_char].
  rewrite Hcard, Hhistory, Ha, Ht.
  destruct Hc as [->| ->]; destruct s; reflexivity.
Qed.

(** A record line in the format of the dump is read back field by field:
    a card without ':' and ',', a history without ':', at least one action,
    the actions without ':', ',' and ']', no tab and no end of line in any
    of them, and at least one probability, as tokens with one blank
    between them.  The record line followed by its end is one line of the
    file, and that line stripped is the record line; the history comes
    back stripped, the probabilities as the floats of their tokens, and the
    second loop writes them under the card and the key of the stripped
    history and the actions. *)
Theorem record_line_is_read_back (s : script) (card history : string)
  (actions tokens : list string) (probs : list float) :
  has_char ":" card = false -> has_char "," card = false -> inline card ->
  has_char ":" history = false -> inline history ->
  actions <> [] ->
  Forall (fun a => has_char ":" a = false /\ has_char "," a = false
                   /\ has_char "]" a = false /\ inline a)
    actions ->
  tokens <> [] ->
  Forall (fun t => t <> "" /\ solid t = true) tokens ->
  mapM float_of_string tokens = Ok probs ->
  readlines (line_text (tag s) card history actions (join " " tokens)
               ++ String newline "")
    = [line_text (tag s) card history actions (join " " tokens)
         ++ String newline ""]
  /\ strip (line_text (tag s) card history actions (join " " tokens)
              ++ String newline "")
     = line_text (tag s) card history actions (join " " tokens)
  /\ parse_line (line_text (tag s) card history actions (join " " tokens))
     = Ok (card, strip history, actions, probs)
  /\ line_record s (line_text (tag s) card history actions (join " " tokens))
     = (key <- make_key s (strip history) actions ;;
        Ok (Some (card, key, probs))).
Proof.
  intros Hcc Hcm (Hct & Hcn & Hcr) Hh (Hht & Hhn & Hhr) Hne Hacts Htne Htok
    Hprobs.
  assert (parse_line (line_text (tag s) card history actions (join " " tokens))
          = Ok (card, strip history, actions, probs)) as Hparse.
  { apply record_line_fields; auto.
    - eapply Forall_impl; [|exact Hacts].
      intros a (H1 & H2 & H3 & H4 & _); auto.
    - apply join_has_char; [reflexivity|].
      eapply Forall_impl; [|exact Htok].
      intros t [_ Ht]. apply solid_has_char; [reflexivity|exact Ht].
    - rewrite split_ws_join; assumption. }
  split.
  { apply readlines_one_line; apply line_text_one_line; auto;
      eapply Forall_impl; try exact Hacts; cbn beta.
    - intros a (_ & _ & _ & _ & H & _); exact H.
    - intros a (_ & _ & _ & _ & _ & H); exact H. }
  split; [apply strip_record_line; assumption|].
  split; [exact Hparse|].
  unfold line_record. rewrite Hparse.
  assert (startswith (line_text (tag s) card history actions (join " " tokens))
            (tag s) = true) as ->; [|reflexivity].
  unfold startswith, line_text, info_text. rewrite !append_assoc.
  apply prefix_append.
Qed.

Lemma record_line_is_read_back_witness :
  readlines Scenario.after_check = [Scenario.after_check]
  /\ strip Scenario.after_check
     = line_text (tag p0) "A" "CHECK, BET" ["CALLBET"; "FOLD"; "RAISE"]
         (join " " ["0.2"; "0.6"; "0.2"])
  /\ parse_line (strip Scenario.after_check)
     = Ok ("A", "CHECK, BET", ["CALLBET"; "FOLD"; "RAISE"],
           [Numbers.dec "0.2"; Numbers.dec "0.6"; Numbers.dec "0.2"])
  /\ line_record p0 (strip Scenario.after_check)
     = Ok (Some ("A", "CHECK, BET|CALLBET,FOLD,RAISE",
                 [Numbers.dec "0.2"; Numbers.dec "0.6"; Numbers.dec "0.2"])).
Proof.
  assert (Scenario.after_check
          = line_text (tag p0) "A" "CHECK, BET" ["CALLBET"; "FOLD"; "RAISE"]
              (join " " ["0.2"; "0.6"; "0.2"]) ++ String newline "") as ->
    by reflexivity.
  destruct (record_line_is_read_back p0 "A" "CHECK, BET"
              ["CALLBET"; "FOLD"; "RAISE"] ["0.2"; "0.6"; "0.2"]
              [Numbers.dec "0.2"; Numbers.dec "0.6"; Numbers.dec "0.2"])
    as (Hlines & Hstrip & Hparse & Hrecord);
    try reflexivity; try discriminate.
  - repeat split; reflexivity.
  - repeat split; reflexivity.
  - repeat (apply Forall_cons; [repeat split; reflexivity|]); apply Forall_nil.
  - repeat (apply Forall_cons; [split; [discriminate|reflexivity]|]);
      apply Forall_nil.
  - rewrite Hstrip. split; [exact Hlines|]. split; [reflexivity|].
    split; [exact Hparse|exact Hrecord].
Defined.

End ParseInfo.

(** ** The bet-into table and the keys *)

Module BetInto.

Import PyStr PyFloat Scripts LoopFacts TableFacts.

Lemma option_ext {A : Type} (o o' : option A) :
  (forall x, o = Some x <-> o' = Some x) -> o = o'.
Proof.
  intro H; destruct o as [a|].
  - symmetry; apply H; reflexivity.
  - destruct o' as [a'|]; [apply H|]; reflexivity.
Qed.

(** The bet-into table of player 1 holds, for each card, the first three
    numbers stored under "BET|CALLBET,FOLD,RAISE" as they are, or three
    zeros when the card has no such record; no product is taken. *)
Theorem p1_bet_into_cells (text : string) (strategies : strategy_index)
  (checked_to bet_into : DataFrame) (c : nat) (card : string)
  (card_data : card_strategy) :
  P1.strategies_of (readlines text) = Ok strategies ->
  P1.parse_strategy_file text = Ok (checked_to, bet_into) ->
  nth_error (columns bet_into) c = Some card ->
  dict_get strategies card = Some card_data ->
  forall r,
    cell bet_into r c = nth_error (firstn 3 (P1.bet_into_probs card_data)) r.
Proof.
  intros Hidx Hparse Hcard Hcd r.
  unfold P1.parse_strategy_file, P1.parse_lines in Hparse.
  rewrite Hidx in Hparse; cbn [bind] in Hparse.
  pose proof (p1_build_tables_inv _ _ Hparse) as (cards & cols & _ & Hcols & E).
  assert (exists col, P1.compound card_data = Ok col) as (col & Hcol).
  { injection E as _ ->; simpl in Hcard.
    destruct (mapM_nth _ _ _ _ _ Hcols Hcard) as (col & _ & Hcol).
    unfold P1.column_of, dict_item in Hcol. rewrite Hcd in Hcol.
    exists col; exact Hcol. }
  assert (snd col = firstn 3 (P1.bet_into_probs card_data)) as <-.
  { apply p1_compound_inv in Hcol
      as (? & ? & ? & ? & callbet & fold & raise & _ & _ & _ & H0 & H1 & H2 & ->).
    unfold item in H0, H1, H2.
    destruct (P1.bet_into_probs card_data) as [|a0 [|a1 [|a2 rest]]];
      try discriminate.
    simpl in H0, H1, H2 |- *. congruence. }
  apply option_ext; intro x.
  rewrite (proj2 (p1_cell _ _ _ r c x Hparse)). split.
  - intros (card' & cd' & col' & Hc' & Hcd' & Hcol' & Hx). congruence.
  - intro Hx; exists card, card_data, col; auto.
Qed.


Lemma p1_bet_into_cells_witness :
  exists checked_to bet_into,
    P1.parse_strategy_file Scenario.dump_p1_K = Ok (checked_to, bet_into)
    /\ cell bet_into 0 0 = Some (Numbers.dec "0.5")
    /\ cell bet_into 1 0 = Some (Numbers.dec "0.3")
    /\ cell bet_into 2 0 = Some (Numbers.dec "0.2")
    /\ cell bet_into 3 0 = None.
Proof.
  pose proof (p1_bet_into_cells Scenario.dump_p1_K _ _ _ 0 "K" _
                ltac:(vm_compute; reflexivity) ltac:(vm_compute; reflexivity)
                ltac:(vm_compute; reflexivity) ltac:(vm_compute; reflexivity))
    as H.
  eexists; eexists. split; [vm_compute; reflexivity|].
  rewrite !H. repeat split; vm_compute; reflexivity.
Defined.

End BetInto.

Module Keys.

Import PyStr PyFloat Scripts.

(** The two scripts store a record under the same key when it has two or
    three actions; with more, player 0 keeps the first three and player 1
    all; with fewer than two, player 0 raises IndexError. *)
Theorem p0_key_from_p1_key (history : string) (actions : list string) :
  P0.make_key history actions =
    if Nat.ltb (List.length actions) 2 then Err IndexError
    else P1.make_key history (firstn 3 actions).
Proof.
  destruct actions as [|a0 [|a1 [|a2 rest]]]; reflexivity.
Qed.

End Keys.

(** ** Rounding to hundredths *)

Module Rounded.

Import PyStr PyFloat Numbers Scripts Rounding Print Layout.

(** The rounded quotient is within half a unit of the quotient. *)
Lemma round_half_even_spec (n d : N) :
  (0 < d)%N ->
  (2 * Z.abs (Z.of_N (round_half_even n d) * Z.of_N d - Z.of_N n) <= Z.of_N d)%Z.
Proof.
  intro Hd. unfold round_half_even.
  pose proof (N.div_mod' n d) as E.
  assert (n mod d < d)%N as Hr by (apply N.mod_lt; lia).
  set (q := (n / d)%N) in *. set (r := (n mod d)%N) in *.
  assert (Z.of_N n = Z.of_N d * Z.of_N q + Z.of_N r)%Z as EZ by lia.
  destruct (N.compare_spec (2 * r) d) as [Hc|Hc|Hc].
  - destruct (N.even q); lia.
  - lia.
  - lia.
Qed.

Local Open Scope Q_scope.

Lemma of_N_pow (a b : N) : Z.of_N (a ^ b) = (Z.of_N a ^ Z.of_N b)%Z.
Proof. apply N2Z.inj_pow. Qed.

(** The hundredths written for [m * 2 ^ e] are within one half of
    [100 * m * 2 ^ e]. *)
Lemma hundredths_near (m : positive) (e : Z) :
  Qabs (inject_Z (Z.of_N (hundredths m e)) - 100 * (inject_Z (Zpos m) * pow2 e))
    <= 1 # 2.
Proof.
  destruct e as [|p|p]; unfold hundredths.
  - cbn [Z.to_N]. rewrite N.pow_0_r, N.mul_1_r.
    replace (Z.of_N (100 * N.pos m)) with (100 * Zpos m)%Z by lia.
    rewrite inject_Z_mult. apply Qabs_Qle_condition.
    assert (pow2 0 == 1) as -> by reflexivity.
    change (inject_Z 100) with 100. split; lra.
  - assert (Z.of_N (100 * N.pos m * 2 ^ Z.to_N (Z.pos p))
            = (100 * Zpos m * 2 ^ Zpos p)%Z) as ->.
    { rewrite !N2Z.inj_mul, of_N_pow. reflexivity. }
    rewrite !inject_Z_mult, pow2_Z by lia.
    change (inject_Z 100) with 100.
    apply Qabs_Qle_condition. split; lra.
  - pose proof (round_half_even_spec (100 * N.pos m) (2 ^ N.pos p)) as H.
    assert (0 < 2 ^ N.pos p)%N as Hd.
    { apply N.neq_0_lt_0, N.pow_nonzero; discriminate. }
    specialize (H Hd).
    set (n := Z.of_N (round_half_even (100 * N.pos m) (2 ^ N.pos p))) in *.
    assert (Z.of_N (2 ^ N.pos p) = (2 ^ Zpos p)%Z) as ED
      by (rewrite of_N_pow; reflexivity).
    rewrite ED in H.
    replace (Z.of_N (100 * N.pos m)) with (100 * Zpos m)%Z in H by lia.
    assert (inject_Z (2 ^ Zpos p) == pow2 (Zpos p)) as EP by (apply pow2_Z; lia).
    assert (pow2 (Zneg p) * pow2 (Zpos p) == 1) as E1.
    { rewrite <- pow2_add. replace (Z.neg p + Z.pos p)%Z with 0%Z by lia.
      reflexivity. }
    pose proof (pow2_pos (Zneg p)) as Hx. pose proof (pow2_pos (Zpos p)) as Hy.
    assert (200 * inject_Z (Zpos m) <= 2 * (inject_Z n * pow2 (Zpos p)) + pow2 (Zpos p)
            /\ 2 * (inject_Z n * pow2 (Zpos p))
               <= pow2 (Zpos p) + 200 * inject_Z (Zpos m)) as [L U].
    { rewrite <- EP.
      change 2 with (inject_Z 2). change 200 with (inject_Z 200).
      rewrite <- !inject_Z_mult, <- !inject_Z_plus, <- !Zle_Qle.
      lia. }
    revert L U E1 Hx Hy.
    generalize (pow2 (Zneg p)), (pow2 (Zpos p)), (inject_Z n), (inject_Z (Zpos m)).
    intros x y a b L U E1 Hx Hy.
    apply Qabs_Qle_condition.
    assert (x * (200 * b) <= x * (2 * (a * y) + y)) as L'
      by (apply Qmult_le_l; assumption).
    assert (x * (2 * (a * y)) <= x * (y + 200 * b)) as U'
      by (apply Qmult_le_l; assumption).
    assert (a * (x * y) == a) as Ea by (rewrite E1; ring).
    split; nra.
Qed.

End Rounded.

(** ** Widths of the printed fields *)

Module Widths.

Import PyStr PyFloat Numbers Scripts Rounding Print Layout Fields Rounded.

Lemma length_spaces (n : nat) : String.length (spaces n) = n.
Proof. unfold spaces; induction n as [|n IH]; simpl; auto. Qed.

Lemma length_ljust (s : string) (w : nat) :
  String.length (ljust s w) = Nat.max w (String.length s).
Proof. unfold ljust; rewrite length_append, length_spaces; lia. Qed.

Lemma length_rjust (s : string) (w : nat) :
  String.length (rjust s w) = Nat.max w (String.length s).
Proof. unfold rjust; rewrite length_append, length_spaces; lia. Qed.

Lemma decimal_digit (k : N) : (k < 10)%N -> String.length (decimal k) = 1.
Proof.
  intro H. destruct k as [|p]; [reflexivity|].
  do 4 (try destruct p as [p|p|]); first [reflexivity | lia].
Qed.

Lemma decimal_two (k : N) : (k < 100)%N -> String.length (decimal k) <= 2.
Proof.
  intro H. destruct k as [|p]; [auto|].
  do 7 (try destruct p as [p|p|]); first [vm_compute; lia | lia].
Qed.

Lemma decimal_nonempty (k : N) : 1 <= String.length (decimal k).
Proof.
  unfold decimal.
  destruct (N.to_uint k) as [|u|u|u|u|u|u|u|u|u|u] eqn:E; simpl; try lia.
Qed.

Lemma length_fixed2 (n : N) :
  String.length (fixed2 n) = String.length (decimal (n / 100)) + 3.
Proof.
  unfold fixed2. rewrite !length_append.
  rewrite (decimal_digit (n mod 100 / 10)), (decimal_digit (n mod 10)).
  - simpl; lia.
  - apply N.mod_lt; discriminate.
  - apply N.Div0.div_lt_upper_bound. apply N.mod_lt; discriminate.
Qed.

Local Open Scope Q_scope.

(** Hundredths below a bound, from the value below the bound less one
    half. *)
Lemma hundredths_below (m : positive) (e : Z) (bound : Z) :
  100 * (inject_Z (Zpos m) * pow2 e) < inject_Z bound - (1 # 2) ->
  (Z.of_N (hundredths m e) < bound)%Z.
Proof.
  intro H. pose proof (hundredths_near m e) as Hn.
  apply Qabs_Qle_condition in Hn as [_ Hn].
  rewrite Zlt_Qlt. lra.
Qed.

(** A float that fits is written in exactly five characters. *)
Lemma fits_width (x : float) : fits x -> String.length (format_5_2f x) = 5%nat.
Proof.
  intros (Hf & Hlo & Hhi). unfold format_5_2f. rewrite length_rjust.
  destruct x as [s|s| |s m e]; try discriminate Hf.
  - destruct s; reflexivity.
  - cbn [SF2Q] in Hlo, Hhi. fold (pow2 e) in Hlo, Hhi.
    cbn [format_2f]. rewrite length_append, length_fixed2.
    pose proof (decimal_nonempty (hundredths m e / 100)) as H1.
    assert (0 < inject_Z (Zpos m) * pow2 e) as Hpos.
    { apply Qmult_lt_0_compat; [rewrite <- (Zlt_Qlt 0); lia | apply pow2_pos]. }
    destruct s.
    + assert (Z.of_N (hundredths m e) < 1000)%Z as Hb.
      { apply hundredths_below. change (inject_Z 1000) with 1000. lra. }
      rewrite (decimal_digit (hundredths m e / 100)); [reflexivity|].
      apply N.Div0.div_lt_upper_bound. lia.
    + assert (Z.of_N (hundredths m e) < 10000)%Z as Hb.
      { apply hundredths_below. change (inject_Z 10000) with 10000. lra. }
      pose proof (decimal_two (hundredths m e / 100)) as H2.
      assert (hundredths m e / 100 < 100)%N as Hq
        by (apply N.Div0.div_lt_upper_bound; lia).
      specialize (H2 Hq). cbn [String.length]. lia.
Qed.

End Widths.

(** ** What the scripts print *)

Module Printing.

Import PyStr PyFloat Scripts LoopFacts TableFacts Print Layout Fields.

Lemma concat_cons (x : string) (l : list string) :
  concat "" (x :: l) = x ++ concat "" l.
Proof. destruct l; simpl; [rewrite append_empty|]; reflexivity. Qed.

Lemma sequence_prints (l : list string) :
  sequence (map print l) = print (concat "" l).
Proof.
  induction l as [|x l IH]; [reflexivity|].
  cbn [map sequence print fst snd]. rewrite IH, concat_cons; reflexivity.
Qed.

Lemma for_each_print {A : Type} (f : A -> string) (l : list A) :
  for_each (fun x => print (f x)) l = print (concat "" (map f l)).
Proof.
  unfold for_each. rewrite <- sequence_prints, map_map; reflexivity.
Qed.

Lemma print_header_text (df : DataFrame) :
  print_header df = print (header_text df ++ eol).
Proof.
  unfold print_header, header_text. rewrite for_each_print.
  cbn [sequence print fst snd].
  rewrite !append_empty, append_assoc; reflexivity.
Qed.

Lemma print_row_text (df : DataFrame) (label : string) (row : list float) :
  loc df label = Ok row ->
  print_row df label = print (row_text label row ++ eol).
Proof.
  intro H. unfold print_row, row_text. rewrite H, for_each_print.
  cbn [sequence print fst snd].
  rewrite !append_empty, append_assoc; reflexivity.
Qed.

Lemma print_rows_text (df : DataFrame) (labels : list string)
  (rows : list (list float)) :
  Forall2 (fun label row => loc df label = Ok row) labels rows ->
  for_each (print_row df) labels
    = print (concat ""
               (map (fun line => line ++ eol)
                  (map (fun lr => row_text (fst lr) (snd lr)) (combine labels rows)))).
Proof.
  unfold for_each.
  induction 1 as [|label row labels rows H _ IH]; [reflexivity|].
  cbn [map combine sequence fst snd]. rewrite (print_row_text _ _ _ H), IH.
  cbn [print fst snd]. rewrite concat_cons; reflexivity.
Qed.

Lemma position_nth (labels : list string) : forall (r : nat) (label : string),
  NoDup labels -> nth_error labels r = Some label ->
  position label labels = Some r.
Proof.
  induction labels as [|l labels IH]; intros r label Hnd Hr;
    [destruct r; discriminate Hr|].
  apply NoDup_cons_iff in Hnd as [Hl Hnd]. cbn [position].
  destruct r as [|r]; simpl in Hr.
  - injection Hr as ->. rewrite String.eqb_refl; reflexivity.
  - destruct (String.eqb_spec label l) as [->|_].
    + exfalso; apply Hl. eapply nth_error_In; eassumption.
    + rewrite (IH r label Hnd Hr); reflexivity.
Qed.

Lemma Forall2_nth {A B : Type} (R : A -> B -> Prop) (l : list A) :
  forall l' : list B,
    List.length l = List.length l' ->
    (forall r a b, nth_error l r = Some a -> nth_error l' r = Some b -> R a b) ->
    Forall2 R l l'.
Proof.
  induction l as [|x l IH]; intros [|y l'] Hlen H; try discriminate Hlen;
    constructor.
  - apply (H 0); reflexivity.
  - apply IH; [simpl in Hlen; lia|].
    intros r a b; apply (H (S r)).
Qed.

(** With distinct labels and a row for each, [loc] finds the row at the
    position of the label. *)
Lemma loc_rows (df : DataFrame) :
  NoDup (index_labels df) ->
  List.length (values df) = List.length (index_labels df) ->
  Forall2 (fun label row => loc df label = Ok row) (index_labels df) (values df).
Proof.
  intros Hnd Hlen. apply Forall2_nth; [auto|].
  intros r label row Hl Hr. unfold loc.
  rewrite (position_nth _ _ _ Hnd Hl). unfold item; rewrite Hr; reflexivity.
Qed.

Lemma print_table_text (df : DataFrame) :
  NoDup (index_labels df) ->
  List.length (values df) = List.length (index_labels df) ->
  sequence [print_header df; for_each (print_row df) (index_labels df)]
    = print (table_text df).
Proof.
  intros Hnd Hlen.
  rewrite print_header_text, (print_rows_text df _ _ (loc_rows df Hnd Hlen)).
  cbn [sequence print fst snd]. unfold table_text, row_texts.
  rewrite append_empty. cbn [map]. rewrite concat_cons; reflexivity.
Qed.

Lemma sequence_print_cons (s : string) (l : list printed) :
  sequence (print s :: l) = (s ++ fst (sequence l), snd (sequence l)).
Proof. reflexivity. Qed.

Lemma print_table_titled (df : DataFrame) (title : string) :
  NoDup (index_labels df) ->
  List.length (values df) = List.length (index_labels df) ->
  print_table df title = print (titled_text df title).
Proof.
  intros Hnd Hlen. unfold print_table.
  rewrite !sequence_print_cons, (print_table_text df Hnd Hlen).
  cbn [print fst snd]. unfold titled_text.
  rewrite !append_assoc; reflexivity.
Qed.

Lemma NoDup_strategy_names : NoDup P0.strategy_names.
Proof.
  repeat (apply NoDup_cons; [simpl; intuition discriminate|]). apply NoDup_nil.
Qed.

Lemma NoDup_checked_to_names : NoDup P1.checked_to_names.
Proof.
  repeat (apply NoDup_cons; [simpl; intuition discriminate|]). apply NoDup_nil.
Qed.

Lemma NoDup_bet_into_names : NoDup P1.bet_into_names.
Proof.
  repeat (apply NoDup_cons; [simpl; intuition discriminate|]). apply NoDup_nil.
Qed.

Lemma length_rows_of_columns (n : nat) (cols : list (list float)) :
  List.length (rows_of_columns n cols) = n.
Proof. unfold rows_of_columns. rewrite length_map, length_seq; reflexivity. Qed.

(** A run of a script prints nothing and ends with the exception of the
    parser when the parser raises one; otherwise it prints the tables in
    full, line by line, and ends normally: no row label is looked up in
    vain. *)
Theorem main_prints_the_tables (s : script) (text : string) :
  main s text = match run s text with
                | Ok dfs => (stdout_of s dfs, Ok tt)
                | Err e => raise e
                end.
Proof.
  destruct s; unfold main, main_p0, main_p1, run, run_lines,
    P0.parse_strategy_file, P1.parse_strategy_file.
  - destruct (P0.parse_lines (readlines text)) as [df|e] eqn:E; [|reflexivity].
    cbn [bind stdout_of].
    unfold P0.parse_lines in E. bind_inv E.
    apply p0_build_table_inv in E as (cards & cols & _ & _ & ->).
    apply (print_table_text
             {| values := rows_of_columns 5 cols; columns := cards;
                index_labels := P0.strategy_names |}).
    + apply NoDup_strategy_names.
    + apply length_rows_of_columns.
  - destruct (P1.parse_lines (readlines text)) as [[a b]|e] eqn:E; [|reflexivity].
    cbn [bind stdout_of].
    unfold P1.parse_lines in E. bind_inv E.
    apply p1_build_tables_inv in E as (cards & cols & _ & _ & E).
    injection E as -> ->.
    rewrite !print_table_titled;
      [|apply NoDup_bet_into_names|apply length_rows_of_columns
       |apply NoDup_checked_to_names|apply length_rows_of_columns].
    cbn [sequence print fst snd]. rewrite append_empty; reflexivity.
Qed.

End Printing.

(** ** Tables of probabilities in columns *)

Module Aligned.

Import PyStr PyFloat Numbers Scripts Rounding LoopFacts TableFacts Columns.
Import Signs Print Layout Fields Rounded Widths Printing.

Lemma probability_fits (x : float) : probability x -> fits x.
Proof.
  intros (Hf & H0 & H1). split; [exact Hf|].
  split; [apply Qlt_le_trans with (2 := H0) | apply Qle_lt_trans with (1 := H1)];
    reflexivity.
Qed.

(** The product of two probabilities fits. *)
Lemma mul_fits (x y : float) : probability x -> probability y -> fits (mul x y).
Proof.
  intros Hx Hy.
  destruct (mul_probability x y Hx Hy) as (Hf & H0 & He).
  destruct Hx as (_ & Hx0 & Hx1). destruct Hy as (_ & Hy0 & Hy1).
  apply Qabs_Qle_condition in He as [_ He].
  assert (mul_error <= 1)%Q as Hm by (vm_compute; discriminate).
  assert (SF2Q x * SF2Q y <= 1)%Q as Hxy by nra.
  split; [exact Hf|]. split; lra.
Qed.

Lemma probability_zero : probability zero.
Proof. split; [reflexivity|]. split; vm_compute; discriminate. Qed.

Lemma probability_one' : probability one.
Proof. split; [reflexivity|]. split; vm_compute; discriminate. Qed.

Lemma lookup_item_probability (strategies : strategy_index) (card key : string)
  (card_data : card_strategy) (default : list float) (i : nat) (x : float) :
  all_probabilities probability strategies ->
  dict_get strategies card = Some card_data ->
  Forall probability default ->
  item (dict_get_default card_data key default) i = Ok x ->
  probability x.
Proof.
  intros Hall Hcd Hdef Hx. apply item_In in Hx.
  unfold dict_get_default in Hx.
  destruct (dict_get card_data key) as [v|] eqn:E.
  - pose proof (all_probabilities_get _ _ _ _ _ _ Hall Hcd E) as Hv.
    rewrite Forall_forall in Hv; auto.
  - rewrite Forall_forall in Hdef; auto.
Qed.

Ltac probability_defaults :=
  repeat constructor; first [apply probability_zero | apply probability_one'].

Ltac looked_up Hall Hcd H :=
  eapply lookup_item_probability; [exact Hall|exact Hcd| |exact H];
  probability_defaults.

Lemma p0_column_fits (strategies : strategy_index) (card : string)
  (card_data : card_strategy) (col : list float) :
  all_probabilities probability strategies ->
  dict_get strategies card = Some card_data ->
  P0.compound card_data = Ok col ->
  Forall fits col.
Proof.
  intros Hall Hcd Hcol.
  apply p0_compound_inv in Hcol
    as (cp & bp & a1 & a0 & a2 & b1 & b0 & Hcp & Hbp & H1 & H0 & H2 & H4 & H3 & ->).
  unfold P0.check_prob in Hcp. unfold P0.bet_prob in Hbp.
  unfold P0.check_actions in H0, H1, H2. unfold P0.bet_actions in H3, H4.
  assert (probability cp) by looked_up Hall Hcd Hcp.
  assert (probability bp) by looked_up Hall Hcd Hbp.
  assert (probability a0) by looked_up Hall Hcd H0.
  assert (probability a1) by looked_up Hall Hcd H1.
  assert (probability a2) by looked_up Hall Hcd H2.
  assert (probability b0) by looked_up Hall Hcd H3.
  assert (probability b1) by looked_up Hall Hcd H4.
  repeat (apply Forall_cons; [apply mul_fits; assumption|]); apply Forall_nil.
Qed.

Lemma p1_columns_fits (strategies : strategy_index) (card : string)
  (card_data : card_strategy) (cols : list float * list float) :
  all_probabilities probability strategies ->
  dict_get strategies card = Some card_data ->
  P1.compound card_data = Ok cols ->
  Forall fits (fst cols) /\ Forall fits (snd cols).
Proof.
  intros Hall Hcd Hcol.
  apply p1_compound_inv in Hcol
    as (bet & check & callraise & fold & x0 & x1 & x2
        & Hb & Hc & Hr & H0 & H1 & H2 & ->).
  unfold P1.checked_to_probs in Hb, Hc. unfold P1.bet_into_probs in H0, H1, H2.
  assert (probability bet) by looked_up Hall Hcd Hb.
  assert (probability check) by looked_up Hall Hcd Hc.
  assert (probability x0) by looked_up Hall Hcd H0.
  assert (probability x1) by looked_up Hall Hcd H1.
  assert (probability x2) by looked_up Hall Hcd H2.
  assert (probability callraise /\ probability fold) as [? ?].
  { unfold P1.raise_response in Hr.
    destruct (P1.raise_response_probs card_data) as [|v0 v] eqn:E.
    - injection Hr as <- <-. split; [apply probability_zero | apply probability_one'].
    - rewrite <- E in Hr. unfold P1.raise_response_probs in Hr.
      bind_inv Hr. bind_inv Hr. injection Hr as <- <-.
      split; (eapply lookup_item_probability;
              [exact Hall|exact Hcd| |eassumption]; probability_defaults). }
  cbn [fst snd]; split;
    repeat (apply Forall_cons; [auto using mul_fits, probability_fits|]);
    apply Forall_nil.
Qed.

(** Every cell of the tables of a dump of probabilities fits. *)
Lemma cells_fit (s : script) (text : string) (dfs : list DataFrame) :
  tokens_satisfy probability s (readlines text) ->
  run s text = Ok dfs ->
  forall (df : DataFrame) (r c : nat) (x : float),
    In df dfs -> cell df r c = Some x -> fits x.
Proof.
  intros Htok Hrun df r c x Hdf Hx.
  unfold run in Hrun. rewrite run_lines_tables in Hrun.
  apply bind_ok in Hrun as (strategies & Hidx & Hrun).
  pose proof (tokens_in_index _ _ _ _ Hidx Htok) as Hall.
  destruct s.
  - apply bind_ok in Hrun as (df0 & Hb & Hrun). injection Hrun as <-.
    destruct Hdf as [<-|[]].
    apply (p0_cell _ _ r c x Hb) in Hx as (card & cd & col & _ & Hcd & Hcol & Hx).
    pose proof (p0_column_fits _ _ _ _ Hall Hcd Hcol) as Hcolumn.
    rewrite Forall_forall in Hcolumn. apply Hcolumn.
    eapply nth_error_In; eassumption.
  - apply bind_ok in Hrun as ([t1 t2] & Hb & Hrun). injection Hrun as <-.
    destruct (p1_cell _ _ _ r c x Hb) as [H1 H2].
    destruct Hdf as [<-|[<-|[]]].
    + apply H1 in Hx as (card & cd & cols & _ & Hcd & Hcol & Hx).
      destruct (p1_columns_fits _ _ _ _ Hall Hcd Hcol) as [Hcolumn _].
      rewrite Forall_forall in Hcolumn. apply Hcolumn.
      eapply nth_error_In; eassumption.
    + apply H2 in Hx as (card & cd & cols & _ & Hcd & Hcol & Hx).
      destruct (p1_columns_fits _ _ _ _ Hall Hcd Hcol) as [_ Hcolumn].
      rewrite Forall_forall in Hcolumn. apply Hcolumn.
      eapply nth_error_In; eassumption.
Qed.

Lemma length_concat_map {A : Type} (f : A -> string) (k : nat) (l : list A) :
  Forall (fun x => String.length (f x) = k) l ->
  String.length (concat "" (map f l)) = k * List.length l.
Proof.
  induction 1 as [|x l Hx _ IH]; [simpl; lia|].
  cbn [map]. rewrite concat_cons, length_append, Hx, IH. cbn [List.length]. lia.
Qed.

(** The columns, the labels and the rows of the tables of a run. *)
Lemma run_tables_shape (s : script) (text : string) (strategies : strategy_index)
  (dfs : list DataFrame) :
  strategies_of s (readlines text) = Ok strategies ->
  run s text = Ok dfs ->
  Forall (fun df =>
            Permutation (columns df) (dict_keys strategies)
            /\ In (index_labels df) (row_names s)
            /\ Forall (fun row => List.length row = List.length (columns df))
                 (values df)) dfs.
Proof.
  intros Hidx Hrun. unfold run in Hrun.
  rewrite run_lines_tables, Hidx in Hrun. cbn [bind] in Hrun.
  destruct s.
  - apply bind_ok in Hrun as (df & Hb & Hrun). injection Hrun as <-.
    apply p0_build_table_inv in Hb as (cards & cols & Hcards & Hcols & ->).
    constructor; [|constructor]. cbn [columns index_labels values].
    split; [apply (sorted_cards_spec _ _ Hcards)|].
    split; [left; reflexivity|].
    rewrite <- (mapM_length _ _ _ Hcols). apply rows_of_columns_shape.
  - apply bind_ok in Hrun as ([t1 t2] & Hb & Hrun). injection Hrun as <-.
    apply p1_build_tables_inv in Hb as (cards & cols & Hcards & Hcols & Hb).
    injection Hb as -> ->.
    pose proof (mapM_length _ _ _ Hcols) as Hlen.
    constructor; [|constructor; [|constructor]]; cbn [columns index_labels values].
    + split; [apply (sorted_cards_spec _ _ Hcards)|].
      split; [left; reflexivity|].
      rewrite <- Hlen, <- (length_map fst cols). apply rows_of_columns_shape.
    + split; [apply (sorted_cards_spec _ _ Hcards)|].
      split; [right; left; reflexivity|].
      rewrite <- Hlen, <- (length_map snd cols). apply rows_of_columns_shape.
Qed.

Lemma row_names_short (s : script) (labels : list string) (label : string) :
  In labels (row_names s) -> In label labels -> String.length label <= 13.
Proof.
  destruct s; simpl; intros [<-|H]; try (destruct H as [<-|[]]); try contradiction;
    simpl; intuition (subst; simpl; lia).
Qed.

(** The tables of a dump of probabilities are printed in columns: with
    cards of at most three characters, the header line has 12 characters
    and 6 more for each card, every row line 13 and 6 more for each card,
    and every number is written in exactly five characters. *)
Theorem probability_tables_are_aligned (s : script) (text : string)
  (strategies : strategy_index) (dfs : list DataFrame) :
  strategies_of s (readlines text) = Ok strategies ->
  run s text = Ok dfs ->
  tokens_satisfy probability s (readlines text) ->
  Forall (fun card => String.length card <= 3) (dict_keys strategies) ->
  Forall (fun df =>
            String.length (header_text df) = 12 + 6 * List.length (columns df)
            /\ Forall (fun line =>
                         String.length line = 13 + 6 * List.length (columns df))
                 (row_texts df)) dfs
  /\ forall df r c x,
       In df dfs -> cell df r c = Some x -> String.length (format_5_2f x) = 5.
Proof.
  intros Hidx Hrun Htok Hcards.
  pose proof (cells_fit s text dfs Htok Hrun) as Hfit.
  split; [|intros df r c x Hdf Hx; apply fits_width; eauto].
  pose proof (run_tables_shape s text strategies dfs Hidx Hrun) as Hshape.
  rewrite Forall_forall in Hshape |- *. intros df Hdf.
  destruct (Hshape df Hdf) as (Hperm & Hlabels & Hrows). split.
  - unfold header_text. rewrite length_append.
    rewrite (length_concat_map _ 6); [reflexivity|].
    rewrite Forall_forall in Hcards |- *. intros card Hcard.
    rewrite length_append, length_ljust.
    assert (String.length card <= 3) as Hc
      by (apply Hcards, (Permutation_in _ Hperm), Hcard).
    cbn [String.length]. lia.
  - unfold row_texts. rewrite Forall_forall. intros line Hline.
    apply in_map_iff in Hline as ([label row] & <- & Hin). cbn [fst snd].
    pose proof (in_combine_l _ _ _ _ Hin) as Hlabel.
    pose proof (in_combine_r _ _ _ _ Hin) as Hrow.
    unfold row_text. rewrite length_append, length_ljust.
    rewrite (length_concat_map _ 6).
    + rewrite Forall_forall in Hrows. rewrite (Hrows row Hrow).
      pose proof (row_names_short s _ _ Hlabels Hlabel). lia.
    + rewrite Forall_forall. intros x Hx.
      apply In_nth_error in Hrow as (r & Hr). apply In_nth_error in Hx as (c & Hc).
      rewrite length_append, (fits_width x); [reflexivity|].
      apply (Hfit df r c x Hdf). unfold cell. rewrite Hr; exact Hc.
Qed.

Ltac probability_tokens :=
  unfold tokens_satisfy;
  match goal with
  | |- Forall _ ?l => let pl := fresh "pl" in
      set (pl := l); vm_compute in pl; subst pl
  end;
  repeat (apply Forall_cons;
          [let r := fresh "r" in
           let Hr := fresh "Hr" in
           intros r Hr; vm_compute in Hr; injection Hr as <-;
           cbn [record_satisfies];
           repeat (apply Forall_cons;
                   [split; [reflexivity|split; vm_compute; discriminate]|]);
           apply Forall_nil|]);
  apply Forall_nil.

Lemma probability_tables_are_aligned_witness :
  exists df,
    run p0 Scenario.dump_scenario = Ok [df]
    /\ String.length (header_text df) = 12 + 6 * List.length (columns df)
    /\ Forall (fun line => String.length line = 13 + 6 * List.length (columns df))
         (row_texts df)
    /\ header_text df :: row_texts df
       = ["               A  ";
          "CHECK+FOLD     0.18";
          "CHECK+CALLBET  0.06";
          "CHECK+RAISE    0.06";
          "BET+FOLD       0.07";
          "BET+CALLRAISE  0.63"].
Proof.
  pose proof (probability_tables_are_aligned p0 Scenario.dump_scenario _ _
                ltac:(vm_compute; reflexivity) ltac:(vm_compute; reflexivity)
                ltac:(probability_tokens) ltac:(vm_compute; repeat constructor))
    as [H _].
  apply Forall_inv in H. destruct H as [H1 H2].
  eexists. split; [vm_compute; reflexivity|].
  split; [exact H1|]. split; [exact H2|]. vm_compute; reflexivity.
Defined.

End Aligned.

(** ** The place of a cell in its line *)

Module Places.

Import PyStr PyFloat Numbers Scripts Rounding LoopFacts TableFacts Columns.
Import Signs Print Layout Fields Rounded Widths Printing Aligned.

Lemma substring_whole (a b : string) :
  substring 0 (String.length a) (a ++ b) = a.
Proof.
  induction a as [|c a IH]; cbn [String.length append substring].
  - destruct b; reflexivity.
  - rewrite IH; reflexivity.
Qed.

Lemma substring_skip (a b : string) (n m : nat) :
  substring (String.length a + n) m (a ++ b) = substring n m b.
Proof. induction a as [|c a IH]; cbn [String.length append substring plus]; auto. Qed.

(** In a text of pieces of the same width, piece [i] starts at [i] times
    the width. *)
Lemma substring_concat {A : Type} (f : A -> string) (k : nat) (l : list A) :
  Forall (fun x => String.length (f x) = k) l ->
  forall (i : nat) (x : A) (rest : string),
    nth_error l i = Some x ->
    substring (k * i) k (concat "" (map f l) ++ rest) = f x.
Proof.
  induction 1 as [|y l Hy _ IH]; intros i x rest Hi; [destruct i; discriminate Hi|].
  cbn [map]. rewrite concat_cons, append_assoc.
  destruct i as [|i]; simpl in Hi.
  - injection Hi as ->. rewrite Nat.mul_0_r, <- Hy. apply substring_whole.
  - replace (k * S i) with (String.length (f y) + k * i) by (rewrite Hy; lia).
    rewrite substring_skip. apply IH, Hi.
Qed.

(** The tables of a dump of probabilities with cards of at most three
    characters: in the header line the card of column [i] stands after
    three blanks at offset [12 + 6 * i], and in every row line the cell of
    column [i] stands after one blank at offset [13 + 6 * i], in five
    characters. *)
Theorem cells_stand_under_their_cards (s : script) (text : string)
  (strategies : strategy_index) (dfs : list DataFrame) :
  strategies_of s (readlines text) = Ok strategies ->
  run s text = Ok dfs ->
  tokens_satisfy probability s (readlines text) ->
  Forall (fun card => String.length card <= 3) (dict_keys strategies) ->
  forall (df : DataFrame) (i : nat) (card : string),
    In df dfs ->
    nth_error (columns df) i = Some card ->
    substring (12 + 6 * i) 6 (header_text df) = "   " ++ ljust card 3
    /\ forall (r : nat) (label : string) (row : list float) (x : float),
         nth_error (index_labels df) r = Some label ->
         nth_error (values df) r = Some row ->
         nth_error row i = Some x ->
         substring (13 + 6 * i) 6 (row_text label row) = " " ++ format_5_2f x
         /\ String.length (format_5_2f x) = 5.
Proof.
  intros Hidx Hrun Htok Hcards df i card Hdf Hcard.
  pose proof (cells_fit s text dfs Htok Hrun) as Hfit.
  pose proof (run_tables_shape s text strategies dfs Hidx Hrun) as Hshape.
  rewrite Forall_forall in Hshape.
  destruct (Hshape df Hdf) as (Hperm & Hlabels & Hrows). split.
  - unfold header_text.
    rewrite <- (append_empty (concat "" _)).
    change 12 with (String.length "            "). rewrite substring_skip.
    apply (substring_concat (fun card => "   " ++ ljust card 3) 6); [|exact Hcard].
    rewrite Forall_forall in Hcards |- *. intros c Hc.
    rewrite length_append, length_ljust.
    assert (String.length c <= 3) as Hlen
      by (apply Hcards, (Permutation_in _ Hperm), Hc).
    cbn [String.length]. lia.
  - intros r label row x Hlabel Hrow Hx.
    assert (forall y, In y row -> fits y) as Hrowfit.
    { intros y Hy. apply In_nth_error in Hy as (c & Hc).
      apply (Hfit df r c y Hdf). unfold cell. rewrite Hrow; exact Hc. }
    split; [|apply fits_width, Hrowfit; eapply nth_error_In; eassumption].
    unfold row_text.
    rewrite <- (append_empty (concat "" _)).
    assert (String.length (ljust label 13) = 13) as Hl.
    { rewrite length_ljust.
      pose proof (row_names_short s _ label Hlabels) as H.
      assert (String.length label <= 13)
        by (apply H; eapply nth_error_In; eassumption).
      lia. }
    rewrite <- Hl at 1. rewrite substring_skip.
    apply (substring_concat (fun val => " " ++ format_5_2f val) 6); [|exact Hx].
    rewrite Forall_forall. intros y Hy.
    rewrite length_append, (fits_width y (Hrowfit y Hy)); reflexivity.
Qed.

Lemma cells_stand_under_their_cards_witness :
  exists df,
    run p0 Scenario.three_cards = Ok [df]
    /\ nth_error (columns df) 1 = Some "T"
    /\ substring (12 + 6 * 1) 6 (header_text df) = "   T  "
    /\ substring (13 + 6 * 1) 6
         (row_text "CHECK+FOLD" (nth 0 (values df) [])) = "  0.00".
Proof.
  pose proof (cells_stand_under_their_cards p0 Scenario.three_cards _ _
                ltac:(vm_compute; reflexivity) ltac:(vm_compute; reflexivity)
                ltac:(probability_tokens) ltac:(vm_compute; repeat constructor))
    as H.
  eexists. split; [vm_compute; reflexivity|].
  split; [reflexivity|].
  destruct (H _ 1 "T" (or_introl eq_refl) eq_refl) as [Hh Hr].
  split; [exact Hh|].
  exact (proj1 (Hr 0 "CHECK+FOLD" _ _ eq_refl eq_refl eq_refl)).
Defined.

End Places.

(** ** The printed numbers *)

Module PrintedNumbers.

Import PyStr PyFloat Numbers Scripts Rounding Print Layout Rounded.

Local Open Scope Q_scope.

(** A finite number is printed rounded to hundredths: the digits written
    are those of a count of hundredths within 0.005 of its absolute value,
    after "-" when it is below 0. *)
Theorem printed_number_is_rounded (x : float) :
  is_finite x = true ->
  exists n : N,
    Qabs (inject_Z (Z.of_N n) / 100 - Qabs (SF2Q x)) <= 1 # 200
    /\ (0 < SF2Q x -> format_2f x = fixed2 n)
    /\ (SF2Q x < 0 -> format_2f x = "-" ++ fixed2 n)
    /\ (SF2Q x == 0 -> format_2f x = "0.00" \/ format_2f x = "-0.00").
Proof.
  intro Hf. destruct x as [s|s| |s m e]; try discriminate Hf.
  - exists 0%N. cbn [SF2Q format_2f].
    split; [vm_compute; discriminate|].
    split; [intro H; discriminate H|].
    split; [intro H; discriminate H|].
    intros _; destruct s; auto.
  - exists (hundredths m e). cbn [SF2Q format_2f]. fold (pow2 e).
    pose proof (hundredths_near m e) as Hn.
    assert (0 < inject_Z (Zpos m) * pow2 e) as Hpos.
    { apply Qmult_lt_0_compat; [rewrite <- (Zlt_Qlt 0); lia | apply pow2_pos]. }
    assert (Qabs ((if s then Qopp else fun q => q) (inject_Z (Zpos m)) * pow2 e)
            == inject_Z (Zpos m) * pow2 e) as Ea.
    { destruct s.
      - rewrite Qabs_neg; [ring|lra].
      - rewrite Qabs_pos; [reflexivity|lra]. }
    split.
    { rewrite Ea. apply Qabs_Qle_condition in Hn as [L U].
      apply Qabs_Qle_condition.
      set (n := inject_Z (Z.of_N (hundredths m e))) in *.
      set (v := inject_Z (Zpos m) * pow2 e) in *.
      assert (n / 100 == n * (1 # 100)) as -> by reflexivity.
      split; lra. }
    destruct s.
    + split; [lra|]. split; [reflexivity|]. lra.
    + split; [reflexivity|]. split; lra.
Qed.

Lemma printed_number_is_rounded_witness :
  exists n : N,
    Qabs (inject_Z (Z.of_N n) / 100 - Qabs (SF2Q (dec "0.125"))) <= 1 # 200
    /\ format_2f (dec "0.125") = fixed2 n
    /\ fixed2 n = "0.12".
Proof.
  destruct (printed_number_is_rounded (dec "0.125") eq_refl)
    as (n & Hn & Hpos & _).
  exists n. split; [exact Hn|].
  assert (format_2f (dec "0.125") = fixed2 n) as E
    by (apply Hpos; vm_compute; reflexivity).
  split; [exact E|]. rewrite <- E. reflexivity.
Defined.

End PrintedNumbers.

(** ** Cards at the same position *)

Module StableOrder.

Import PyStr PyFloat Scripts LoopFacts TableFacts Columns Stable.

Lemma insert_by_key_filter (k : nat) (x : nat * string) (l : list (nat * string)) :
  filter (fun kx => Nat.eqb (fst kx) k) (insert_by_key x l)
    = filter (fun kx => Nat.eqb (fst kx) k) (x :: l).
Proof.
  induction l as [|y l IH]; [reflexivity|].
  cbn [insert_by_key].
  destruct (Nat.leb (fst x) (fst y)) eqn:E; [reflexivity|].
  apply Nat.leb_gt in E.
  cbn [filter] in *. rewrite IH.
  destruct (Nat.eqb_spec (fst x) k) as [Hx|_]; [|reflexivity].
  destruct (Nat.eqb_spec (fst y) k) as [Hy|_]; [lia|reflexivity].
Qed.

(** The sort keeps the order of the elements with the same key. *)
Lemma sort_by_key_filter (k : nat) (l : list (nat * string)) :
  filter (fun kx => Nat.eqb (fst kx) k) (sort_by_key l)
    = filter (fun kx => Nat.eqb (fst kx) k) l.
Proof.
  induction l as [|x l IH]; [reflexivity|].
  cbn [sort_by_key]. rewrite insert_by_key_filter. cbn [filter].
  rewrite IH; reflexivity.
Qed.

Lemma filter_keyed (k : nat) (l : list (nat * string)) :
  Forall (fun kx => index card_order (snd kx) = Ok (fst kx)) l ->
  filter (at_position k) (map snd l)
    = map snd (filter (fun kx => Nat.eqb (fst kx) k) l).
Proof.
  induction 1 as [|kx l Hkx _ IH]; [reflexivity|].
  cbn [map filter]. rewrite IH.
  assert (at_position k (snd kx) = Nat.eqb (fst kx) k) as ->.
  { unfold at_position. unfold index in Hkx.
    destruct (String.index 0 (snd kx) card_order); [|discriminate Hkx].
    injection Hkx as ->; reflexivity. }
  destruct (Nat.eqb (fst kx) k); reflexivity.
Qed.

Lemma sorted_cards_stable (strategies : strategy_index) (cards : list string)
  (k : nat) :
  sorted_cards strategies = Ok cards ->
  filter (at_position k) cards = filter (at_position k) (dict_keys strategies).
Proof.
  unfold sorted_cards; intro H. bind_inv H. injection H as <-.
  apply with_rank_keys in Hx as [Hkeys Hranks]. rewrite <- Hkeys.
  rewrite !filter_keyed, sort_by_key_filter; [reflexivity|exact Hranks|].
  eapply Permutation_Forall; [symmetry; apply sort_by_key_perm|exact Hranks].
Qed.

(** Cards found at the same position of [card_order] keep, as columns, the
    order in which the index got them: the sort is stable. *)
Theorem equal_positions_keep_their_order (s : script) (text : string)
  (strategies : strategy_index) (dfs : list DataFrame) :
  strategies_of s (readlines text) = Ok strategies ->
  run s text = Ok dfs ->
  Forall (fun df =>
            forall k, filter (at_position k) (columns df)
                      = filter (at_position k) (dict_keys strategies)) dfs.
Proof.
  intros Hidx Hrun. unfold run in Hrun.
  rewrite run_lines_tables, Hidx in Hrun. cbn [bind] in Hrun.
  destruct s.
  - apply bind_ok in Hrun as (df & Hb & Hrun). injection Hrun as <-.
    apply p0_build_table_inv in Hb as (cards & cols & Hcards & _ & ->).
    constructor; [|constructor]. intro k. apply sorted_cards_stable, Hcards.
  - apply bind_ok in Hrun as ([t1 t2] & Hb & Hrun). injection Hrun as <-.
    apply p1_build_tables_inv in Hb as (cards & cols & Hcards & _ & Hb).
    injection Hb as -> ->.
    constructor; [|constructor; [|constructor]]; intro k;
      apply sorted_cards_stable, Hcards.
Qed.

Lemma equal_positions_keep_their_order_witness :
  exists (strategies : strategy_index) df,
    run p0 same_position = Ok [df]
    /\ dict_keys strategies = ["K"; "AK"; "A"]
    /\ columns df = ["AK"; "A"; "K"]
    /\ filter (at_position 0) (columns df)
       = filter (at_position 0) (dict_keys strategies).
Proof.
  pose proof (equal_positions_keep_their_order p0 same_position _ _
                ltac:(vm_compute; reflexivity) ltac:(vm_compute; reflexivity))
    as H.
  apply Forall_inv in H.
  eexists; eexists. split; [vm_compute; reflexivity|].
  split; [|split; [vm_compute; reflexivity|exact (H 0)]].
  vm_compute; reflexivity.
Defined.

End StableOrder.

(** ** The ends of the lines *)

Module LineEndFacts.

Import PyStr PyFloat Scripts LineEnds.

Lemma readlines_crlf (text : string) :
  has_char carriage_return text = false ->
  readlines (crlf text) = readlines text.
Proof.
  induction text as [|c text IH]; [reflexivity|].
  cbn [has_char]. intro H. apply orb_false_elim in H as [Hc Ht].
  specialize (IH Ht). cbn [crlf].
  destruct (Ascii.eqb c newline) eqn:E.
  - apply Ascii.eqb_eq in E; subst c.
    cbn [readlines].
    change (Ascii.eqb carriage_return newline) with false.
    change (Ascii.eqb carriage_return carriage_return) with true.
    change (Ascii.eqb newline newline) with true.
    cbv iota. rewrite IH; reflexivity.
  - cbn [readlines]. rewrite E.
    rewrite Ascii.eqb_sym in Hc. rewrite Hc, IH; reflexivity.
Qed.

(** A file with "\r\n" at the end of its lines gives the result of the
    file with "\n": the same tables or the same exception. *)
Theorem windows_line_ends_change_nothing (s : script) (text : string) :
  has_char carriage_return text = false ->
  run s (crlf text) = run s text.
Proof. intro H. unfold run. rewrite (readlines_crlf text H); reflexivity. Qed.

Lemma windows_line_ends_change_nothing_witness :
  run p1 (crlf Scenario.dump_p1_K) = run p1 Scenario.dump_p1_K
  /\ String.length (crlf Scenario.dump_p1_K)
     = String.length Scenario.dump_p1_K + 5.
Proof.
  split; [|reflexivity].
  apply windows_line_ends_change_nothing. reflexivity.
Defined.

End LineEndFacts.
